(** * Master side of the Wazuh cluster synchronisation protocol

    A shallow embedding of [framework/wazuh/core/cluster/master.py]:
    the per-worker handler [MasterHandler], the three receive tasks with
    their done-callbacks, the synchronisation coroutines, the DAPI
    correlator and the health view of [Master].

    Conventions.
    - Python [bytes] and [str] are both [string].
    - A Python [dict] used as a map is a [gmap]; a list stays a [list].
    - Methods that mutate [self] or [self.server], or that talk to the
      peer, live in the monad [M]: state passing plus Python exceptions.
      A raised exception keeps the state changes made before it.
    - What the peer and the agent database answer is an argument of the
      method that asks; the clock, the JSON codec, the path functions and
      the functions of [wazuh.core.cluster.cluster] are the members of the
      class [Collaborators]. *)

From Stdlib Require Import ZArith List String Ascii Bool Lia.
From stdpp Require Import base option gmap strings list fin_maps.
Import ListNotations.
Local Open Scope string_scope.
Local Open Scope Z_scope.

(** ** Exceptions *)

Inductive Exc : Type :=
| WazuhClusterError (code : Z) (extra_message : string)
| KeyError (key : string)
| ValueError (msg : string)
| TypeError (msg : string)
| IndexError (msg : string)
| TimeoutError
| CancelledError
| OtherException (msg : string).

(** [isinstance(e, exception.WazuhException)]: of the exceptions above only
    the cluster error belongs to the Wazuh hierarchy. *)
Definition is_WazuhException (e : Exc) : bool :=
  match e with
  | WazuhClusterError _ _ => true
  | _ => false
  end.

(** [isinstance(e, Exception)]: [asyncio.CancelledError] derives from
    [BaseException] only, so that an [except Exception] clause lets it
    through. *)
Definition is_Exception (e : Exc) : bool :=
  match e with
  | CancelledError => false
  | _ => true
  end.

(** ** Byte strings *)

(** [str(b)] for a Python bool. *)
Definition str_bool (b : bool) : string := if b then "True" else "False".

(** [str(b)] for a bytes object: its literal. *)
Definition str_bytes (b : string) : string := "b'" ++ b ++ "'".

(** [s.split(sep, 1)]: at most one split, at the first separator. *)
Fixpoint split1 (sep : ascii) (s : string) : list string :=
  match s with
  | EmptyString => [EmptyString]
  | String c rest =>
      if Ascii.eqb c sep then [EmptyString; rest]
      else match split1 sep rest with
           | h :: t => String c h :: t
           | [] => [String c EmptyString]
           end
  end.

Definition space : ascii := " "%char.

(** [s.startswith(p)]. *)
Definition startswith (s p : string) : bool := String.prefix p s.

(** ** Status records

    A status field holds a [datetime] object until the first round
    finishes and the formatted string afterwards. *)

Inductive DateVal : Type :=
| DDatetime (t : Z)
| DString (s : string).

(** [datetime.fromtimestamp(0)]. *)
Definition default_date : DateVal := DDatetime 0.

Record IntegrityCheckStatus : Type := mkIntegrityCheckStatus {
  ic_date_start_master : DateVal;
  ic_date_end_master : DateVal
}.

Record TotalFiles : Type := mkTotalFiles {
  tf_missing : Z;
  tf_shared : Z;
  tf_extra : Z;
  tf_extra_valid : Z
}.

Record IntegritySyncStatus : Type := mkIntegritySyncStatus {
  is_date_start_master : DateVal;
  is_tmp_date_start_master : DateVal;
  is_date_end_master : DateVal;
  is_total_extra_valid : Z;
  is_total_files : TotalFiles
}.

Record AgentInfoStatus : Type := mkAgentInfoStatus {
  ai_date_start_master : DateVal;
  ai_date_end_master : DateVal;
  ai_n_synced_chunks : Z
}.

(** ** Receive tasks *)

Inductive TaskClass : Type :=
| ReceiveIntegrityTask
| ReceiveExtraValidTask
| ReceiveAgentInfoTask.

Inductive Coro : Type :=
| coro_sync_integrity
| coro_sync_extra_valid
| coro_sync_wazuh_db_info.

(** [set_up_coro] of the three task classes. *)
Definition set_up_coro (c : TaskClass) : Coro :=
  match c with
  | ReceiveIntegrityTask => coro_sync_integrity
  | ReceiveExtraValidTask => coro_sync_extra_valid
  | ReceiveAgentInfoTask => coro_sync_wazuh_db_info
  end.

(** The artifact handle of a task: nothing yet, a file name, or an error
    put there in place of the name. *)
Inductive Artifact : Type :=
| NoArtifact
| ArtifactName (filename : string)
| ArtifactError (e : Exc).

Record ReceiveTask : Type := mkReceiveTask {
  task_class : TaskClass;
  task_coro : Coro;
  task_data : string;
  filename : Artifact;
  received_information : bool;
  cancel_requested : bool;
  coro_finished : bool
}.

(** ** The handler and the server *)

Record WorkerInfo : Type := mkWorkerInfo {
  version : string;
  cluster_name : string;
  node_type : string;
  ip : string;
  last_keepalive : Z
}.

Record MasterHandler : Type := mkMasterHandler {
  name : string;
  sync_agent_info_free : bool;
  sync_integrity_free : bool;
  extra_valid_requested : bool;
  integrity_check_status : IntegrityCheckStatus;
  integrity_sync_status : IntegritySyncStatus;
  sync_agent_info_status : AgentInfoStatus;
  hello_info : WorkerInfo;
  sync_tasks : gmap string ReceiveTask;
  in_str : gmap string string
}.

(** [MasterHandler.__init__], for a connection that took [nm] at hello. *)
Definition MasterHandler_init (nm : string) (w : WorkerInfo) : MasterHandler :=
  {| name := nm;
     sync_agent_info_free := true;
     sync_integrity_free := true;
     extra_valid_requested := false;
     integrity_check_status := mkIntegrityCheckStatus default_date default_date;
     integrity_sync_status :=
       mkIntegritySyncStatus default_date default_date default_date 0
         (mkTotalFiles 0 0 0 0);
     sync_agent_info_status := mkAgentInfoStatus default_date default_date 0;
     hello_info := w;
     sync_tasks := ∅;
     in_str := ∅ |}.

Definition set_sync_agent_info_free (v : bool) (h : MasterHandler) : MasterHandler :=
  mkMasterHandler (name h) v (sync_integrity_free h) (extra_valid_requested h)
    (integrity_check_status h) (integrity_sync_status h)
    (sync_agent_info_status h) (hello_info h) (sync_tasks h) (in_str h).

Definition set_sync_integrity_free (v : bool) (h : MasterHandler) : MasterHandler :=
  mkMasterHandler (name h) (sync_agent_info_free h) v (extra_valid_requested h)
    (integrity_check_status h) (integrity_sync_status h)
    (sync_agent_info_status h) (hello_info h) (sync_tasks h) (in_str h).

Definition set_extra_valid_requested (v : bool) (h : MasterHandler) : MasterHandler :=
  mkMasterHandler (name h) (sync_agent_info_free h) (sync_integrity_free h) v
    (integrity_check_status h) (integrity_sync_status h)
    (sync_agent_info_status h) (hello_info h) (sync_tasks h) (in_str h).

Definition set_integrity_check_status (v : IntegrityCheckStatus) (h : MasterHandler)
  : MasterHandler :=
  mkMasterHandler (name h) (sync_agent_info_free h) (sync_integrity_free h)
    (extra_valid_requested h) v (integrity_sync_status h)
    (sync_agent_info_status h) (hello_info h) (sync_tasks h) (in_str h).

Definition set_integrity_sync_status (v : IntegritySyncStatus) (h : MasterHandler)
  : MasterHandler :=
  mkMasterHandler (name h) (sync_agent_info_free h) (sync_integrity_free h)
    (extra_valid_requested h) (integrity_check_status h) v
    (sync_agent_info_status h) (hello_info h) (sync_tasks h) (in_str h).

Definition set_sync_agent_info_status (v : AgentInfoStatus) (h : MasterHandler)
  : MasterHandler :=
  mkMasterHandler (name h) (sync_agent_info_free h) (sync_integrity_free h)
    (extra_valid_requested h) (integrity_check_status h) (integrity_sync_status h)
    v (hello_info h) (sync_tasks h) (in_str h).

Definition set_sync_tasks (v : gmap string ReceiveTask) (h : MasterHandler)
  : MasterHandler :=
  mkMasterHandler (name h) (sync_agent_info_free h) (sync_integrity_free h)
    (extra_valid_requested h) (integrity_check_status h) (integrity_sync_status h)
    (sync_agent_info_status h) (hello_info h) v (in_str h).

Definition set_in_str (v : gmap string string) (h : MasterHandler) : MasterHandler :=
  mkMasterHandler (name h) (sync_agent_info_free h) (sync_integrity_free h)
    (extra_valid_requested h) (integrity_check_status h) (integrity_sync_status h)
    (sync_agent_info_status h) (hello_info h) (sync_tasks h) v.

(** One entry of [files_metadata.json] / of the master snapshot. *)
Record FileMeta : Type := mkFileMeta {
  md5 : string;
  merged : bool;
  merge_type : string;
  merge_name : string;
  cluster_item_key : string
}.

(** [{'Event': asyncio.Event(), 'Response': ''}]. *)
Record PendingRequest : Type := mkPendingRequest {
  Event_is_set : bool;
  Response : string
}.

Record Configuration : Type := mkConfiguration {
  cfg_node_name : string;
  cfg_node_type : string;
  cfg_name : string;
  cfg_nodes : list string
}.

Record Master : Type := mkMaster {
  configuration : Configuration;
  clients : gmap string MasterHandler;
  integrity_control : gmap string FileMeta;
  integrity_already_executed : list string;
  pending_api_requests : gmap string PendingRequest;
  local_server_clients : gset string
}.

(** [Master.__init__]. *)
Definition Master_init (cfg : Configuration) : Master :=
  {| configuration := cfg;
     clients := ∅;
     integrity_control := ∅;
     integrity_already_executed := [];
     pending_api_requests := ∅;
     local_server_clients := ∅ |}.

Definition set_integrity_already_executed (v : list string) (m : Master) : Master :=
  mkMaster (configuration m) (clients m) (integrity_control m) v
    (pending_api_requests m) (local_server_clients m).

Definition set_pending_api_requests (v : gmap string PendingRequest) (m : Master)
  : Master :=
  mkMaster (configuration m) (clients m) (integrity_control m)
    (integrity_already_executed m) v (local_server_clients m).

Definition set_clients (v : gmap string MasterHandler) (m : Master) : Master :=
  mkMaster (configuration m) v (integrity_control m)
    (integrity_already_executed m) (pending_api_requests m)
    (local_server_clients m).

Definition set_integrity_control (v : gmap string FileMeta) (m : Master) : Master :=
  mkMaster (configuration m) (clients m) v (integrity_already_executed m)
    (pending_api_requests m) (local_server_clients m).

(** A file of the master's disk: content and [st_mtime], the latter in
    microseconds since the epoch. *)
Record DiskFile : Type := mkDiskFile {
  content : string;
  st_mtime_us : Z
}.

(** What a method does to the outside, in the order it does it. *)
Inductive Event : Type :=
| EvSendRequest (link command data : string)
| EvSendFile (link path : string)
| EvForwardDapiResponse (data : string)
| EvLocalClientSendRequest (client command data : string)
| EvDapiAddRequest (data : string)
| EvSendsyncAddRequest (data : string)
| EvWdbSend (msg : string)
| EvCompressFiles (worker : string) (paths : gset string) (archive : string)
| EvUnlink (path : string)
| EvRmtree (path : string)
| EvSleep0.

(** The world a method of one handler runs in: the handler itself, the
    server it points back to, the master's disk, the effects so far and
    the number of clock readings taken. *)
Record State : Type := mkState {
  self : MasterHandler;
  server : Master;
  disk : gmap string DiskFile;
  events : list Event;
  ticks : nat
}.

Definition with_self (f : MasterHandler -> MasterHandler) (s : State) : State :=
  mkState (f (self s)) (server s) (disk s) (events s) (ticks s).

Definition with_server (f : Master -> Master) (s : State) : State :=
  mkState (self s) (f (server s)) (disk s) (events s) (ticks s).

Definition with_disk (f : gmap string DiskFile -> gmap string DiskFile) (s : State)
  : State :=
  mkState (self s) (server s) (f (disk s)) (events s) (ticks s).

(** ** The monad of methods *)

Inductive Outcome (A : Type) : Type :=
| Return (a : A)
| Raise (e : Exc).
Arguments Return {A} a.
Arguments Raise {A} e.

Definition M (A : Type) : Type := State -> Outcome A * State.

Definition ret {A} (a : A) : M A := fun s => (Return a, s).

Definition bind {A B} (c : M A) (k : A -> M B) : M B :=
  fun s => match c s with
           | (Return a, s') => k a s'
           | (Raise e, s') => (Raise e, s')
           end.

Definition raise {A} (e : Exc) : M A := fun s => (Raise e, s).

(** [try: c except Exception as e: h e]. The clauses of the source name
    [Exception] or a subclass of it; what is no [Exception] passes through
    them. *)
Definition try_except {A} (c : M A) (h : Exc -> M A) : M A :=
  fun s => match c s with
           | (Return a, s') => (Return a, s')
           | (Raise e, s') => if is_Exception e then h e s' else (Raise e, s')
           end.

(** [try: c finally: f]. *)
Definition try_finally {A} (c : M A) (f : M unit) : M A :=
  fun s => match c s with
           | (o, s') =>
               match f s' with
               | (Return _, s'') => (o, s'')
               | (Raise e, s'') => (Raise e, s'')
               end
           end.

Definition get_state : M State := fun s => (Return s, s).
Definition modify (f : State -> State) : M unit := fun s => (Return tt, f s).
Definition emit (e : Event) : M unit :=
  modify (fun s => mkState (self s) (server s) (disk s) (events s ++ [e]) (ticks s)).

Declare Scope py_scope.
Delimit Scope py_scope with py.
Notation "'let*' x ':=' c 'in' k" := (bind c (fun x => k))
  (at level 10, x name, c at level 100, k at level 200, only parsing) : py_scope.
Notation "'let*' ' pat ':=' c 'in' k" := (bind c (fun x => match x with pat => k end))
  (at level 10, pat pattern, c at level 100, k at level 200, only parsing) : py_scope.
Notation "c ';;;' k" := (bind c (fun _ => k))
  (at level 95, right associativity, only parsing) : py_scope.
Local Open Scope py_scope.

(** [a, b = xs]: unpacking into exactly two names. *)
Definition unpack2 (xs : list string) : M (string * string) :=
  match xs with
  | [a; b] => ret (a, b)
  | _ => raise (ValueError "not enough values to unpack (expected 2, got 1)")
  end.

(** [for x in xs: body x], in the monad. *)
Fixpoint for_each {A} (xs : list A) (body : A -> M unit) : M unit :=
  match xs with
  | [] => ret tt
  | x :: rest => body x ;;; for_each rest body
  end.

(** ** Values exchanged with the collaborators *)

(** What [send_request] hands back: the peer's bytes, or an exception
    object returned as a value. *)
Inductive Reply : Type :=
| RBytes (b : string)
| RException (e : Exc).

(** The four buckets of [compare_files]. *)
Record WorkerFilesKo : Type := mkWorkerFilesKo {
  ko_missing : gmap string FileMeta;
  ko_shared : gmap string FileMeta;
  ko_extra : gmap string FileMeta;
  ko_extra_valid : gmap string FileMeta
}.

(** The node filter of [get_health] after [json.loads]: [null], an object
    (only its keys matter) or an array of names. *)
Inductive FilterNode : Type :=
| FilterNone
| FilterDict (keys : list string)
| FilterList (items : list string).

(** [last_keep_alive]: POSIX seconds in the handler, text in the view. *)
Inductive KeepAlive : Type :=
| KeepAliveRaw (t : Z)
| KeepAliveStr (s : string).

Record NodeInfo : Type := mkNodeInfo {
  info_name : string;
  info_type : string;
  info_version : string;
  info_ip : string;
  info_n_active_agents : option Z
}.

(** The [tmp_] keys are filtered out of the projection. *)
Record LastSyncIntegrity : Type := mkLastSyncIntegrity {
  lsi_date_start_master : DateVal;
  lsi_date_end_master : DateVal;
  lsi_total_extra_valid : Z;
  lsi_total_files : TotalFiles
}.

Record NodeStatus : Type := mkNodeStatus {
  st_sync_integrity_free : bool;
  st_last_check_integrity : IntegrityCheckStatus;
  st_last_sync_integrity : LastSyncIntegrity;
  st_last_sync_agentinfo : AgentInfoStatus;
  st_last_keep_alive : KeepAlive
}.

(** A node of the health document; the master's own entry has no
    ['status'] key. *)
Record NodeEntry : Type := mkNodeEntry {
  node_info : NodeInfo;
  node_status : option NodeStatus
}.

Record HealthDoc : Type := mkHealthDoc {
  n_connected_nodes : nat;
  nodes : gmap string NodeEntry
}.

(** An entry of [result['error_messages']]: a raw database response or the
    text of an exception. *)
Inductive ErrorMessage : Type :=
| ErrResponse (response : list string)
| ErrText (msg : string).

Record SyncResult : Type := mkSyncResult {
  updated_chunks : Z;
  error_messages : list ErrorMessage
}.

(** The agent-info payload after [json.loads]. *)
Record AgentInfoPayload : Type := mkAgentInfoPayload {
  set_data_command : string;
  chunks : list string
}.

(** A member that [unmerge_info] yields: path, bytes, mtime text. *)
Record MergedMember : Type := mkMergedMember {
  file_path : string;
  file_data : string;
  file_time : string
}.

(** ** External collaborators

    Functions of the repository and of the Python library that
    [master.py] calls and that are outside this file. They are kept
    abstract; [wall_clock k] is what the [k]-th reading of the clock
    returns. *)
Class Collaborators : Type := {
  wall_clock : nat -> Z;
  strftime : Z -> string;
  strptime : string -> string -> option Z;
  metadata_version : string;
  wazuh_path : string;
  path_join : string -> string -> string;
  basename : string -> string;
  relpath : string -> string;
  n_active_agents : string -> Z;
  json_loads_filter : string -> Outcome FilterNode;
  json_loads_agent_info : string -> Outcome AgentInfoPayload;
  json_dumps_health : HealthDoc -> string;
  json_dumps_result : SyncResult -> string;
  json_dumps_exc : Exc -> string;
  json_loads_exc : string -> Exc;
  str_wazuh_error : Z -> string -> string;
  repr_key : string -> string;
  get_nodes_json : string -> Master -> Outcome string;
  super_process_request : string -> string -> M (string * string);
  decompress_files : string -> Outcome (list (string * FileMeta) * string);
  compare_files :
    gmap string FileMeta -> list (string * FileMeta) -> string ->
    WorkerFilesKo * TotalFiles;
  compress_files : string -> gset string -> WorkerFilesKo -> string;
  unmerge_info : string -> string -> string -> list MergedMember * option Exc;
  file_permissions : string -> option Z
}.

(** [str(e)]. The text of a Wazuh error is composed by
    [wazuh.core.exception] from its code and its extra message
    ([str_wazuh_error]); the text of a [KeyError] is the [repr] of its key
    ([repr_key]), quotes included; the other exceptions carry their
    text. *)
Definition str_exc `{Collaborators} (e : Exc) : string :=
  match e with
  | WazuhClusterError code m => str_wazuh_error code m
  | KeyError k => repr_key k
  | ValueError m => m
  | TypeError m => m
  | IndexError m => m
  | TimeoutError => ""
  | CancelledError => ""
  | OtherException m => m
  end.

(** Lifting an [Outcome] into the monad. *)
Definition lift {A} (o : Outcome A) : M A :=
  match o with
  | Return a => ret a
  | Raise e => raise e
  end.

(** [x in xs] for a list of names. *)
Definition name_in (x : string) (xs : list string) : bool :=
  existsb (String.eqb x) xs.

(** [datetime.now()] and [datetime.utcnow()]: one reading of the clock. *)
Definition datetime_now `{Collaborators} : M Z :=
  fun s => (Return (wall_clock (ticks s)),
            mkState (self s) (server s) (disk s) (events s) (S (ticks s))).

(** [await self.send_request(command, data)] on this worker's link; the
    peer's answer is [peer command data]. *)
Definition send_request (peer : string -> string -> Reply) (command data : string)
  : M Reply :=
  let* s := get_state in
  emit (EvSendRequest (name (self s)) command data) ;;;
  ret (peer command data).

(** [r.decode()] on what [send_request] returned. *)
Definition decode (r : Reply) : M string :=
  match r with
  | RBytes b => ret b
  | RException e => raise (OtherException "object has no attribute 'decode'")
  end.

(** ** MasterHandler: permission probes and begin/end of a receive *)

Section Handler.
Context `{Collaborators}.

(** [MasterHandler.get_permission]. *)
Definition get_permission (sync_type : string) : M (string * string) :=
  let* s := get_state in
  let* permission :=
    if String.eqb sync_type "syn_i_w_m_p"
       && negb (name_in (name (self s)) (integrity_already_executed (server s)))
    then
      modify (with_server (fun m =>
        set_integrity_already_executed
          (integrity_already_executed m ++ [name (self s)]) m)) ;;;
      ret (sync_integrity_free (self s))
    else if String.eqb sync_type "syn_a_w_m_p" then
      ret (sync_agent_info_free (self s))
    else
      ret false in
  ret ("ok", str_bool permission).

(** Modelled from the spec: [WazuhCommon.setup_receive_file] is inherited
    from [wazuh.core.cluster.common], which is not part of this file. It
    allocates a ReceiveTask bound to the continuation of its class, puts it
    in the task map under a new task-id and returns that id. [task_id] is
    the identifier drawn for the task; calling the [None] class is a
    [TypeError]. *)
Definition setup_receive_file (task_id : string) (ws_type : option TaskClass)
    (data : string) : M (string * string) :=
  match ws_type with
  | None => raise (TypeError "'NoneType' object is not callable")
  | Some cls =>
      modify (with_self (fun h =>
        set_sync_tasks
          (<[task_id := mkReceiveTask cls (set_up_coro cls) data NoArtifact
                          false false false]> (sync_tasks h)) h)) ;;;
      ret ("ok", task_id)
  end.

(** [MasterHandler.setup_sync_integrity]. *)
Definition setup_sync_integrity (task_id : string) (sync_type data : string)
  : M (string * string) :=
  let* sync_function :=
    if String.eqb sync_type "syn_i_w_m" then
      modify (with_self (set_sync_integrity_free false)) ;;;
      ret (Some ReceiveIntegrityTask)
    else if String.eqb sync_type "syn_e_w_m" then
      ret (Some ReceiveExtraValidTask)
    else if String.eqb sync_type "syn_a_w_m" then
      modify (with_self (set_sync_agent_info_free false)) ;;;
      ret (Some ReceiveAgentInfoTask)
    else
      ret None in
  setup_receive_file task_id sync_function data.

Definition set_task_artifact (a : Artifact) (t : ReceiveTask) : ReceiveTask :=
  mkReceiveTask (task_class t) (task_coro t) (task_data t) a true
    (cancel_requested t) (coro_finished t).

(** Modelled from the spec: [WazuhCommon.error_receiving_file] is
    inherited. The payload is the task-id, a space and the error; the error
    takes the place of the task's file name and the task's signal is set,
    so that the continuation surfaces it. A task-id that is not in the map
    is a [KeyError]. *)
Definition error_receiving_file (taskname_and_error_details : string)
  : M (string * string) :=
  let* '(taskname, error_details) :=
    unpack2 (split1 space taskname_and_error_details) in
  let* s := get_state in
  match sync_tasks (self s) !! taskname with
  | None => raise (KeyError taskname)
  | Some t =>
      modify (with_self (fun h =>
        set_sync_tasks
          (<[taskname := set_task_artifact
                           (ArtifactError (json_loads_exc error_details)) t]>
             (sync_tasks h)) h)) ;;;
      ret ("ok", "Error received")
  end.

(** [MasterHandler.process_sync_error_from_worker]. *)
Definition process_sync_error_from_worker (error_msg : string)
  : M (string * string) :=
  modify (with_self (set_sync_integrity_free true)) ;;;
  error_receiving_file error_msg.

(** Modelled from the spec: [WazuhCommon.end_receiving_file] is inherited.
    It binds the received file name to the task and sets the task's
    signal. A task-id that is not in the map is a [KeyError]. *)
Definition end_receiving_file (task_and_file_names : string) : M (string * string) :=
  let* '(task_name, file_name) := unpack2 (split1 space task_and_file_names) in
  let* s := get_state in
  match sync_tasks (self s) !! task_name with
  | None => raise (KeyError task_name)
  | Some t =>
      modify (with_self (fun h =>
        set_sync_tasks
          (<[task_name := set_task_artifact (ArtifactName file_name) t]>
             (sync_tasks h)) h)) ;;;
      ret ("ok", "File correctly received")
  end.

(** [MasterHandler.end_receiving_integrity_checksums]. *)
Definition end_receiving_integrity_checksums (task_and_file_names : string)
  : M (string * string) :=
  end_receiving_file task_and_file_names.

(** ** MasterHandler: DAPI responses *)

Definition set_response (payload : string) (p : PendingRequest) : PendingRequest :=
  mkPendingRequest (Event_is_set p) payload.

Definition set_event (p : PendingRequest) : PendingRequest :=
  mkPendingRequest true (Response p).

(** [MasterHandler.process_dapi_res]. *)
Definition process_dapi_res (data : string) : M (string * string) :=
  let* '(req_id, string_id) := unpack2 (split1 space data) in
  let* s := get_state in
  if bool_decide (req_id ∈ dom (pending_api_requests (server s))) then
    let* payload :=
      match in_str (self s) !! string_id with
      | Some p => ret p
      | None => raise (KeyError string_id)
      end in
    modify (with_server (fun m =>
      set_pending_api_requests
        (alter (set_response payload) req_id (pending_api_requests m)) m)) ;;;
    modify (with_server (fun m =>
      set_pending_api_requests
        (alter set_event req_id (pending_api_requests m)) m)) ;;;
    modify (with_self (fun h => set_in_str (delete string_id (in_str h)) h)) ;;;
    ret ("ok", "Forwarded response")
  else if bool_decide (req_id ∈ local_server_clients (server s)) then
    emit (EvForwardDapiResponse data) ;;;
    ret ("ok", "Response forwarded to worker")
  else
    raise (WazuhClusterError 3032 req_id).

(** ** Health view *)

(** [MasterHandler.to_dict]. *)
Definition to_dict (h : MasterHandler) : NodeEntry :=
  {| node_info :=
       {| info_name := name h;
          info_type := node_type (hello_info h);
          info_version := version (hello_info h);
          info_ip := ip (hello_info h);
          info_n_active_agents := None |};
     node_status := Some
       {| st_sync_integrity_free := sync_integrity_free h;
          st_last_check_integrity := integrity_check_status h;
          st_last_sync_integrity :=
            {| lsi_date_start_master := is_date_start_master (integrity_sync_status h);
               lsi_date_end_master := is_date_end_master (integrity_sync_status h);
               lsi_total_extra_valid := is_total_extra_valid (integrity_sync_status h);
               lsi_total_files := is_total_files (integrity_sync_status h) |};
          st_last_sync_agentinfo := sync_agent_info_status h;
          st_last_keep_alive := KeepAliveRaw (last_keepalive (hello_info h)) |} |}.

(** [Master.to_dict]; [configuration['nodes'][0]] needs one node at least. *)
Definition Master_to_dict (m : Master) : Outcome NodeEntry :=
  match cfg_nodes (configuration m) with
  | [] => Raise (IndexError "list index out of range")
  | ip0 :: _ =>
      Return
        {| node_info :=
             {| info_name := cfg_node_name (configuration m);
                info_type := cfg_node_type (configuration m);
                info_version := metadata_version;
                info_ip := ip0;
                info_n_active_agents := None |};
           node_status := None |}
  end.

(** [filter_node is None]. *)
Definition filter_is_None (f : FilterNode) : bool :=
  match f with
  | FilterNone => true
  | _ => false
  end.

(** [filter_node == {}]: only an object without keys equals the empty
    dict; an empty array does not. *)
Definition filter_eq_empty_dict (f : FilterNode) : bool :=
  match f with
  | FilterDict [] => true
  | _ => false
  end.

(** [key in filter_node], evaluated only when the filter is not [None]. *)
Definition key_in_filter (key : string) (f : FilterNode) : bool :=
  match f with
  | FilterNone => false
  | FilterDict keys => name_in key keys
  | FilterList items => name_in key items
  end.

(** The condition of the comprehension over [self.clients]. *)
Definition worker_selected (f : FilterNode) (key : string) : bool :=
  filter_is_None f || filter_eq_empty_dict f || key_in_filter key f.

(** The condition under which the master adds its own entry. *)
Definition master_selected (f : FilterNode) (node_name : string) : bool :=
  filter_is_None f || key_in_filter node_name f.

(** The body of the loop over [workers_info.keys()] raises on an entry of
    a type other than ['master'] that has no ['status']. *)
Definition entry_raises (e : NodeEntry) : bool :=
  negb (String.eqb (info_type (node_info e)) "master")
  && match node_status e with None => true | Some _ => false end.

Definition format_keep_alive (k : KeepAlive) : KeepAlive :=
  match k with
  | KeepAliveRaw t => KeepAliveStr (strftime t)
  | KeepAliveStr s => KeepAliveStr s
  end.

(** One turn of that loop on the entry of [node_name]. *)
Definition fill_entry (node_name : string) (e : NodeEntry) : NodeEntry :=
  let info' :=
    mkNodeInfo (info_name (node_info e)) (info_type (node_info e))
      (info_version (node_info e)) (info_ip (node_info e))
      (Some (n_active_agents node_name)) in
  if String.eqb (info_type (node_info e)) "master" then
    mkNodeEntry info' (node_status e)
  else
    mkNodeEntry info'
      (option_map (fun st =>
         mkNodeStatus (st_sync_integrity_free st) (st_last_check_integrity st)
           (st_last_sync_integrity st) (st_last_sync_agentinfo st)
           (format_keep_alive (st_last_keep_alive st)))
         (node_status e)).

(** [Master.get_health]. *)
Definition Master_get_health (m : Master) (filter_node : FilterNode)
  : Outcome HealthDoc :=
  let workers_info : gmap string NodeEntry :=
    to_dict <$>
      filter (fun kv => Is_true (worker_selected filter_node kv.1)) (clients m) in
  let n := size workers_info in
  let with_master : Outcome (gmap string NodeEntry) :=
    if master_selected filter_node (cfg_node_name (configuration m)) then
      match Master_to_dict m with
      | Return e => Return (<[cfg_node_name (configuration m) := e]> workers_info)
      | Raise x => Raise x
      end
    else Return workers_info in
  match with_master with
  | Raise x => Raise x
  | Return workers_info =>
      if bool_decide (map_Forall (fun _ e => entry_raises e = false) workers_info)
      then Return (mkHealthDoc n (map_imap (fun k e => Some (fill_entry k e))
                                    workers_info))
      else Raise (KeyError "status")
  end.

(** [MasterHandler.get_health]. *)
Definition get_health (filter_nodes : FilterNode) : M (string * HealthDoc) :=
  let* s := get_state in
  let* d := lift (Master_get_health (server s) filter_nodes) in
  ret ("ok", d).

(** [MasterHandler.get_nodes]; the call into the server base and the JSON
    on both sides are one collaborator. *)
Definition get_nodes (data : string) : M (string * string) :=
  let* s := get_state in
  let* res := lift (get_nodes_json data (server s)) in
  ret ("ok", res).

(** [MasterHandler.process_request]. [task_id] is the identifier that a
    begin-receive command would give its new task. *)
Definition process_request (task_id : string) (command data : string)
  : M (string * string) :=
  if String.eqb command "syn_i_w_m_p" || String.eqb command "syn_a_w_m_p" then
    get_permission command
  else if String.eqb command "syn_i_w_m" || String.eqb command "syn_e_w_m"
          || String.eqb command "syn_a_w_m" then
    setup_sync_integrity task_id command data
  else if String.eqb command "syn_i_w_m_e" || String.eqb command "syn_e_w_m_e" then
    end_receiving_integrity_checksums data
  else if String.eqb command "syn_i_w_m_r" then
    process_sync_error_from_worker data
  else if String.eqb command "dapi" then
    let* s := get_state in
    emit (EvDapiAddRequest (name (self s) ++ "*" ++ data)) ;;;
    ret ("ok", "Added request to API requests queue")
  else if String.eqb command "dapi_res" then
    process_dapi_res data
  else if String.eqb command "dapi_err" then
    let* '(dapi_client, error_msg) := unpack2 (split1 space data) in
    let* s := get_state in
    if bool_decide (dapi_client ∈ local_server_clients (server s)) then
      emit (EvLocalClientSendRequest dapi_client command error_msg) ;;;
      ret ("ok", "DAPI error forwarded to worker")
    else raise (KeyError dapi_client)
  else if String.eqb command "get_nodes" then
    get_nodes data
  else if String.eqb command "get_health" then
    let* f := lift (json_loads_filter data) in
    let* '(cmd, res) := get_health f in
    ret (cmd, json_dumps_health res)
  else if String.eqb command "sendsync" then
    let* s := get_state in
    emit (EvSendsyncAddRequest (name (self s) ++ "*" ++ data)) ;;;
    ret ("ok", "Added request to SendSync requests queue")
  else
    super_process_request command data.

(** ** Agent-info synchronisation *)

(** One turn of the loop over [data['chunks']]: the body of the [try] and
    its [except Exception]. [wdb i msg] is what the agent database does
    with the [i]-th message. [wdb_conn.send] is a plain call, not an
    [await]: no cancellation is raised inside it, and the clause takes
    whatever the call raises. *)
Definition update_chunk (response : Outcome (list string)) (result : SyncResult)
  : SyncResult :=
  match response with
  | Return (r0 :: rest) =>
      if String.eqb r0 "ok"
      then mkSyncResult (updated_chunks result + 1) (error_messages result)
      else mkSyncResult (updated_chunks result)
             (error_messages result ++ [ErrResponse (r0 :: rest)])
  | Return [] =>
      mkSyncResult (updated_chunks result)
        (error_messages result ++ [ErrText "list index out of range"])
  | Raise e =>
      mkSyncResult (updated_chunks result)
        (error_messages result ++ [ErrText (str_exc e)])
  end.

Fixpoint update_chunks (wdb : nat -> string -> Outcome (list string))
    (cmd : string) (i : nat) (cs : list string) (result : SyncResult)
  : M SyncResult :=
  match cs with
  | [] => ret result
  | chunk :: rest =>
      let msg := cmd ++ " " ++ chunk in
      emit (EvWdbSend msg) ;;;
      update_chunks wdb cmd (S i) rest (update_chunk (wdb i msg) result)
  end.

(** [MasterHandler.sync_wazuh_db_info]. *)
Definition sync_wazuh_db_info (peer : string -> string -> Reply)
    (wdb : nat -> string -> Outcome (list string)) (task_id : string) : M Reply :=
  let* date_start_master := datetime_now in
  let result := mkSyncResult 0 [] in
  let* s := get_state in
  let* data :=
    match in_str (self s) !! task_id with
    | None =>
        send_request peer "syn_m_a_err"
          ("error while trying to access string under task_id "
           ++ str_bytes task_id ++ ".") ;;;
        raise (WazuhClusterError 3035
                 ("it should be under task_id " ++ str_bytes task_id
                  ++ ", but it's empty."))
    | Some received_string =>
        match json_loads_agent_info received_string with
        | Return d => ret d
        | Raise (ValueError m) =>
            send_request peer "syn_m_a_err"
              ("error while trying to load JSON: " ++ m) ;;;
            raise (WazuhClusterError 3036 m)
        | Raise e => raise e
        end
    end in
  let* result := update_chunks wdb (set_data_command data) 0 (chunks data) result in
  let* response := send_request peer "syn_m_a_e" (json_dumps_result result) in
  let* date_end_master := datetime_now in
  modify (with_self (set_sync_agent_info_status
    (mkAgentInfoStatus (DString (strftime date_start_master))
       (DString (strftime date_end_master)) (updated_chunks result)))) ;;;
  ret response.

(** ** Integrity synchronisation *)

(** The start of both file coroutines: wait for the task's signal, then
    read the artifact. A signal that is not set by the time the coroutine
    is resumed is the timeout of [asyncio.wait_for]. *)
Definition wait_received_file (task_id : string) : M string :=
  let* s := get_state in
  match sync_tasks (self s) !! task_id with
  | None => raise (KeyError task_id)
  | Some t =>
      if received_information t then
        match filename t with
        | ArtifactName f => ret f
        | ArtifactError e => raise e
        | NoArtifact => raise (TypeError "expected str, bytes or os.PathLike object")
        end
      else raise TimeoutError
  end.

(** [strftime] on a status field that holds a [datetime]. *)
Definition strftime_field (d : DateVal) : M DateVal :=
  match d with
  | DDatetime t => ret (DString (strftime t))
  | DString _ => raise (OtherException "'str' object has no attribute 'strftime'")
  end.

(** The stamping of [integrity_sync_status] that closes a round; [sync_integrity]
    reads the clock with [now], [sync_extra_valid] with [utcnow]. *)
Definition stamp_integrity_sync_end : M unit :=
  let* t := datetime_now in
  let* s := get_state in
  let st := integrity_sync_status (self s) in
  let* start := strftime_field (is_tmp_date_start_master st) in
  modify (with_self (set_integrity_sync_status
    (mkIntegritySyncStatus start (is_tmp_date_start_master st)
       (DString (strftime t)) (is_total_extra_valid st) (is_total_files st)))).

(** The two [except] clauses of the push: both report [syn_m_c_r]. *)
Definition report_push_error (peer : string -> string -> Reply)
    (push_task_id : string) (e : Exc) : M Reply :=
  if is_WazuhException e then
    send_request peer "syn_m_c_r" (push_task_id ++ " " ++ json_dumps_exc e)
  else
    send_request peer "syn_m_c_r"
      (push_task_id ++ " " ++ json_dumps_exc (WazuhClusterError 1000 (str_exc e))).

(** [x.startswith(b'Error')] on an answer that is an exception object but
    no [Exception]: the attribute is missing. *)
Definition no_startswith : Exc :=
  OtherException "'CancelledError' object has no attribute 'startswith'".

(** The [try] block of the push, with its handlers. The local [task_id]
    is the worker's push-task-id once [syn_m_c] was answered, and
    ['None'] when that answer is an error. An answer that is an exception
    object is raised when it is an [Exception]; otherwise the test goes on
    to [startswith], which fails. When that happens to the answer to
    [syn_m_c], the local [task_id] is still the exception object, and the
    handler fails in turn at [task_id + b' '], before it sends. *)
Definition push_archive (peer : string -> string -> Reply)
    (send_file_result : Outcome unit) (compressed_data : string) : M Reply :=
  let* s := get_state in
  let* r := send_request peer "syn_m_c" "" in
  match r with
  | RException e =>
      if is_Exception e then report_push_error peer "None" e
      else raise (TypeError
                    "unsupported operand type(s) for +: 'CancelledError' and 'bytes'")
  | RBytes b =>
      if startswith b "Error" then
        report_push_error peer "None" (WazuhClusterError 3016 (str_bytes b))
      else
        try_except
          (emit (EvSendFile (name (self s)) compressed_data) ;;;
           lift send_file_result ;;;
           let* result :=
             send_request peer "syn_m_c_e" (b ++ " " ++ relpath compressed_data) in
           match result with
           | RException e => if is_Exception e then raise e else raise no_startswith
           | RBytes rb =>
               if startswith rb "Error" then raise (WazuhClusterError 3016 rb)
               else ret result
           end)
          (report_push_error peer b)
  end.

(** [MasterHandler.sync_integrity]. [send_file_result] is how the
    streaming of the archive ends. *)
Definition sync_integrity (peer : string -> string -> Reply)
    (send_file_result : Outcome unit) (task_id : string) : M Reply :=
  let* date_start_master := datetime_now in
  let* received_filename := wait_received_file task_id in
  let* '(files_metadata, decompressed_files_path) :=
    lift (decompress_files received_filename) in
  emit (EvRmtree decompressed_files_path) ;;;
  let* s := get_state in
  let '(worker_files_ko, counts) :=
    compare_files (integrity_control (server s)) files_metadata (name (self s)) in
  let* _total_time := datetime_now in
  modify (with_self (set_extra_valid_requested
    (negb (bool_decide (ko_extra_valid worker_files_ko = ∅))))) ;;;
  let* t_end := datetime_now in
  modify (with_self (set_integrity_check_status
    (mkIntegrityCheckStatus (DString (strftime date_start_master))
       (DString (strftime t_end))))) ;;;
  if (size (ko_missing worker_files_ko) + size (ko_shared worker_files_ko)
      + size (ko_extra worker_files_ko) + size (ko_extra_valid worker_files_ko)
      =? 0)%nat
  then
    send_request peer "syn_m_c_ok" ""
  else
    let* t_tmp := datetime_now in
    modify (with_self (fun h =>
      set_integrity_sync_status
        (mkIntegritySyncStatus (is_date_start_master (integrity_sync_status h))
           (DDatetime t_tmp) (is_date_end_master (integrity_sync_status h))
           0 counts) h)) ;;;
    let master_files_paths :=
      dom (ko_shared worker_files_ko) ∪ dom (ko_missing worker_files_ko) in
    let compressed_data :=
      compress_files (name (self s)) master_files_paths worker_files_ko in
    emit (EvCompressFiles (name (self s)) master_files_paths compressed_data) ;;;
    try_finally
      (push_archive peer send_file_result compressed_data)
      (emit (EvUnlink compressed_data) ;;;
       let* s' := get_state in
       if extra_valid_requested (self s') then ret tt
       else stamp_integrity_sync_end).

(** ** Applying the files of a worker *)

Record NErrors : Type := mkNErrors {
  n_errors_errors : gmap string Z;
  n_errors_warnings : gmap string Z
}.

(** [d[key] = 1 if d.get(key) is None else d[key] + 1]. *)
Definition bump_if_None (key : string) (d : gmap string Z) : gmap string Z :=
  match d !! key with
  | None => <[key := 1]> d
  | Some v => <[key := v + 1]> d
  end.

(** [d[key] = 1 if not d.get(key) else d[key] + 1]. *)
Definition bump_if_not (key : string) (d : gmap string Z) : gmap string Z :=
  match d !! key with
  | None => <[key := 1]> d
  | Some v => if v =? 0 then <[key := 1]> d else <[key := v + 1]> d
  end.

(** Modelled from the spec: [utils.safe_move] is outside this file. It
    moves the source to the destination and, when a time is given, sets
    the modification time of the destination to it (in seconds). Ownership
    and permission bits are not part of the disk model. A missing source
    is an error. *)
Definition safe_move (src dst : string) (time : option Z) : M unit :=
  let* s := get_state in
  match disk s !! src with
  | None => raise (OtherException "No such file or directory")
  | Some f =>
      let t := match time with
               | Some secs => secs * 1000000
               | None => st_mtime_us f
               end in
      modify (with_disk (fun d => <[dst := mkDiskFile (content f) t]> (delete src d)))
  end.

(** [open(path, 'wb')] followed by [f.write(data)]. *)
Definition write_file (path data : string) : M unit :=
  let* t := datetime_now in
  modify (with_disk (fun d => <[path := mkDiskFile data t]> d)).

(** The two [strptime] attempts on a member's time. *)
Definition parse_mtime (file_time : string) : option Z :=
  match strptime file_time "%Y-%m-%d %H:%M:%S.%f" with
  | Some t => Some t
  | None => strptime file_time "%Y-%m-%d %H:%M:%S"
  end.

(** [datetime.utcfromtimestamp(int(os.stat(path).st_mtime))], in
    microseconds: [int] drops the fraction of a second. *)
Definition local_mtime_of (f : DiskFile) : Z :=
  Z.quot (st_mtime_us f) 1000000 * 1000000.

(** [timegm(mtime.timetuple())]: whole seconds since the epoch. *)
Definition timegm_of (mtime : Z) : Z := mtime / 1000000.

(** [agent_id not in agent_ids]; [agent_ids] is the empty dict when the
    agent overview could not be read. *)
Definition agent_known (agent_id : string) (agent_ids : Outcome (list string)) : bool :=
  match agent_ids with
  | Return ids => name_in agent_id ids
  | Raise _ => false
  end.

Definition bump_total_extra_valid (h : MasterHandler) : MasterHandler :=
  let st := integrity_sync_status h in
  set_integrity_sync_status
    (mkIntegritySyncStatus (is_date_start_master st) (is_tmp_date_start_master st)
       (is_date_end_master st) (is_total_extra_valid st + 1) (is_total_files st)) h.

Definition add_error (key : string) (n : NErrors) : NErrors :=
  mkNErrors (bump_if_None key (n_errors_errors n)) (n_errors_warnings n).

Definition add_warning (key : string) (n : NErrors) : NErrors :=
  mkNErrors (n_errors_errors n) (bump_if_None key (n_errors_warnings n)).

(** The body of the loop over the members of a merged file, inside
    [update_file]. A [continue] leaves the turn before the cooperative
    [asyncio.sleep(0)]; the inner [except Exception] does not. *)
Definition update_member (agent_ids : Outcome (list string)) (data : FileMeta)
    (m : MergedMember) (n_errors : NErrors) : M NErrors :=
  let* s := get_state in
  let full_unmerged_name := path_join wazuh_path (file_path m) in
  let tmp_unmerged_path :=
    path_join (path_join (path_join (path_join wazuh_path "queue") "cluster")
                 (name (self s))) (basename (file_path m)) in
  let agent_id := basename (file_path m) in
  if negb (agent_known agent_id agent_ids) then
    ret (add_warning (cluster_item_key data) n_errors)
  else
    match parse_mtime (file_time m) with
    | None =>
        emit EvSleep0 ;;;
        ret (add_error (cluster_item_key data) n_errors)
    | Some mtime =>
        let old :=
          match disk s !! full_unmerged_name with
          | Some f => local_mtime_of f >? mtime
          | None => false
          end in
        if old then ret n_errors
        else
          write_file tmp_unmerged_path (file_data m) ;;;
          let mtime_epoch := timegm_of mtime in
          match file_permissions (cluster_item_key data) with
          | None =>
              emit EvSleep0 ;;;
              ret (add_error (cluster_item_key data) n_errors)
          | Some _ =>
              safe_move tmp_unmerged_path full_unmerged_name (Some mtime_epoch) ;;;
              modify (with_self bump_total_extra_valid) ;;;
              emit EvSleep0 ;;;
              ret n_errors
          end
    end.

Fixpoint update_members (agent_ids : Outcome (list string)) (data : FileMeta)
    (ms : list MergedMember) (n_errors : NErrors) : M NErrors :=
  match ms with
  | [] => ret n_errors
  | m :: rest =>
      let* n := update_member agent_ids data m n_errors in
      update_members agent_ids data rest n
  end.

(** The tail of [update_file]: the two outer [except] clauses and the
    bookkeeping under [error_updating_file]. *)
Definition record_update_error (data : FileMeta) (e : Exc) (n : NErrors) : NErrors :=
  if is_WazuhException e then
    mkNErrors (n_errors_errors n)
      (bump_if_not (cluster_item_key data) (n_errors_warnings n))
  else
    mkNErrors (bump_if_not (cluster_item_key data) (n_errors_errors n))
      (n_errors_warnings n).

(** [update_file], the closure of [process_files_from_worker]. The
    generator [unmerge_info] yields its members and may then fail; it is a
    plain generator, so that its failure is no cancellation and one of
    the two outer [except] clauses takes it. *)
Definition update_file (agent_ids : Outcome (list string))
    (decompressed_files_path : string) (name_ : string) (data : FileMeta)
    (n_errors : NErrors) : M NErrors :=
  let full_path := path_join wazuh_path name_ in
  if String.eqb (basename name_) "client.keys" then
    ret (record_update_error data (WazuhClusterError 3007 "") n_errors)
  else if merged data then
    let '(members, failure) :=
      unmerge_info (merge_type data) decompressed_files_path (merge_name data) in
    let* n := update_members agent_ids data members n_errors in
    match failure with
    | Some e => ret (record_update_error data e n)
    | None => ret n
    end
  else
    let zip_path := path_join decompressed_files_path name_ in
    match file_permissions (cluster_item_key data) with
    | None => ret (record_update_error data (KeyError (cluster_item_key data)) n_errors)
    | Some _ =>
        try_except (safe_move zip_path full_path None ;;; ret n_errors)
          (fun e => ret (record_update_error data e n_errors))
    end.

(** [MasterHandler.process_files_from_worker]; [agents] is the outcome of
    the agent overview. *)
Fixpoint process_files_from_worker (agents : Outcome (list string))
    (files_metadata : list (string * FileMeta)) (decompressed_files_path : string)
    (n_errors : NErrors) : M NErrors :=
  match files_metadata with
  | [] => ret n_errors
  | (filename_, data) :: rest =>
      let* n := update_file agents decompressed_files_path filename_ data n_errors in
      process_files_from_worker agents rest decompressed_files_path n
  end.

(** [MasterHandler.sync_worker_files]. *)
Definition sync_worker_files (agents : Outcome (list string)) (task_id : string)
  : M unit :=
  let* received_filename := wait_received_file task_id in
  let* '(files_metadata, decompressed_files_path) :=
    lift (decompress_files received_filename) in
  try_finally
    (process_files_from_worker agents files_metadata decompressed_files_path
       (mkNErrors ∅ ∅) ;;; ret tt)
    (emit (EvRmtree decompressed_files_path)).

(** [MasterHandler.sync_extra_valid]. *)
Definition sync_extra_valid (agents : Outcome (list string)) (task_id : string)
  : M unit :=
  sync_worker_files agents task_id ;;;
  stamp_integrity_sync_end ;;;
  modify (with_self (set_extra_valid_requested false)) ;;;
  modify (with_self (set_sync_integrity_free true)).

(** ** Done-callbacks of the three tasks *)

(** Modelled from the spec: the [done_callback] of the inherited
    [ReceiveFileTask] and [ReceiveStringTask]. A ReceiveTask is destroyed
    when its continuation returns: the task leaves the session's task
    map. *)
Definition super_done_callback (task_id : string) : M unit :=
  modify (with_self (fun h => set_sync_tasks (delete task_id (sync_tasks h)) h)).

(** [ReceiveIntegrityTask.done_callback]. *)
Definition ReceiveIntegrityTask_done_callback (task_id : string) : M unit :=
  super_done_callback task_id ;;;
  let* s := get_state in
  if negb (extra_valid_requested (self s)) then
    modify (with_self (set_sync_integrity_free true))
  else ret tt.

(** [ReceiveExtraValidTask.done_callback]. *)
Definition ReceiveExtraValidTask_done_callback (task_id : string) : M unit :=
  super_done_callback task_id ;;;
  modify (with_self (set_extra_valid_requested false)) ;;;
  modify (with_self (set_sync_integrity_free true)).

(** [ReceiveAgentInfoTask.done_callback]. *)
Definition ReceiveAgentInfoTask_done_callback (task_id : string) : M unit :=
  super_done_callback task_id ;;;
  modify (with_self (set_sync_agent_info_free true)).

Definition done_callback (cls : TaskClass) (task_id : string) : M unit :=
  match cls with
  | ReceiveIntegrityTask => ReceiveIntegrityTask_done_callback task_id
  | ReceiveExtraValidTask => ReceiveExtraValidTask_done_callback task_id
  | ReceiveAgentInfoTask => ReceiveAgentInfoTask_done_callback task_id
  end.

(** ** Connection loss *)

(** [pending_task.task.cancel()]: a request to cancel; a finished task
    ignores it. *)
Definition task_cancel (t : ReceiveTask) : ReceiveTask :=
  if coro_finished t then t
  else mkReceiveTask (task_class t) (task_coro t) (task_data t) (filename t)
         (received_information t) true (coro_finished t).

(** Modelled from the spec: [AbstractServerHandler.connection_lost] is
    inherited. The worker registration is removed on connection loss. *)
Definition super_connection_lost : M unit :=
  let* s := get_state in
  modify (with_server (fun m => set_clients (delete (name (self s)) (clients m)) m)).

(** [MasterHandler.connection_lost]. *)
Definition connection_lost : M unit :=
  super_connection_lost ;;;
  modify (with_self (fun h => set_sync_tasks (task_cancel <$> sync_tasks h) h)).

(** ** The DAPI correlator *)

(** What [execute] holds in [result] between sending and waiting. *)
Inductive ExecResult : Type :=
| ResultStr (r : string)
| ResultPair (status payload : string).

(** [MasterHandler.execute] up to its wait: the entry under the fresh
    [request_id], then the send or the local dispatch. *)
Definition execute_send (peer : string -> string -> Reply)
    (request_id task_id : string) (command data : string) : M ExecResult :=
  modify (with_server (fun m =>
    set_pending_api_requests
      (<[request_id := mkPendingRequest false ""]> (pending_api_requests m)) m)) ;;;
  if String.eqb command "dapi_fwd" then
    let* '(client, request) := unpack2 (split1 space data) in
    let* s := get_state in
    if bool_decide (client ∈ dom (clients (server s))) then
      emit (EvSendRequest client "dapi" (request_id ++ " " ++ request)) ;;;
      let* r := decode (peer "dapi" (request_id ++ " " ++ request)) in
      ret (ResultStr r)
    else raise (WazuhClusterError 3022 client)
  else if String.eqb command "dapi" then
    let* r0 := send_request peer "dapi" (request_id ++ " " ++ data) in
    let* r := decode r0 in
    ret (ResultStr r)
  else
    let* '(status, payload) := process_request task_id command data in
    ret (ResultPair status payload).

(** The rest of [execute], at the moment its wait ends. For a DAPI
    command the wait ends because the signal of the entry is set, or
    because [timeout_dapi_request] expired ([timed_out]), which cannot
    happen under [wait_for_complete]. [None]: the caller is still
    waiting. *)
Definition execute_wait (wait_for_complete timed_out : bool)
    (request_id : string) (command : string) (result : ExecResult)
  : M (option string) :=
  if String.eqb command "dapi" || String.eqb command "dapi_fwd" then
    let* s := get_state in
    match pending_api_requests (server s) !! request_id with
    | None => raise (KeyError request_id)
    | Some p =>
        if Event_is_set p then ret (Some (Response p))
        else if timed_out && negb wait_for_complete then
          raise (WazuhClusterError 3021 "")
        else ret None
    end
  else
    match result with
    | ResultPair status request_result =>
        if negb (String.eqb status "ok") then
          raise (WazuhClusterError 3022 request_result)
        else ret (Some request_result)
    | ResultStr _ => raise (ValueError "too many values to unpack (expected 2)")
    end.

(** ** The snapshot loop *)

(** One turn of [Master.file_status_update]: the new snapshot is
    published and the per-cycle list is cleared, unless the computation
    failed. *)
Definition file_status_update_turn (snapshot : Outcome (gmap string FileMeta))
    (m : Master) : Master :=
  match snapshot with
  | Return files => set_integrity_already_executed [] (set_integrity_control files m)
  | Raise _ => m
  end.

End Handler.

(** ** The session as a transition system

    What can happen to one session, one event at a time: a command of the
    worker is dispatched, a coroutine of a task runs, a cancelled coroutine
    unwinds, the event loop calls a done-callback, the connection is lost,
    the snapshot loop takes a turn. Each coroutine writes the slot state
    at one place only, so that running it as one event yields the slot
    histories of the interleaved execution. *)

Record CoroInputs : Type := mkCoroInputs {
  in_peer : string -> string -> Reply;
  in_send_file : Outcome unit;
  in_agents : Outcome (list string);
  in_wdb : nat -> string -> Outcome (list string)
}.

Inductive Op : Type :=
| OpRequest (task_id command data : string)
| OpCoroutine (task_id : string) (inputs : CoroInputs)
| OpCancelled (task_id : string)
| OpDoneCallback (task_id : string)
| OpConnectionLost
| OpSnapshot (snapshot : Outcome (gmap string FileMeta)).

Section Transitions.
Context `{Collaborators}.

(** The commands that [process_request] answers itself rather than
    passing to the server base. *)
Definition handled_here (command : string) : bool :=
  name_in command
    ["syn_i_w_m_p"; "syn_a_w_m_p"; "syn_i_w_m"; "syn_e_w_m"; "syn_a_w_m";
     "syn_i_w_m_e"; "syn_e_w_m_e"; "syn_i_w_m_r"; "dapi"; "dapi_res"; "dapi_err";
     "get_nodes"; "get_health"; "sendsync"].

Definition begins_receive (command : string) : bool :=
  name_in command ["syn_i_w_m"; "syn_e_w_m"; "syn_a_w_m"].

Definition run_coro (i : CoroInputs) (c : Coro) (task_id : string) : M unit :=
  match c with
  | coro_sync_integrity =>
      sync_integrity (in_peer i) (in_send_file i) task_id ;;; ret tt
  | coro_sync_extra_valid => sync_extra_valid (in_agents i) task_id
  | coro_sync_wazuh_db_info =>
      sync_wazuh_db_info (in_peer i) (in_wdb i) task_id ;;; ret tt
  end.

Definition mark_finished (task_id : string) (h : MasterHandler) : MasterHandler :=
  set_sync_tasks
    (alter (fun t => mkReceiveTask (task_class t) (task_coro t) (task_data t)
                       (filename t) (received_information t) (cancel_requested t)
                       true)
       task_id (sync_tasks h)) h.

(** The state after an event, or [None] when the event cannot happen in
    that state: a task-id is given to one task only, a coroutine runs for a
    task of the map and once, a done-callback follows the end of its
    coroutine. *)
Definition run_op (op : Op) (s : State) : option State :=
  match op with
  | OpRequest task_id command data =>
      if handled_here command
         && (negb (begins_receive command)
             || negb (bool_decide (task_id ∈ dom (sync_tasks (self s)))))
      then Some (snd (process_request task_id command data s))
      else None
  | OpCoroutine task_id inputs =>
      match sync_tasks (self s) !! task_id with
      | Some t =>
          if coro_finished t then None
          else Some (with_self (mark_finished task_id)
                       (snd (run_coro inputs (task_coro t) task_id s)))
      | None => None
      end
  | OpCancelled task_id =>
      match sync_tasks (self s) !! task_id with
      | Some t =>
          if cancel_requested t && negb (coro_finished t)
          then Some (with_self (mark_finished task_id) s)
          else None
      | None => None
      end
  | OpDoneCallback task_id =>
      match sync_tasks (self s) !! task_id with
      | Some t =>
          if coro_finished t
          then Some (snd (done_callback (task_class t) task_id s))
          else None
      | None => None
      end
  | OpConnectionLost => Some (snd (connection_lost s))
  | OpSnapshot snapshot => Some (with_server (file_status_update_turn snapshot) s)
  end.

Fixpoint run_ops (ops : list Op) (s : State) : option State :=
  match ops with
  | [] => Some s
  | op :: rest =>
      match run_op op s with
      | Some s' => run_ops rest s'
      | None => None
      end
  end.

(** A session right after its handler was constructed. *)
Definition initial_state (nm : string) (w : WorkerInfo) (m : Master)
    (d : gmap string DiskFile) : State :=
  mkState (MasterHandler_init nm w) m d [] 0.

(** The slot invariant of the data model. *)
Definition slot_invariant (h : MasterHandler) : Prop :=
  extra_valid_requested h = true -> sync_integrity_free h = false.

End Transitions.

(** ** MasterHandler: hello *)

(** [s.split(sep)]: a split at every separator. *)
Fixpoint split_all (sep : ascii) (s : string) : list string :=
  match s with
  | EmptyString => [EmptyString]
  | String c rest =>
      if Ascii.eqb c sep then EmptyString :: split_all sep rest
      else match split_all sep rest with
           | h :: t => String c h :: t
           | [] => [String c EmptyString]
           end
  end.

(** [s.count(sep)]: the occurrences of a character. *)
Fixpoint count_char (sep : ascii) (s : string) : nat :=
  match s with
  | EmptyString => 0
  | String c rest => (if Ascii.eqb c sep then 1 else 0) + count_char sep rest
  end.

(** [a, b, c, d = xs]: unpacking into exactly four names. *)
Definition unpack4 (xs : list string) : M (string * string * string * string) :=
  match xs with
  | [a; b; c; d] => ret (a, b, c, d)
  | [] => raise (ValueError "not enough values to unpack (expected 4, got 0)")
  | [_] => raise (ValueError "not enough values to unpack (expected 4, got 1)")
  | [_; _] => raise (ValueError "not enough values to unpack (expected 4, got 2)")
  | [_; _; _] => raise (ValueError "not enough values to unpack (expected 4, got 3)")
  | _ => raise (ValueError "too many values to unpack (expected 4)")
  end.

(** The calls of [hello] into the file system. *)
Inductive FsCall : Type :=
| Mkdir (path : string).

Definition set_hello_info (v : WorkerInfo) (h : MasterHandler) : MasterHandler :=
  mkMasterHandler (name h) (sync_agent_info_free h) (sync_integrity_free h)
    (extra_valid_requested h) (integrity_check_status h) (integrity_sync_status h)
    (sync_agent_info_status h) v (sync_tasks h) (in_str h).

(** [MasterHandler.hello]. [super_hello] is the hello of the server base,
    which names the session and registers it; [path_exists] is
    [os.path.exists]. The result carries, after the command and the
    payload, the directories that [hello] had created. The task loggers
    are not part of the state. *)
Definition hello `{Collaborators} (super_hello : string -> M (string * string))
    (path_exists : string -> bool) (data : string)
  : M (string * string * list FsCall) :=
  let* '(name_, cluster_name_, node_type_, version_) :=
    unpack4 (split_all space data) in
  let* '(cmd, payload) := super_hello name_ in
  modify (with_self (fun h =>
    set_hello_info
      (mkWorkerInfo version_ cluster_name_ node_type_ (ip (hello_info h))
         (last_keepalive (hello_info h))) h)) ;;;
  let* s := get_state in
  if negb (String.eqb (cluster_name (hello_info (self s)))
             (cfg_name (configuration (server s)))) then
    raise (WazuhClusterError 3030 "")
  else if negb (String.eqb (version (hello_info (self s))) metadata_version) then
    raise (WazuhClusterError 3031 "")
  else
    let worker_dir :=
      path_join (path_join (path_join wazuh_path "queue") "cluster")
        (name (self s)) in
    if String.eqb cmd "ok" && negb (path_exists worker_dir)
    then ret (cmd, payload, [Mkdir worker_dir])
    else ret (cmd, payload, []).

(** A base hello for the examples: it registers the session under its
    name. *)
Definition sample_super_hello (nm : string) : M (string * string) :=
  modify (fun s => with_server (set_clients (<[nm := self s]> (clients (server s)))) s) ;;;
  ret ("ok", "Client " ++ nm ++ " added").

(** ** A concrete set of collaborators

    Used to run the model on examples. The clock advances one second per
    reading; [compare_files] is the four-bucket classification: a master
    file the worker lacks is missing, a common file with another MD5 is
    shared, a worker file the master lacks is extra-valid when it is a
    merged file and extra otherwise. *)

Definition sample_compare_files (good : gmap string FileMeta)
    (check : list (string * FileMeta)) (node_name : string)
  : WorkerFilesKo * TotalFiles :=
  let check_map : gmap string FileMeta := list_to_map check in
  let missing := filter (fun kv => kv.1 ∉ dom check_map) good in
  let shared :=
    filter (fun kv => Is_true (match check_map !! kv.1 with
                               | Some c => negb (String.eqb (md5 c) (md5 kv.2))
                               | None => false
                               end)) good in
  let unknown := filter (fun kv => kv.1 ∉ dom good) check_map in
  let extra := filter (fun kv => Is_true (negb (merged kv.2))) unknown in
  let extra_valid := filter (fun kv => Is_true (merged kv.2)) unknown in
  (mkWorkerFilesKo missing shared extra extra_valid,
   mkTotalFiles (Z.of_nat (size missing)) (Z.of_nat (size shared))
     (Z.of_nat (size extra)) (Z.of_nat (size extra_valid))).

Definition sample_strptime (text format : string) : option Z :=
  if String.eqb format "%Y-%m-%d %H:%M:%S" then
    if String.eqb text "1970-01-01 00:01:40" then Some 100000000
    else if String.eqb text "1970-01-01 00:03:20" then Some 200000000
    else None
  else None.

Definition sample_collaborators : Collaborators :=
  {| wall_clock := fun k => Z.of_nat k * 1000000;
     strftime := fun t => "t";
     strptime := sample_strptime;
     metadata_version := "4.2.0";
     wazuh_path := "/var/ossec";
     path_join := fun a b => a ++ "/" ++ b;
     basename := fun p => List.last (split1 "/"%char p) p;
     relpath := fun p => p;
     n_active_agents := fun _ => 0;
     json_loads_filter := fun _ => Return FilterNone;
     json_loads_agent_info := fun txt =>
       if String.eqb txt "[]" then Return (mkAgentInfoPayload "set" [])
       else Return (mkAgentInfoPayload "agent 001 sync-agent-info set"
                      ["good1"; "bad"; "good3"]);
     json_dumps_health := fun _ => "{}";
     json_dumps_result := fun _ => "{}";
     json_dumps_exc := fun _ => "{}";
     json_loads_exc := fun d => OtherException d;
     str_wazuh_error := fun _ m => "Error - " ++ m;
     repr_key := fun k => "'" ++ k ++ "'";
     get_nodes_json := fun _ _ => Return "{}";
     super_process_request := fun _ _ => ret ("err", "unknown command");
     decompress_files := fun f =>
       if String.eqb f "same" then Return ([], "/tmp/same")
       else Return ([("c", mkFileMeta "C" true "agent-groups" "c.merged"
                            "queue/agent-groups/")], "/tmp/zipdir");
     compare_files := sample_compare_files;
     compress_files := fun _ _ _ => "archive.zip";
     unmerge_info := fun _ _ nm =>
       if String.eqb nm "c.merged"
       then ([mkMergedMember "001" "group-a" "1970-01-01 00:01:40"], None)
       else ([], None);
     file_permissions := fun _ => Some 432 |}.

Definition sample_worker : WorkerInfo := mkWorkerInfo "4.2.0" "wazuh" "worker" "10.0.0.2" 0.

Definition sample_master : Master :=
  Master_init (mkConfiguration "master-node" "master" "wazuh" ["10.0.0.1"]).

Definition sample_state : State :=
  initial_state "worker1" sample_worker sample_master ∅.

Definition quiet_peer (command data : string) : Reply := RBytes "ok".

(** [c in s] for a character. *)
Fixpoint has_char (c : ascii) (s : string) : bool :=
  match s with
  | EmptyString => false
  | String c' rest => Ascii.eqb c' c || has_char c rest
  end.

(** The sample session holding one received string, and the server with
    one pending DAPI request or one local-API client. *)
Definition sample_state_with_string : State :=
  with_self (set_in_str {["s1" := "response"]}) sample_state.

Definition sample_state_pending : State :=
  with_server (set_pending_api_requests {["r1" := mkPendingRequest false ""]})
    sample_state_with_string.

Definition sample_state_local_client : State :=
  with_server (fun m =>
    mkMaster (configuration m) (clients m) (integrity_control m)
      (integrity_already_executed m) (pending_api_requests m) {["r1"]})
    sample_state_with_string.

(** A DAPI round-trip on the sample session: the request is sent under
    the request-id ["r1"], then the worker's [dapi_res] arrives. *)
Definition dapi_sent : State :=
  snd (execute_send (H := sample_collaborators) quiet_peer "r1" "" "dapi" "request"
         sample_state_with_string).

Definition dapi_answered : State :=
  match run_ops (H := sample_collaborators) [OpRequest "" "dapi_res" "r1 s1"]
          dapi_sent with
  | Some s => s
  | None => dapi_sent
  end.

(** The sample server with one connected worker. *)
Definition sample_master_one_worker : Master :=
  set_clients {["worker1" := MasterHandler_init "worker1" sample_worker]} sample_master.

(** ** The agent-info result, as the specification words it

    A response whose first element is not ["ok"] is a chunk error, an
    exception during the send is a chunk error, every other chunk is an
    updated chunk; the result counts the updated chunks and lists the
    errors in the order of the chunks. *)

Definition chunk_error `{Collaborators} (response : Outcome (list string))
  : option ErrorMessage :=
  match response with
  | Return (first :: rest) =>
      if String.eqb first "ok" then None else Some (ErrResponse (first :: rest))
  | Return [] => Some (ErrText "list index out of range")
  | Raise e => Some (ErrText (str_exc e))
  end.

Definition chunk_updated `{Collaborators} (response : Outcome (list string)) : bool :=
  match chunk_error response with
  | None => true
  | Some _ => false
  end.

(** What the agent database answers to the chunks, the first of which is
    its [i]-th message. *)
Fixpoint responses_from (wdb : nat -> string -> Outcome (list string))
    (cmd : string) (i : nat) (cs : list string) : list (Outcome (list string)) :=
  match cs with
  | [] => []
  | chunk :: rest => wdb i (cmd ++ " " ++ chunk) :: responses_from wdb cmd (S i) rest
  end.

Definition expected_result `{Collaborators}
    (wdb : nat -> string -> Outcome (list string))
    (cmd : string) (cs : list string) : SyncResult :=
  let responses := responses_from wdb cmd 0 cs in
  mkSyncResult (Z.of_nat (length (List.filter chunk_updated responses)))
    (omap chunk_error responses).

(** The database of the fourth scenario: the second message is refused. *)
Definition sample_wdb (i : nat) (msg : string) : Outcome (list string) :=
  match i with
  | 1%nat => Return ["err"; "reason"]
  | _ => Return ["ok"; ""]
  end.

(** A database whose second send raises [KeyError('agent')]. *)
Definition sample_wdb_raising (i : nat) (msg : string) : Outcome (list string) :=
  match i with
  | 1%nat => Raise (KeyError "agent")
  | _ => Return ["ok"; ""]
  end.

Definition sample_state_agent_info (payload : string) : State :=
  with_self (set_in_str {["t2" := payload]}) sample_state.

(** The sample session with the group file of agent ["001"] on disk,
    last modified at second 100, and the merged file of the sample
    archive, whose one member is that file with the same time. *)
Definition sample_state_group_on_disk : State :=
  with_disk (fun _ => {["/var/ossec/001" := mkDiskFile "old" 100000000]}) sample_state.

Definition sample_state_newer_on_disk : State :=
  with_disk (fun _ => {["/var/ossec/001" := mkDiskFile "new" 200000000]}) sample_state.

Definition sample_member : MergedMember :=
  mkMergedMember "001" "group-a" "1970-01-01 00:01:40".

Definition sample_merged_meta : FileMeta :=
  mkFileMeta "C" true "agent-groups" "c.merged" "queue/agent-groups/".


(** The entry that [execute] puts in the table. *)
Definition with_pending_entry (request_id : string) (s : State) : State :=
  with_server (fun m =>
    set_pending_api_requests
      (<[request_id := mkPendingRequest false ""]> (pending_api_requests m)) m) s.

(** What no coroutine touches: the session's name, its task map, its
    string registry and the server. *)
Definition registry (s : State)
  : string * gmap string ReceiveTask * gmap string string * Master :=
  (name (self s), sync_tasks (self s), in_str (self s), server s).

(** The three events of a round for the task [task_id]: the begin-receive
    command, the run of the task's coroutine, the done-callback. *)
Definition round (command task_id data : string) (inputs : CoroInputs) : list Op :=
  [OpRequest task_id command data; OpCoroutine task_id inputs;
   OpDoneCallback task_id].

(** What the worker sends for a task between its begin and the run of its
    coroutine: the end of a file ([syn_i_w_m_e], [syn_e_w_m_e]) or a sync
    error ([syn_i_w_m_r]). *)
Definition is_file_end (op : Op) : bool :=
  match op with
  | OpRequest _ command _ =>
      String.eqb command "syn_i_w_m_e" || String.eqb command "syn_e_w_m_e"
  | _ => false
  end.

Definition is_sync_error (op : Op) : bool :=
  match op with
  | OpRequest _ command _ => String.eqb command "syn_i_w_m_r"
  | _ => false
  end.

Definition arrivals (ops : list Op) : bool :=
  forallb (fun op => is_file_end op || is_sync_error op) ops.

(** A task keeps its class, its coroutine and its unfinished state when a
    file or an error arrives, for it or for another task. *)
Definition same_task (t t2 : ReceiveTask) : Prop :=
  task_class t2 = task_class t /\ task_coro t2 = task_coro t
  /\ coro_finished t2 = coro_finished t.

(** A round of a file task: the begin-receive command, what arrives for
    it, the run of the task's coroutine, the done-callback. *)
Definition file_round (command task_id data : string) (arrived : list Op)
    (inputs : CoroInputs) : list Op :=
  OpRequest task_id command data
  :: arrived ++ [OpCoroutine task_id inputs; OpDoneCallback task_id].

(** The sends on a worker's link. *)
Definition is_send_event (e : Event) : bool :=
  match e with
  | EvSendRequest _ _ _ => true
  | EvSendFile _ _ => true
  | _ => false
  end.

(** The session as [sync_integrity] has it when it starts to push: the
    flag, the check record and the staged start of the sync record are
    set. *)
Definition handler_before_push `{Collaborators} (ko : WorkerFilesKo)
    (counts : TotalFiles) (k : nat) (h : MasterHandler) : MasterHandler :=
  set_integrity_sync_status
    (mkIntegritySyncStatus (is_date_start_master (integrity_sync_status h))
       (DDatetime (wall_clock (S (S (S k)))))
       (is_date_end_master (integrity_sync_status h)) 0 counts)
    (set_integrity_check_status
       (mkIntegrityCheckStatus (DString (strftime (wall_clock k)))
          (DString (strftime (wall_clock (S (S k))))))
       (set_extra_valid_requested (negb (bool_decide (ko_extra_valid ko = ∅))) h)).

(** The clean-up of [sync_integrity]'s [finally]. *)
Definition push_finally `{Collaborators} (compressed_data : string) : M unit :=
  emit (EvUnlink compressed_data) ;;;
  let* s' := get_state in
  if extra_valid_requested (self s') then ret tt
  else stamp_integrity_sync_end.


(** ** Predicates on methods *)

(** [c] keeps [P]: whatever [c] returns or raises, a state in [P] ends
    in [P]. *)
Definition preserves {A} (P : State -> Prop) (c : M A) : Prop :=
  forall s, P s -> P (snd (c s)).

(** A property that looks at the handler and the server only is blind to
    the log, the clock and the disk. *)
Definition blind (P : State -> Prop) : Prop :=
  forall s d ev k, P s -> P (mkState (self s) (server s) d ev k).

(** The three slot fields of a session. *)
Definition slots (h : MasterHandler) : bool * bool * bool :=
  (sync_integrity_free h, sync_agent_info_free h, extra_valid_requested h).

(** What the file coroutines and the receive bookkeeping leave alone: the
    session's name, its slots and the whole server. *)
Definition core (s : State) : string * (bool * bool * bool) * Master :=
  (name (self s), slots (self s), server s).

(** [core] without [extra_valid_requested]. *)
Definition core_but_extra_valid (s : State) : string * bool * bool * Master :=
  (name (self s), sync_integrity_free (self s), sync_agent_info_free (self s),
   server s).

(** The session's name and slots. *)
Definition ident_slots (s : State) : string * (bool * bool * bool) :=
  (name (self s), slots (self s)).

(** The slots after a command that [process_request] answers itself. *)
Definition slots_after_request (command : string) (v : bool * bool * bool)
  : bool * bool * bool :=
  let '(integrity_free, agent_info_free, requested) := v in
  if String.eqb command "syn_i_w_m" then (false, agent_info_free, requested)
  else if String.eqb command "syn_a_w_m" then (integrity_free, false, requested)
  else if String.eqb command "syn_i_w_m_r" then (true, agent_info_free, requested)
  else v.

(** What [sync_integrity] assigns to [extra_valid_requested] when it runs
    for a task that holds [t]: nothing when the wait for the file fails or
    the file cannot be decompressed, and otherwise whether the extra-valid
    bucket of the diff has files. *)
Definition assigned_extra_valid `{Collaborators} (s : State) (t : ReceiveTask)
  : option bool :=
  if received_information t then
    match filename t with
    | ArtifactName f =>
        match decompress_files f with
        | Return (files_metadata, _) =>
            Some (negb (bool_decide
                          (ko_extra_valid
                             (fst (compare_files (integrity_control (server s))
                                     files_metadata (name (self s))))
                           = ∅)))
        | Raise _ => None
        end
    | _ => None
    end
  else None.

(** The two events that break the slot invariant, and no other does: a
    worker-reported sync error processed while [extra_valid_requested] is
    true, and a run of the integrity coroutine that requests extra-valid
    files while [sync_integrity_free] is true. [slot_guard] holds of every
    other event. *)
Definition slot_guard `{Collaborators} (op : Op) (s : State) : bool :=
  match op with
  | OpRequest _ command _ =>
      if String.eqb command "syn_i_w_m_r"
      then negb (extra_valid_requested (self s))
      else true
  | OpCoroutine task_id _ =>
      match sync_tasks (self s) !! task_id with
      | Some t =>
          match task_coro t with
          | coro_sync_integrity =>
              negb (sync_integrity_free (self s)
                    && bool_decide (assigned_extra_valid s t = Some true))
          | _ => true
          end
      | None => true
      end
  | _ => true
  end.

(** A run in which every event meets [slot_guard]. *)
Fixpoint run_ops_guarded `{Collaborators} (ops : list Op) (s : State)
  : option State :=
  match ops with
  | [] => Some s
  | op :: rest =>
      if slot_guard op s then
        match run_op op s with
        | Some s' => run_ops_guarded rest s'
        | None => None
        end
      else None
  end.

(** An integrity round on the sample session whose diff has one
    extra-valid file: begin, end, coroutine. *)
Definition sample_inputs : CoroInputs :=
  mkCoroInputs quiet_peer (Return tt) (Return ["001"]) (fun _ _ => Return ["ok"]).

Definition integrity_round : list Op :=
  [OpRequest "t1" "syn_i_w_m" ""; OpRequest "" "syn_i_w_m_e" "t1 worker.zip";
   OpCoroutine "t1" sample_inputs].

(** The same round, and a worker-reported sync error for its task before
    the done-callback ran. *)
Definition sync_error_after_round : list Op :=
  integrity_round ++ [OpRequest "" "syn_i_w_m_r" "t1 {}"].

(** The ordinary error flow of an integrity round: the worker reports a
    sync error for the task it began, the coroutine surfaces the error and
    the done-callback runs. *)
Definition integrity_error_flow : list Op :=
  [OpRequest "t1" "syn_i_w_m" ""; OpRequest "" "syn_i_w_m_r" "t1 {}";
   OpCoroutine "t1" sample_inputs; OpDoneCallback "t1"].

(** Two integrity rounds that overlap, and no sync error: the first, whose
    diff is empty, ends and frees the slot before the coroutine of the
    second, whose diff has an extra-valid file, runs. *)
Definition overlapping_rounds : list Op :=
  [OpRequest "t1" "syn_i_w_m" ""; OpRequest "" "syn_i_w_m_e" "t1 same";
   OpRequest "t2" "syn_i_w_m" ""; OpRequest "" "syn_i_w_m_e" "t2 worker.zip";
   OpCoroutine "t1" sample_inputs; OpDoneCallback "t1";
   OpCoroutine "t2" sample_inputs].

Definition state_after (ops : list Op) : State :=
  match run_ops (H := sample_collaborators) ops sample_state with
  | Some s => s
  | None => sample_state
  end.

(** The sample session once the worker's metadata, identical to the
    (empty) snapshot, was received for task ["t1"]. *)
Definition identical_metadata_received : State :=
  state_after [OpRequest "t1" "syn_i_w_m" ""; OpRequest "" "syn_i_w_m_e" "t1 same"].

(** The sample session with one file in the master's snapshot, and the
    worker's empty metadata received for task ["t1"]. *)
Definition sample_state_missing_b : State :=
  with_server (set_integrity_control {["b" := mkFileMeta "B" false "" "" "etc/"]})
    identical_metadata_received.

(** The request-ids of the pending-request table. *)
Definition pending_dom (s : State) : gset string :=
  dom (pending_api_requests (server s)).



(** No session is twice in the list of the sessions probed in this
    window. *)
Definition listed_once (s : State) : Prop :=
  NoDup (integrity_already_executed (server s)).

(** Two probes, a turn of the snapshot loop and a third probe. *)
Definition probes_across_windows : list Op :=
  [OpRequest "" "syn_i_w_m_p" ""; OpRequest "" "syn_i_w_m_p" "";
   OpSnapshot (Return ∅); OpRequest "" "syn_i_w_m_p" ""].

Definition probed_across_windows : State :=
  match run_ops (H := sample_collaborators) probes_across_windows sample_state with
  | Some s => s
  | None => sample_state
  end.








(** The session when [sync_integrity] has pushed: the sync record is
    stamped unless extra-valid files were requested. *)
Definition handler_after_push `{Collaborators} (ko : WorkerFilesKo)
    (counts : TotalFiles) (k : nat) (h : MasterHandler) : MasterHandler :=
  let h1 := handler_before_push ko counts k h in
  if extra_valid_requested h1 then h1
  else
    set_integrity_sync_status
      (mkIntegritySyncStatus (DString (strftime (wall_clock (S (S (S k))))))
         (DDatetime (wall_clock (S (S (S k)))))
         (DString (strftime (wall_clock (S (S (S (S k))))))) 0 counts)
      h1.

(** The sample session once the worker's metadata, with one merged file
    that the master lacks, was received for task ["t1"]. *)
Definition extra_valid_metadata_received : State :=
  state_after [OpRequest "t1" "syn_i_w_m" ""; OpRequest "" "syn_i_w_m_e" "t1 worker.zip"].

Definition sample_received_task (file : string) : ReceiveTask :=
  mkReceiveTask ReceiveIntegrityTask coro_sync_integrity "" (ArtifactName file)
    true false false.


(** Where [update_file] stages a member and where it puts it. *)
Definition tmp_unmerged_path `{Collaborators} (h : MasterHandler) (m : MergedMember)
  : string :=
  path_join (path_join (path_join (path_join wazuh_path "queue") "cluster") (name h))
    (basename (file_path m)).

Definition full_unmerged_name `{Collaborators} (m : MergedMember) : string :=
  path_join wazuh_path (file_path m).

(** The state after a member was written. *)
Definition member_written `{Collaborators} (m : MergedMember) (mtime : Z) (s : State)
  : State :=
  mkState (bump_total_extra_valid (self s)) (server s)
    (<[full_unmerged_name m := mkDiskFile (file_data m) (timegm_of mtime * 1000000)]>
       (delete (tmp_unmerged_path (self s) m)
          (<[tmp_unmerged_path (self s) m
             := mkDiskFile (file_data m) (wall_clock (ticks s))]> (disk s))))
    (events s ++ [EvSleep0]) (S (ticks s)).

(** The sample session with the extra-valid archive received for task
    ["t1"]. *)
Definition extra_valid_archive_received : State :=
  state_after [OpRequest "t1" "syn_e_w_m" ""; OpRequest "" "syn_e_w_m_e" "t1 worker.zip"].


(** The sample server whose configuration lists no node address, and the
    one whose configured type is not ['master']. *)
Definition sample_master_no_nodes : Master :=
  set_clients (clients sample_master_one_worker)
    (Master_init (mkConfiguration "master-node" "master" "wazuh" [])).

Definition sample_master_odd_type : Master :=
  set_clients (clients sample_master_one_worker)
    (Master_init (mkConfiguration "master-node" "manager" "wazuh" ["10.0.0.1"])).

(** The health document of the sample collaborators, when there is one. *)
Definition health_of (m : Master) (f : FilterNode) : HealthDoc :=
  match Master_get_health (H := sample_collaborators) m f with
  | Return d => d
  | Raise _ => mkHealthDoc 0 ∅
  end.

Definition keeps {A T} (proj : State -> T) (c : M A) : Prop :=
  forall v, preserves (fun s => proj s = v) c.

(** * Properties *)

(** ** Frame reasoning in the monad *)

Lemma preserves_ret {A} (P : State -> Prop) (a : A) : preserves P (ret a).
Proof. intros s HP. exact HP. Qed.

Lemma preserves_raise {A} (P : State -> Prop) (e : Exc) : preserves P (@raise A e).
Proof. intros s HP. exact HP. Qed.

Lemma preserves_get_state (P : State -> Prop) : preserves P get_state.
Proof. intros s HP. exact HP. Qed.

Lemma preserves_lift {A} (P : State -> Prop) (o : Outcome A) : preserves P (lift o).
Proof. intros s HP. destruct o; exact HP. Qed.

Lemma preserves_modify (P : State -> Prop) (f : State -> State) :
  (forall s, P s -> P (f s)) -> preserves P (modify f).
Proof. intros Hf s HP. apply Hf, HP. Qed.

Lemma preserves_bind {A B} (P : State -> Prop) (c : M A) (k : A -> M B) :
  preserves P c -> (forall a, preserves P (k a)) -> preserves P (bind c k).
Proof.
  intros Hc Hk s HP. unfold bind. specialize (Hc s HP).
  destruct (c s) as [[a | e] s']; simpl in *.
  - apply Hk, Hc.
  - exact Hc.
Qed.

Lemma preserves_try_except {A} (P : State -> Prop) (c : M A) (h : Exc -> M A) :
  preserves P c -> (forall e, preserves P (h e)) -> preserves P (try_except c h).
Proof.
  intros Hc Hh s HP. unfold try_except. specialize (Hc s HP).
  destruct (c s) as [[a | e] s']; simpl in *.
  - exact Hc.
  - destruct (is_Exception e); [apply Hh, Hc | exact Hc].
Qed.

Lemma preserves_try_finally {A} (P : State -> Prop) (c : M A) (f : M unit) :
  preserves P c -> preserves P f -> preserves P (try_finally c f).
Proof.
  intros Hc Hf s HP. unfold try_finally. specialize (Hc s HP).
  destruct (c s) as [o s']; simpl in *. specialize (Hf s' Hc).
  destruct (f s') as [[u | e] s'']; simpl in *; exact Hf.
Qed.

Lemma preserves_unpack2 (P : State -> Prop) (xs : list string) :
  preserves P (unpack2 xs).
Proof.
  intros s HP. destruct xs as [| a [| b [| c xs]]]; exact HP.
Qed.

Lemma preserves_emit (P : State -> Prop) (e : Event) :
  blind P -> preserves P (emit e).
Proof. intros HB s HP. apply HB, HP. Qed.

Lemma preserves_datetime_now `{Collaborators} (P : State -> Prop) :
  blind P -> preserves P datetime_now.
Proof. intros HB s HP. apply HB, HP. Qed.

Lemma preserves_with_disk (P : State -> Prop) f :
  blind P -> preserves P (modify (with_disk f)).
Proof. intros HB s HP. apply HB, HP. Qed.

(** Decomposition of a method along its syntax. [side] closes the goals
    left by the assignments to [self] and [self.server]. *)
Ltac frame_step side :=
  lazymatch goal with
  | |- preserves _ (bind _ _) => apply preserves_bind; [| intros ]
  | |- preserves _ (ret _) => apply preserves_ret
  | |- preserves _ (raise _) => apply preserves_raise
  | |- preserves _ get_state => apply preserves_get_state
  | |- preserves _ (lift _) => apply preserves_lift
  | |- preserves _ (unpack2 _) => apply preserves_unpack2
  | |- preserves _ (emit _) => apply preserves_emit; side
  | |- preserves _ datetime_now => apply preserves_datetime_now; side
  | |- preserves _ (modify (with_disk _)) => apply preserves_with_disk; side
  | |- preserves _ (modify _) => apply preserves_modify; side
  | |- preserves _ (try_except _ _) => apply preserves_try_except; [| intros ]
  | |- preserves _ (try_finally _ _) => apply preserves_try_finally
  | |- preserves _ (match ?x with _ => _ end) => destruct x
  end.

Ltac frame side := repeat (frame_step side).

(** ** Begin-receive commands and the slots *)

(** C1 (as amended). Processing [syn_i_w_m] sets [sync_integrity_free] to
    false and processing [syn_a_w_m] sets [sync_agent_info_free] to false,
    each before the ReceiveTask of the command is allocated; processing
    [syn_e_w_m] allocates the ReceiveExtraValidTask and leaves the three
    slot fields as they were. *)
Theorem begin_receive_slots `{Collaborators} (s : State) (task_id data : string) :
  (process_request task_id "syn_i_w_m" data s
     = setup_receive_file task_id (Some ReceiveIntegrityTask) data
         (with_self (set_sync_integrity_free false) s)
   /\ sync_integrity_free (self (snd (process_request task_id "syn_i_w_m" data s)))
      = false)
  /\ (process_request task_id "syn_a_w_m" data s
        = setup_receive_file task_id (Some ReceiveAgentInfoTask) data
            (with_self (set_sync_agent_info_free false) s)
      /\ sync_agent_info_free (self (snd (process_request task_id "syn_a_w_m" data s)))
         = false)
  /\ (process_request task_id "syn_e_w_m" data s
        = setup_receive_file task_id (Some ReceiveExtraValidTask) data s
      /\ sync_integrity_free (self (snd (process_request task_id "syn_e_w_m" data s)))
         = sync_integrity_free (self s)
      /\ sync_agent_info_free (self (snd (process_request task_id "syn_e_w_m" data s)))
         = sync_agent_info_free (self s)
      /\ extra_valid_requested (self (snd (process_request task_id "syn_e_w_m" data s)))
         = extra_valid_requested (self s)).
Proof.
  repeat split; reflexivity.
Qed.

(** C1, the claim as stated fails: on a fresh session [syn_e_w_m] is
    answered with the new task-id and [sync_integrity_free] is still
    true. *)
Lemma begin_extra_valid_keeps_slot_free :
  sync_integrity_free (self sample_state) = true
  /\ fst (process_request (H := sample_collaborators) "t1" "syn_e_w_m" "" sample_state)
     = Return ("ok", "t1")
  /\ sync_integrity_free
       (self (snd (process_request (H := sample_collaborators) "t1" "syn_e_w_m" ""
                     sample_state)))
     <> false.
Proof.
  repeat split; vm_compute; discriminate.
Qed.

(** ** Permission probes *)

Lemma name_in_elem_of (x : string) (xs : list string) :
  name_in x xs = true <-> x ∈ xs.
Proof.
  unfold name_in. rewrite existsb_exists. split.
  - intros [y [Hy Heq]]. apply String.eqb_eq in Heq. subst y.
    apply list_elem_of_In, Hy.
  - intros Hin. exists x. split; [apply list_elem_of_In, Hin | apply String.eqb_refl].
Qed.

Lemma name_in_not_elem_of (x : string) (xs : list string) :
  name_in x xs = false <-> x ∉ xs.
Proof.
  rewrite <- name_in_elem_of. destruct (name_in x xs); split; congruence.
Qed.

(** ** What the methods leave alone *)

Ltac same_proj :=
  first [ solve [ unfold blind; intros; assumption ]
        | solve [ intros ? Hkept; exact Hkept ] ].

Ltac keeps_by_syntax := intros ?; frame same_proj.

(** Case analysis over the commands of the dispatch table. *)
Ltac each_command Hin :=
  simpl in Hin;
  repeat (destruct Hin as [<- | Hin]); [.. | destruct Hin].

Ltac dispatch :=
  unfold process_request; cbn [String.eqb Ascii.eqb Bool.eqb orb].

Lemma keeps_eq {A T} (proj : State -> T) (c : M A) (s : State) :
  keeps proj c -> proj (snd (c s)) = proj s.
Proof. intros Hk. apply (Hk (proj s) s). reflexivity. Qed.

Section Frames.
Context `{Collaborators}.

Lemma send_request_keeps_core peer command data :
  keeps core (send_request peer command data).
Proof. unfold send_request. keeps_by_syntax. Qed.

Lemma setup_receive_file_keeps_core task_id ws_type data :
  keeps core (setup_receive_file task_id ws_type data).
Proof. unfold setup_receive_file. keeps_by_syntax. Qed.

Lemma error_receiving_file_keeps_core msg : keeps core (error_receiving_file msg).
Proof. unfold error_receiving_file. keeps_by_syntax. Qed.

Lemma end_receiving_file_keeps_core msg : keeps core (end_receiving_file msg).
Proof. unfold end_receiving_file. keeps_by_syntax. Qed.

Lemma update_chunks_keeps_core wdb cmd cs :
  forall i result, keeps core (update_chunks wdb cmd i cs result).
Proof.
  induction cs as [| chunk rest IH]; intros i result v; simpl.
  - apply preserves_ret.
  - apply preserves_bind; [apply preserves_emit; same_proj | intros _; apply IH].
Qed.

Lemma sync_wazuh_db_info_keeps_core peer wdb task_id :
  keeps core (sync_wazuh_db_info peer wdb task_id).
Proof.
  unfold sync_wazuh_db_info. intros v.
  repeat first
    [ apply send_request_keeps_core
    | apply update_chunks_keeps_core
    | frame_step same_proj ].
Qed.

Lemma wait_received_file_keeps_core task_id : keeps core (wait_received_file task_id).
Proof. unfold wait_received_file. keeps_by_syntax. Qed.

Lemma strftime_field_keeps_core d : keeps core (strftime_field d).
Proof. unfold strftime_field. keeps_by_syntax. Qed.

Lemma stamp_integrity_sync_end_keeps_core : keeps core stamp_integrity_sync_end.
Proof.
  unfold stamp_integrity_sync_end. intros v.
  repeat first [ apply strftime_field_keeps_core | frame_step same_proj ].
Qed.

Lemma report_push_error_keeps_core peer tid e :
  keeps core (report_push_error peer tid e).
Proof.
  unfold report_push_error. intros v.
  repeat first [ apply send_request_keeps_core | frame_step same_proj ].
Qed.

Lemma push_archive_keeps_core peer sf archive :
  keeps core (push_archive peer sf archive).
Proof.
  unfold push_archive. intros v.
  repeat first
    [ apply send_request_keeps_core
    | apply report_push_error_keeps_core
    | frame_step same_proj ].
Qed.

Lemma safe_move_keeps_core src dst time : keeps core (safe_move src dst time).
Proof. unfold safe_move. keeps_by_syntax. Qed.

Lemma write_file_keeps_core path data : keeps core (write_file path data).
Proof. unfold write_file. keeps_by_syntax. Qed.

Lemma update_member_keeps_core agent_ids data m n :
  keeps core (update_member agent_ids data m n).
Proof.
  unfold update_member. intros v.
  repeat first
    [ apply safe_move_keeps_core
    | apply write_file_keeps_core
    | frame_step same_proj ].
Qed.

Lemma update_members_keeps_core agent_ids data ms :
  forall n, keeps core (update_members agent_ids data ms n).
Proof.
  induction ms as [| m rest IH]; intros n v; simpl.
  - apply preserves_ret.
  - apply preserves_bind; [apply update_member_keeps_core | intros n'; apply IH].
Qed.

Lemma update_file_keeps_core agent_ids dir name_ data n :
  keeps core (update_file agent_ids dir name_ data n).
Proof.
  unfold update_file. intros v.
  repeat first
    [ apply safe_move_keeps_core
    | apply update_members_keeps_core
    | frame_step same_proj ].
Qed.

Lemma process_files_from_worker_keeps_core agents files dir :
  forall n, keeps core (process_files_from_worker agents files dir n).
Proof.
  induction files as [| [filename_ data] rest IH]; intros n v; simpl.
  - apply preserves_ret.
  - apply preserves_bind; [apply update_file_keeps_core | intros n'; apply IH].
Qed.

Lemma sync_worker_files_keeps_core agents task_id :
  keeps core (sync_worker_files agents task_id).
Proof.
  unfold sync_worker_files. intros v.
  repeat first
    [ apply wait_received_file_keeps_core
    | apply process_files_from_worker_keeps_core
    | frame_step same_proj ].
Qed.

Lemma sync_integrity_keeps peer sf task_id :
  keeps core_but_extra_valid (sync_integrity peer sf task_id).
Proof.
  assert (Hweaken : forall A (c : M A), keeps core c -> keeps core_but_extra_valid c).
  { intros A c Hc v s Hs. pose proof (keeps_eq core c s Hc) as Heq.
    unfold core, slots in Heq. unfold core_but_extra_valid in *.
    inversion Heq as [[Hn Hf Ha He Hsrv]]. rewrite Hn, Hf, Ha, Hsrv. exact Hs. }
  unfold sync_integrity. intros v.
  repeat first
    [ apply (Hweaken _ _ (wait_received_file_keeps_core _))
    | apply (Hweaken _ _ (send_request_keeps_core _ _ _))
    | apply (Hweaken _ _ (push_archive_keeps_core _ _ _))
    | apply (Hweaken _ _ stamp_integrity_sync_end_keeps_core)
    | frame_step same_proj ].
Qed.

(** [sync_integrity] writes [extra_valid_requested] at one place, right
    after the comparison, and nothing after that place touches it. *)
Lemma sync_integrity_assigns peer sf task_id (s : State) :
  extra_valid_requested (self (snd (sync_integrity peer sf task_id s)))
  = match sync_tasks (self s) !! task_id with
    | Some t => default (extra_valid_requested (self s)) (assigned_extra_valid s t)
    | None => extra_valid_requested (self s)
    end.
Proof.
  unfold sync_integrity, wait_received_file, assigned_extra_valid.
  unfold bind at 1. unfold datetime_now at 1.
  unfold bind at 1. unfold bind at 1. unfold get_state at 1. cbn [self].
  destruct (sync_tasks (self s) !! task_id) as [t |]; [| reflexivity].
  destruct (received_information t); [| reflexivity].
  destruct (filename t) as [| f | e]; try reflexivity.
  unfold ret at 1. unfold bind at 1.
  destruct (decompress_files f) as [[files_metadata dir] | e]; [| reflexivity].
  unfold lift, ret at 1.
  unfold bind at 1. unfold emit at 1, modify at 1.
  unfold bind at 1. unfold get_state at 1.
  cbn [self server disk events ticks].
  destruct (compare_files (integrity_control (server s)) files_metadata (name (self s)))
    as [ko counts].
  unfold bind at 1. unfold datetime_now at 1. cbn [self server disk events ticks].
  unfold bind at 1. unfold modify at 1.
  match goal with
  | |- extra_valid_requested (self (snd (?c ?st))) = _ =>
      assert (Hk : keeps core c);
      [| pose proof (f_equal (fun x => snd (snd (fst x))) (keeps_eq core c st Hk))
           as Heq ]
  end.
  { intros v.
    repeat first
      [ apply send_request_keeps_core
      | apply push_archive_keeps_core
      | apply stamp_integrity_sync_end_keeps_core
      | frame_step same_proj ]. }
  cbn [core slots fst snd] in Heq. rewrite Heq. reflexivity.
Qed.

Lemma get_health_preserves (P : State -> Prop) f : preserves P (get_health f).
Proof. unfold get_health. frame idtac. Qed.

Lemma get_nodes_preserves (P : State -> Prop) data : preserves P (get_nodes data).
Proof. unfold get_nodes. frame idtac. Qed.

Lemma super_done_callback_keeps_core task_id : keeps core (super_done_callback task_id).
Proof. unfold super_done_callback. keeps_by_syntax. Qed.

Lemma keeps_weaken {A T U} (proj : State -> T) (g : T -> U) (c : M A) :
  keeps proj c -> keeps (fun s => g (proj s)) c.
Proof.
  intros Hc v s Hs. cbv beta. rewrite (keeps_eq proj c s Hc). exact Hs.
Qed.

Lemma keeps_core_ident_slots {A} (c : M A) : keeps core c -> keeps ident_slots c.
Proof.
  intros Hc. exact (keeps_weaken core (fun x => (fst (fst x), snd (fst x))) c Hc).
Qed.

Lemma get_permission_keeps sync_type : keeps ident_slots (get_permission sync_type).
Proof. unfold get_permission. keeps_by_syntax. Qed.

Lemma process_dapi_res_keeps data : keeps ident_slots (process_dapi_res data).
Proof. unfold process_dapi_res. keeps_by_syntax. Qed.

Lemma connection_lost_keeps : keeps ident_slots connection_lost.
Proof. unfold connection_lost, super_connection_lost. keeps_by_syntax. Qed.

Lemma handled_here_cases (command : string) :
  handled_here command = true ->
  In command
    ["syn_i_w_m_p"; "syn_a_w_m_p"; "syn_i_w_m"; "syn_e_w_m"; "syn_a_w_m";
     "syn_i_w_m_e"; "syn_e_w_m_e"; "syn_i_w_m_r"; "dapi"; "dapi_res"; "dapi_err";
     "get_nodes"; "get_health"; "sendsync"].
Proof.
  unfold handled_here, name_in. rewrite existsb_exists.
  intros [lit [Hin Heq]]. apply String.eqb_eq in Heq. subst lit. exact Hin.
Qed.

Ltac kept_ident :=
  intros ?;
  repeat first
    [ apply get_permission_keeps
    | apply process_dapi_res_keeps
    | apply (keeps_core_ident_slots _ (end_receiving_file_keeps_core _))
    | apply (keeps_core_ident_slots _ (error_receiving_file_keeps_core _))
    | apply (keeps_core_ident_slots _ (setup_receive_file_keeps_core _ _ _))
    | apply get_health_preserves
    | apply get_nodes_preserves
    | frame_step same_proj ].

Lemma process_request_ident_slots task_id command data (s : State) :
  handled_here command = true ->
  ident_slots (snd (process_request task_id command data s))
  = (name (self s), slots_after_request command (slots (self s))).
Proof.
  intros Hin. apply handled_here_cases in Hin. each_command Hin.
  all: dispatch; unfold slots_after_request; cbn [String.eqb Ascii.eqb Bool.eqb].
  all: try (match goal with
            | |- ident_slots (snd (?c ?s0)) = _ =>
                rewrite (keeps_eq ident_slots c s0);
                [ unfold ident_slots; destruct (slots (self s0)) as [[? ?] ?];
                  reflexivity
                | unfold end_receiving_integrity_checksums; kept_ident ]
            end).
  - change (setup_sync_integrity task_id "syn_i_w_m" data s)
      with (setup_receive_file task_id (Some ReceiveIntegrityTask) data
              (with_self (set_sync_integrity_free false) s)).
    rewrite (keeps_eq ident_slots _ _
               (keeps_core_ident_slots _ (setup_receive_file_keeps_core _ _ _))).
    reflexivity.
  - change (setup_sync_integrity task_id "syn_a_w_m" data s)
      with (setup_receive_file task_id (Some ReceiveAgentInfoTask) data
              (with_self (set_sync_agent_info_free false) s)).
    rewrite (keeps_eq ident_slots _ _
               (keeps_core_ident_slots _ (setup_receive_file_keeps_core _ _ _))).
    reflexivity.
  - change (process_sync_error_from_worker data s)
      with (error_receiving_file data (with_self (set_sync_integrity_free true) s)).
    rewrite (keeps_eq ident_slots _ _
               (keeps_core_ident_slots _ (error_receiving_file_keeps_core _))).
    reflexivity.
Qed.

Lemma sync_extra_valid_slots agents task_id (s : State) :
  let s' := snd (sync_extra_valid agents task_id s) in
  slots (self s') = slots (self s)
  \/ (sync_agent_info_free (self s') = sync_agent_info_free (self s)
      /\ sync_integrity_free (self s') = true
      /\ extra_valid_requested (self s') = false).
Proof.
  cbv zeta. unfold sync_extra_valid, bind.
  pose proof (keeps_eq core _ s (sync_worker_files_keeps_core agents task_id)) as H1.
  destruct (sync_worker_files agents task_id s) as [[u | e] s1]; simpl in H1.
  - pose proof (keeps_eq core _ s1 stamp_integrity_sync_end_keeps_core) as H2.
    destruct (stamp_integrity_sync_end s1) as [[u2 | e2] s2]; simpl in H2.
    + right. simpl. rewrite H1 in H2.
      assert (Hs : slots (self s2) = slots (self s))
        by exact (f_equal (fun x => snd (fst x)) H2).
      unfold slots in Hs. inversion Hs. auto.
    + left. simpl. rewrite H1 in H2. exact (f_equal (fun x => snd (fst x)) H2).
  - left. simpl. exact (f_equal (fun x => snd (fst x)) H1).
Qed.

Lemma done_callback_slots cls task_id (s : State) :
  slots (self (snd (done_callback cls task_id s)))
  = let '(f, a, e) := slots (self s) in
    match cls with
    | ReceiveIntegrityTask => (if e then f else true, a, e)
    | ReceiveExtraValidTask => (true, a, false)
    | ReceiveAgentInfoTask => (f, true, e)
    end.
Proof.
  destruct cls;
    unfold slots, done_callback, ReceiveIntegrityTask_done_callback,
      ReceiveExtraValidTask_done_callback, ReceiveAgentInfoTask_done_callback,
      super_done_callback, bind, modify, get_state, ret;
    destruct s as [[nm a f e ics iss ais w tasks strs] m d ev k]; simpl.
  - destruct e; reflexivity.
  - reflexivity.
  - reflexivity.
Qed.

Lemma slots_eq (h : MasterHandler) (f a e : bool) :
  slots h = (f, a, e) ->
  sync_integrity_free h = f /\ sync_agent_info_free h = a
  /\ extra_valid_requested h = e.
Proof.
  intros Heq. repeat split.
  - exact (f_equal (fun x => fst (fst x)) Heq).
  - exact (f_equal (fun x => snd (fst x)) Heq).
  - exact (f_equal snd Heq).
Qed.

Lemma slot_invariant_of_slots (h : MasterHandler) (f a e : bool) :
  slots h = (f, a, e) -> (slot_invariant h <-> (e = true -> f = false)).
Proof.
  intros Heq. apply slots_eq in Heq as (Hf & _ & He).
  unfold slot_invariant. rewrite Hf, He. reflexivity.
Qed.

Lemma slot_invariant_slots (h h' : MasterHandler) :
  slots h' = slots h -> slot_invariant h -> slot_invariant h'.
Proof.
  intros Heq Hinv. destruct (slots h) as [[f a] e] eqn:Hs.
  apply (proj2 (slot_invariant_of_slots _ _ _ _ Heq)).
  exact (proj1 (slot_invariant_of_slots _ _ _ _ Hs) Hinv).
Qed.

Lemma mark_finished_slots task_id (h : MasterHandler) :
  slots (mark_finished task_id h) = slots h.
Proof. reflexivity. Qed.

(** Every event that meets the guard keeps the slot invariant. *)
Lemma run_op_slot_invariant (op : Op) (s s' : State) :
  slot_guard op s = true -> run_op op s = Some s' ->
  slot_invariant (self s) -> slot_invariant (self s').
Proof.
  intros Hguard Hrun Hinv.
  destruct op as [tid command data | tid inputs | tid | tid | | snap];
    simpl in Hrun, Hguard.
  - destruct (handled_here command) eqn:Hh; [| discriminate].
    destruct (_ || _) in Hrun; [| discriminate]. simpl in Hrun.
    inversion Hrun; subst s'; clear Hrun.
    pose proof (process_request_ident_slots tid command data s Hh) as Heq.
    apply (f_equal snd) in Heq.
    change (slots (self (snd (process_request tid command data s)))
            = slots_after_request command (slots (self s))) in Heq.
    destruct (slots (self s)) as [[f a] e] eqn:Hs.
    pose proof (proj1 (slot_invariant_of_slots _ _ _ _ Hs) Hinv) as Hfe.
    apply slots_eq in Hs as (_ & _ & He). rewrite He in Hguard.
    unfold slots_after_request in Heq.
    destruct (String.eqb command "syn_i_w_m"), (String.eqb command "syn_a_w_m"),
      (String.eqb command "syn_i_w_m_r");
      apply (proj2 (slot_invariant_of_slots _ _ _ _ Heq)); auto;
      destruct e; discriminate.
  - destruct (sync_tasks (self s) !! tid) as [t |] eqn:Htask; [| discriminate].
    destruct (coro_finished t); [discriminate |].
    inversion Hrun; subst s'; clear Hrun. simpl.
    apply (slot_invariant_slots _ _ (mark_finished_slots _ _)).
    destruct (task_coro t); simpl.
    + pose proof (keeps_eq core_but_extra_valid _ s
                    (sync_integrity_keeps (in_peer inputs) (in_send_file inputs) tid))
        as Hk.
      apply (f_equal (fun x => snd (fst (fst x)))) in Hk. simpl in Hk.
      pose proof (sync_integrity_assigns (in_peer inputs) (in_send_file inputs) tid s)
        as He.
      rewrite Htask in He.
      assert (Hsame : snd (bind (sync_integrity (in_peer inputs) (in_send_file inputs) tid)
                             (fun _ => ret tt) s)
                      = snd (sync_integrity (in_peer inputs) (in_send_file inputs) tid s)).
      { unfold bind. destruct (sync_integrity _ _ tid s) as [[r | e] s1]; reflexivity. }
      rewrite Hsame. unfold slot_invariant. rewrite Hk, He.
      destruct (sync_integrity_free (self s)) eqn:Hfree; [| reflexivity].
      cbn [andb negb] in Hguard. apply negb_true_iff in Hguard.
      apply bool_decide_eq_false_1 in Hguard.
      destruct (assigned_extra_valid s t) as [[|] |]; cbn [default].
      * contradiction Hguard. reflexivity.
      * discriminate.
      * intros Hreq. specialize (Hinv Hreq). rewrite Hfree in Hinv. discriminate.
    + destruct (sync_extra_valid_slots (in_agents inputs) tid s)
        as [Hsame | [_ [_ He]]]; cbv zeta in *.
      * exact (slot_invariant_slots _ _ Hsame Hinv).
      * intros He'. rewrite He in He'. discriminate.
    + pose proof (keeps_eq core _ s
                    (sync_wazuh_db_info_keeps_core (in_peer inputs) (in_wdb inputs) tid))
        as Hk.
      apply (f_equal (fun x => snd (fst x))) in Hk. simpl in Hk.
      unfold bind. destruct (sync_wazuh_db_info _ _ tid s) as [[r | e] s1];
        simpl in *; exact (slot_invariant_slots _ _ Hk Hinv).
  - destruct (sync_tasks (self s) !! tid) as [t |]; [| discriminate].
    destruct (_ && _) in Hrun; [| discriminate].
    inversion Hrun; subst s'. exact Hinv.
  - destruct (sync_tasks (self s) !! tid) as [t |]; [| discriminate].
    destruct (coro_finished t); [| discriminate].
    inversion Hrun; subst s'; clear Hrun.
    pose proof (done_callback_slots (task_class t) tid s) as Hd.
    destruct (slots (self s)) as [[f a] e] eqn:Hs.
    pose proof (proj1 (slot_invariant_of_slots _ _ _ _ Hs) Hinv) as Hfe.
    destruct (task_class t), e; cbv beta iota zeta in Hd;
      apply (proj2 (slot_invariant_of_slots _ _ _ _ Hd)); auto; discriminate.
  - inversion Hrun; subst s'; clear Hrun.
    pose proof (keeps_eq ident_slots _ s connection_lost_keeps) as Hk.
    apply (f_equal snd) in Hk. exact (slot_invariant_slots _ _ Hk Hinv).
  - inversion Hrun; subst s'. exact Hinv.
Qed.

(** Every event that fails the guard breaks it. *)
Lemma run_op_breaks_slot_invariant (op : Op) (s s' : State) :
  slot_guard op s = false -> run_op op s = Some s' ->
  extra_valid_requested (self s') = true /\ sync_integrity_free (self s') = true.
Proof.
  intros Hguard Hrun.
  destruct op as [tid command data | tid inputs | tid | tid | | snap];
    simpl in Hrun, Hguard; try discriminate Hguard.
  - destruct (String.eqb command "syn_i_w_m_r") eqn:Hcmd; [| discriminate].
    apply String.eqb_eq in Hcmd. subst command.
    apply negb_false_iff in Hguard.
    change (handled_here "syn_i_w_m_r") with true in Hrun.
    change (begins_receive "syn_i_w_m_r") with false in Hrun.
    cbn [negb orb andb] in Hrun. inversion Hrun; subst s'; clear Hrun.
    pose proof (process_request_ident_slots tid "syn_i_w_m_r" data s eq_refl) as Heq.
    apply (f_equal snd) in Heq.
    change (slots (self (snd (process_request tid "syn_i_w_m_r" data s)))
            = (true, sync_agent_info_free (self s), extra_valid_requested (self s)))
      in Heq.
    apply slots_eq in Heq as (Hf & _ & He). rewrite He, Hguard. split; [reflexivity | exact Hf].
  - destruct (sync_tasks (self s) !! tid) as [t |] eqn:Htask; [| discriminate].
    destruct (task_coro t) eqn:Hcoro; try discriminate Hguard.
    apply negb_false_iff, andb_true_iff in Hguard as [Hfree Hreq].
    apply bool_decide_eq_true_1 in Hreq.
    destruct (coro_finished t); [discriminate |].
    inversion Hrun; subst s'; clear Hrun. simpl.
    pose proof (keeps_eq core_but_extra_valid _ s
                  (sync_integrity_keeps (in_peer inputs) (in_send_file inputs) tid))
      as Hk.
    apply (f_equal (fun x => snd (fst (fst x)))) in Hk. simpl in Hk.
    pose proof (sync_integrity_assigns (in_peer inputs) (in_send_file inputs) tid s)
      as He.
    rewrite Htask, Hreq in He. cbn [default] in He.
    assert (Hsame : snd (bind (sync_integrity (in_peer inputs) (in_send_file inputs) tid)
                           (fun _ => ret tt) s)
                    = snd (sync_integrity (in_peer inputs) (in_send_file inputs) tid s)).
    { unfold bind. destruct (sync_integrity _ _ tid s) as [[r | e] s1]; reflexivity. }
    rewrite Hsame. rewrite He, Hk. split; [reflexivity | exact Hfree].
Qed.

Lemma run_ops_guarded_slot_invariant (ops : list Op) :
  forall s s', slot_invariant (self s) -> run_ops_guarded ops s = Some s' ->
               slot_invariant (self s').
Proof.
  induction ops as [| op rest IH]; intros s s' Hinv Hrun; simpl in Hrun.
  - inversion Hrun; subst s'. exact Hinv.
  - destruct (slot_guard op s) eqn:Hguard; [| discriminate].
    destruct (run_op op s) as [s1 |] eqn:Hop; [| discriminate].
    apply (IH s1 s'); [| exact Hrun].
    exact (run_op_slot_invariant op s s1 Hguard Hop Hinv).
Qed.

End Frames.

(** ** The slot invariant *)

(** C2 (as amended). From a fresh session, the invariant
    [extra_valid_requested = true -> sync_integrity_free = false] holds
    after every sequence of commands, coroutine runs, cancellations,
    done-callbacks, connection losses and snapshot turns that holds
    neither of two events: a worker-reported sync error [syn_i_w_m_r]
    processed while [extra_valid_requested] is true, and a run of the
    integrity coroutine that requests extra-valid files while
    [sync_integrity_free] is true. Each of these two events, whenever it
    happens, ends with both fields true. Processing [syn_i_w_m_r] itself
    sets [sync_integrity_free] to true and leaves [extra_valid_requested]
    as it was. *)
Theorem slot_invariant_guarded_run `{Collaborators} (nm : string) (w : WorkerInfo)
    (m : Master) (d : gmap string DiskFile) (ops : list Op) (s' : State) :
  run_ops_guarded ops (initial_state nm w m d) = Some s' ->
  slot_invariant (self s')
  /\ (forall op s s1,
        slot_guard op s = false -> run_op op s = Some s1 ->
        extra_valid_requested (self s1) = true
        /\ sync_integrity_free (self s1) = true
        /\ ~ slot_invariant (self s1))
  /\ (forall data s,
        sync_integrity_free (self (snd (process_request "" "syn_i_w_m_r" data s)))
          = true
        /\ extra_valid_requested
             (self (snd (process_request "" "syn_i_w_m_r" data s)))
           = extra_valid_requested (self s)).
Proof.
  intros Hrun. split; [| split].
  - apply (run_ops_guarded_slot_invariant ops (initial_state nm w m d) s');
      [| exact Hrun].
    unfold slot_invariant. simpl. discriminate.
  - intros op s s1 Hguard Hop.
    destruct (run_op_breaks_slot_invariant op s s1 Hguard Hop) as [Hreq Hfree].
    split; [exact Hreq |]. split; [exact Hfree |].
    intros Hinv. specialize (Hinv Hreq). rewrite Hfree in Hinv. discriminate.
  - intros data s.
    pose proof (process_request_ident_slots "" "syn_i_w_m_r" data s eq_refl) as Heq.
    apply (f_equal snd) in Heq.
    change (slots (self (snd (process_request "" "syn_i_w_m_r" data s)))
            = (true, sync_agent_info_free (self s), extra_valid_requested (self s)))
      in Heq.
    apply slots_eq in Heq as (Hf & _ & He). split; assumption.
Qed.

(** C2 on the sample session: an integrity round with one extra-valid
    file meets the guard and ends with the slot reserved; the ordinary
    error flow of a round meets the guard too and ends with the slot free
    and no extra-valid files requested. *)
Lemma slot_invariant_guarded_run_witness :
  slot_invariant (self (state_after integrity_round))
  /\ slot_invariant (self (state_after integrity_error_flow))
  /\ slots (self (state_after integrity_error_flow)) = (true, true, false).
Proof.
  split; [| split].
  - apply (slot_invariant_guarded_run (H := sample_collaborators)
             "worker1" sample_worker sample_master ∅ integrity_round).
    vm_compute. reflexivity.
  - apply (slot_invariant_guarded_run (H := sample_collaborators)
             "worker1" sample_worker sample_master ∅ integrity_error_flow).
    vm_compute. reflexivity.
  - vm_compute. reflexivity.
Defined.

(** C2, the claim as stated fails, in two ways. After an integrity round
    that requested extra-valid files, a worker-reported sync error leaves
    [extra_valid_requested] and [sync_integrity_free] both true. And with
    no sync error at all: of two integrity rounds that overlap, the first
    frees the slot when it ends, and the coroutine of the second then
    requests extra-valid files with the slot free. *)
Lemma slot_invariant_broken_two_ways :
  (exists s : State,
     run_ops (H := sample_collaborators) sync_error_after_round sample_state = Some s
     /\ extra_valid_requested (self s) = true
     /\ sync_integrity_free (self s) = true
     /\ ~ slot_invariant (self s))
  /\ (exists s : State,
        run_ops (H := sample_collaborators) overlapping_rounds sample_state = Some s
        /\ extra_valid_requested (self s) = true
        /\ sync_integrity_free (self s) = true
        /\ ~ slot_invariant (self s)).
Proof.
  split.
  - exists (state_after sync_error_after_round).
    split; [vm_compute; reflexivity |].
    split; [vm_compute; reflexivity |].
    split; [vm_compute; reflexivity |].
    intros Hinv. assert (Htrue : extra_valid_requested
                                   (self (state_after sync_error_after_round)) = true)
      by (vm_compute; reflexivity).
    specialize (Hinv Htrue). vm_compute in Hinv. discriminate.
  - exists (state_after overlapping_rounds).
    split; [vm_compute; reflexivity |].
    split; [vm_compute; reflexivity |].
    split; [vm_compute; reflexivity |].
    intros Hinv. assert (Htrue : extra_valid_requested
                                   (self (state_after overlapping_rounds)) = true)
      by (vm_compute; reflexivity).
    specialize (Hinv Htrue). vm_compute in Hinv. discriminate.
Qed.

(** ** Connection loss *)

(** C10. [connection_lost] requests the cancellation of every task of the
    session's map whose coroutine has not finished, keeps the map's keys,
    and leaves [sync_integrity_free], [sync_agent_info_free] and
    [extra_valid_requested] as they were. *)
Theorem connection_lost_cancels_and_keeps_slots (s : State) :
  fst (connection_lost s) = Return tt
  /\ (forall task_id,
        sync_tasks (self (snd (connection_lost s))) !! task_id
        = task_cancel <$> (sync_tasks (self s) !! task_id))
  /\ (forall task_id t,
        sync_tasks (self (snd (connection_lost s))) !! task_id = Some t ->
        coro_finished t = false -> cancel_requested t = true)
  /\ sync_integrity_free (self (snd (connection_lost s))) = sync_integrity_free (self s)
  /\ sync_agent_info_free (self (snd (connection_lost s)))
     = sync_agent_info_free (self s)
  /\ extra_valid_requested (self (snd (connection_lost s)))
     = extra_valid_requested (self s).
Proof.
  assert (Hmap : forall task_id,
            sync_tasks (self (snd (connection_lost s))) !! task_id
            = task_cancel <$> (sync_tasks (self s) !! task_id)).
  { intros task_id. simpl. apply lookup_fmap. }
  split; [reflexivity |]. split; [exact Hmap |]. split; [| repeat split].
  intros task_id t Hlook Hpending. rewrite Hmap in Hlook.
  destruct (sync_tasks (self s) !! task_id) as [t0 |]; [| discriminate].
  simpl in Hlook. inversion Hlook; subst t. clear Hlook.
  unfold task_cancel in *. destruct (coro_finished t0) eqn:Hfin.
  - rewrite Hfin in Hpending. discriminate.
  - reflexivity.
Qed.

(** C10 on the sample session after its integrity round began: the one
    task of the map is pending and gets its cancellation request, and the
    reserved slot stays reserved. *)
Lemma connection_lost_witness :
  sync_integrity_free
    (self (snd (connection_lost
                  (state_after [OpRequest "t1" "syn_i_w_m" ""]))))
  = false
  /\ cancel_requested <$>
       (sync_tasks
          (self (snd (connection_lost
                        (state_after [OpRequest "t1" "syn_i_w_m" ""]))))
          !! "t1")
     = Some true.
Proof.
  destruct (connection_lost_cancels_and_keeps_slots
              (state_after [OpRequest "t1" "syn_i_w_m" ""]))
    as (_ & Hmap & _ & Hfree & _).
  split.
  - rewrite Hfree. vm_compute. reflexivity.
  - rewrite Hmap. vm_compute. reflexivity.
Defined.

(** ** DAPI responses *)

Lemma split1_join (sep : ascii) (a b : string) :
  has_char sep a = false -> split1 sep (a ++ String sep b) = [a; b].
Proof.
  induction a as [| c a IH]; simpl; intros Hno.
  - rewrite Ascii.eqb_refl. reflexivity.
  - apply orb_false_iff in Hno as [Hc Ha]. rewrite Hc, (IH Ha). reflexivity.
Qed.

(** C8 (as amended). [process_dapi_res] splits its input at the first
    space into the request-id and the string-id, and then dispatches four
    ways. With the request-id in the pending-request table and the string
    in the registry, the payload becomes the entry's response, the entry's
    signal is set and the string leaves the registry. With the request-id
    in the table and the string not in the registry, the call fails with
    [KeyError] for the string-id: nothing is stored, the waiter is not
    signalled and the other branches are not tried. Otherwise, with the
    request-id naming a local-API client, the response is forwarded to
    that client; otherwise the call fails with error 3032 carrying the
    request-id. *)
Theorem process_dapi_res_dispatch (s : State) (req_id string_id : string) :
  has_char space req_id = false ->
  let data := req_id ++ " " ++ string_id in
  (forall entry payload,
     pending_api_requests (server s) !! req_id = Some entry ->
     in_str (self s) !! string_id = Some payload ->
     fst (process_dapi_res data s) = Return ("ok", "Forwarded response")
     /\ pending_api_requests (server (snd (process_dapi_res data s))) !! req_id
        = Some (mkPendingRequest true payload)
     /\ in_str (self (snd (process_dapi_res data s))) !! string_id = None
     /\ events (snd (process_dapi_res data s)) = events s)
  /\ (forall entry,
        pending_api_requests (server s) !! req_id = Some entry ->
        in_str (self s) !! string_id = None ->
        process_dapi_res data s = (Raise (KeyError string_id), s))
  /\ (pending_api_requests (server s) !! req_id = None ->
      req_id ∈ local_server_clients (server s) ->
      process_dapi_res data s
      = (Return ("ok", "Response forwarded to worker"),
         mkState (self s) (server s) (disk s)
           (events s ++ [EvForwardDapiResponse data]) (ticks s)))
  /\ (pending_api_requests (server s) !! req_id = None ->
      req_id ∉ local_server_clients (server s) ->
      process_dapi_res data s = (Raise (WazuhClusterError 3032 req_id), s)).
Proof.
  intros Hno data.
  assert (Hsplit : split1 space data = [req_id; string_id]).
  { unfold data. apply (split1_join space req_id string_id Hno). }
  split; [| split; [| split]].
  - intros entry payload Hentry Hpayload.
    unfold process_dapi_res, bind. rewrite Hsplit. simpl.
    rewrite bool_decide_true by (apply elem_of_dom; eexists; exact Hentry).
    rewrite Hpayload. simpl.
    split; [reflexivity |]. split; [| split; [apply lookup_delete_eq | reflexivity]].
    rewrite lookup_alter_eq, lookup_alter_eq, Hentry. reflexivity.
  - intros entry Hentry Hmissing.
    unfold process_dapi_res, bind. rewrite Hsplit. simpl.
    rewrite bool_decide_true by (apply elem_of_dom; eexists; exact Hentry).
    rewrite Hmissing. reflexivity.
  - intros Hnone Hclient.
    unfold process_dapi_res, bind. rewrite Hsplit. simpl.
    rewrite bool_decide_false by (rewrite elem_of_dom, Hnone; apply is_Some_None).
    rewrite bool_decide_true by exact Hclient.
    reflexivity.
  - intros Hnone Hclient.
    unfold process_dapi_res, bind. rewrite Hsplit. simpl.
    rewrite bool_decide_false by (rewrite elem_of_dom, Hnone; apply is_Some_None).
    rewrite bool_decide_false by exact Hclient.
    reflexivity.
Qed.

(** C8 on the sample sessions: request ["r1"] pending, then ["r1"] a
    local-API client, then ["r1"] unknown. *)
Lemma process_dapi_res_dispatch_witness :
  (fst (process_dapi_res "r1 s1" sample_state_pending)
     = Return ("ok", "Forwarded response")
   /\ pending_api_requests (server (snd (process_dapi_res "r1 s1" sample_state_pending)))
        !! "r1"
      = Some (mkPendingRequest true "response"))
  /\ fst (process_dapi_res "r1 s1" sample_state_local_client)
     = Return ("ok", "Response forwarded to worker")
  /\ fst (process_dapi_res "r1 s1" sample_state_with_string)
     = Raise (WazuhClusterError 3032 "r1").
Proof.
  split; [| split].
  - destruct (process_dapi_res_dispatch sample_state_pending "r1" "s1" eq_refl)
      as [Hpending _].
    destruct (Hpending (mkPendingRequest false "") "response")
      as (Hret & Hentry & _); [vm_compute; reflexivity | vm_compute; reflexivity |].
    split; [exact Hret | exact Hentry].
  - destruct (process_dapi_res_dispatch sample_state_local_client "r1" "s1" eq_refl)
      as (_ & _ & Hclient & _).
    assert (Hnone : pending_api_requests (server sample_state_local_client) !! "r1"
                    = None) by (vm_compute; reflexivity).
    assert (Hin : "r1" ∈ local_server_clients (server sample_state_local_client))
      by (cbn; set_solver).
    exact (f_equal fst (Hclient Hnone Hin)).
  - destruct (process_dapi_res_dispatch sample_state_with_string "r1" "s1" eq_refl)
      as (_ & _ & _ & Hunknown).
    assert (Hnone : pending_api_requests (server sample_state_with_string) !! "r1"
                    = None) by (vm_compute; reflexivity).
    assert (Hout : "r1" ∉ local_server_clients (server sample_state_with_string))
      by (cbn; set_solver).
    exact (f_equal fst (Hunknown Hnone Hout)).
Defined.

(** C8, the claim as stated fails: request ["r1"] is in the
    pending-request table, and [process_dapi_res] on a string-id that the
    registry does not hold neither stores a response nor signals the
    waiter; it raises [KeyError], which is none of the three outcomes of
    the claim. *)
Lemma process_dapi_res_pending_unregistered :
  pending_api_requests (server sample_state_pending) !! "r1"
    = Some (mkPendingRequest false "")
  /\ in_str (self sample_state_pending) !! "s9" = None
  /\ fst (process_dapi_res "r1 s9" sample_state_pending) = Raise (KeyError "s9")
  /\ pending_api_requests (server (snd (process_dapi_res "r1 s9" sample_state_pending)))
       !! "r1"
     = Some (mkPendingRequest false "")
  /\ events (snd (process_dapi_res "r1 s9" sample_state_pending)) = [].
Proof.
  repeat split; vm_compute; reflexivity.
Qed.

(** ** The pending-request table *)

Section PendingTable.
Context `{Collaborators}.

Lemma keeps_core_pending_dom {A} (c : M A) : keeps core c -> keeps pending_dom c.
Proof.
  intros Hc.
  exact (keeps_weaken core (fun x => dom (pending_api_requests (snd x))) c Hc).
Qed.

Lemma pending_dom_alter (f : PendingRequest -> PendingRequest) (k : string)
    (s : State) :
  pending_dom
    (with_server (fun m =>
       set_pending_api_requests (alter f k (pending_api_requests m)) m) s)
  = pending_dom s.
Proof. unfold pending_dom. simpl. apply dom_alter_L. Qed.

Lemma process_dapi_res_keeps_pending_dom data : keeps pending_dom (process_dapi_res data).
Proof.
  unfold process_dapi_res. intros v.
  frame ltac:(first
    [ same_proj
    | let st := fresh "st" in
      let Hst := fresh "Hst" in
      intros st Hst; cbv beta in *; rewrite pending_dom_alter; exact Hst ]).
Qed.

Ltac kept_pending :=
  intros ?;
  repeat first
    [ apply process_dapi_res_keeps_pending_dom
    | apply (keeps_core_pending_dom _ (end_receiving_file_keeps_core _))
    | apply (keeps_core_pending_dom _ (error_receiving_file_keeps_core _))
    | apply (keeps_core_pending_dom _ (setup_receive_file_keeps_core _ _ _))
    | apply (keeps_core_pending_dom _ (sync_worker_files_keeps_core _ _))
    | apply (keeps_core_pending_dom _ stamp_integrity_sync_end_keeps_core)
    | apply (keeps_core_pending_dom _ (super_done_callback_keeps_core _))
    | apply get_health_preserves
    | apply get_nodes_preserves
    | frame_step same_proj ].

Lemma process_request_keeps_pending_dom task_id command data :
  handled_here command = true ->
  keeps pending_dom (process_request task_id command data).
Proof.
  intros Hin. apply handled_here_cases in Hin. each_command Hin.
  all: dispatch;
    unfold get_permission, setup_sync_integrity, end_receiving_integrity_checksums,
      process_sync_error_from_worker;
    cbn [String.eqb Ascii.eqb Bool.eqb andb]; kept_pending.
Qed.

Lemma run_coro_keeps_pending_dom inputs c task_id :
  keeps pending_dom (run_coro inputs c task_id).
Proof.
  destruct c; unfold run_coro, sync_extra_valid.
  - intros v. apply preserves_bind; [| intros; apply preserves_ret].
    exact (keeps_weaken core_but_extra_valid
             (fun x => dom (pending_api_requests (snd x))) _
             (sync_integrity_keeps _ _ _) v).
  - kept_pending.
  - intros v. apply preserves_bind; [| intros; apply preserves_ret].
    apply (keeps_core_pending_dom _ (sync_wazuh_db_info_keeps_core _ _ _)).
Qed.

Lemma done_callback_keeps_pending_dom cls task_id :
  keeps pending_dom (done_callback cls task_id).
Proof.
  destruct cls;
    unfold done_callback, ReceiveIntegrityTask_done_callback,
      ReceiveExtraValidTask_done_callback, ReceiveAgentInfoTask_done_callback;
    kept_pending.
Qed.

Lemma connection_lost_keeps_pending_dom : keeps pending_dom connection_lost.
Proof. unfold connection_lost, super_connection_lost. kept_pending. Qed.

(** No event of the session takes a request-id out of the table. *)
Lemma run_op_pending_dom (op : Op) (s s' : State) :
  run_op op s = Some s' -> pending_dom s' = pending_dom s.
Proof.
  intros Hrun.
  destruct op as [tid command data | tid inputs | tid | tid | | snap]; simpl in Hrun.
  - destruct (handled_here command) eqn:Hh; [| discriminate].
    destruct (_ || _) in Hrun; [| discriminate]. simpl in Hrun.
    inversion Hrun; subst s'.
    apply (keeps_eq pending_dom _ s (process_request_keeps_pending_dom _ _ _ Hh)).
  - destruct (sync_tasks (self s) !! tid) as [t |]; [| discriminate].
    destruct (coro_finished t); [discriminate |].
    inversion Hrun; subst s'.
    exact (keeps_eq pending_dom _ s (run_coro_keeps_pending_dom _ _ _)).
  - destruct (sync_tasks (self s) !! tid) as [t |]; [| discriminate].
    destruct (_ && _) in Hrun; [| discriminate].
    inversion Hrun; subst s'. reflexivity.
  - destruct (sync_tasks (self s) !! tid) as [t |]; [| discriminate].
    destruct (coro_finished t); [| discriminate].
    inversion Hrun; subst s'.
    exact (keeps_eq pending_dom _ s (done_callback_keeps_pending_dom _ _)).
  - inversion Hrun; subst s'.
    exact (keeps_eq pending_dom _ s connection_lost_keeps_pending_dom).
  - inversion Hrun; subst s'. destruct snap; reflexivity.
Qed.

Lemma run_ops_pending_dom (ops : list Op) :
  forall s s', run_ops ops s = Some s' -> pending_dom s' = pending_dom s.
Proof.
  induction ops as [| op rest IH]; intros s s' Hrun; simpl in Hrun.
  - inversion Hrun; reflexivity.
  - destruct (run_op op s) as [s1 |] eqn:Hop; [| discriminate].
    rewrite (IH s1 s' Hrun). exact (run_op_pending_dom op s s1 Hop).
Qed.

End PendingTable.

Lemma execute_send_inserts `{Collaborators} peer request_id task_id command data
    (s : State) :
  command = "dapi" \/ command = "dapi_fwd" ->
  request_id ∈ pending_dom (snd (execute_send peer request_id task_id command data s)).
Proof.
  intros Hcmd.
  assert (Hpost : forall (f : State -> State) (k : M ExecResult),
            request_id ∈ pending_dom (f s) ->
            preserves (fun s0 => request_id ∈ pending_dom s0) k ->
            request_id ∈ pending_dom (snd (bind (modify f) (fun _ => k) s))).
  { intros f k Hf Hk. exact (Hk (f s) Hf). }
  unfold execute_send.
  destruct Hcmd as [-> | ->]; cbn [String.eqb Ascii.eqb Bool.eqb];
    apply Hpost;
    try (unfold pending_dom; simpl; rewrite dom_insert_L; set_solver);
    unfold send_request, decode; frame same_proj.
Qed.

Lemma execute_wait_keeps_state wait_for_complete timed_out request_id command result
    (s : State) :
  snd (execute_wait wait_for_complete timed_out request_id command result s) = s.
Proof.
  unfold execute_wait, bind, get_state, raise, ret.
  destruct (_ || _).
  - destruct (pending_api_requests (server s) !! request_id) as [p |]; [| reflexivity].
    destruct (Event_is_set p); [reflexivity |].
    destruct (_ && _); reflexivity.
  - destruct result; [reflexivity |].
    destruct (negb _); reflexivity.
Qed.

(** C7 (as amended). In a DAPI round-trip started by [execute] with
    [dapi] or [dapi_fwd], the entry inserted under the fresh request-id is
    in the pending-request table when the send returns or fails, stays
    there through every event of the session, and is still there when
    [execute] ends, be it with the response or with the timeout error: no
    operation removes an entry of the table. *)
Theorem pending_entry_never_removed `{Collaborators} (peer : string -> string -> Reply)
    (request_id task_id command data : string) (wait_for_complete timed_out : bool)
    (result : ExecResult) (ops : list Op) (s s1 : State) :
  command = "dapi" \/ command = "dapi_fwd" ->
  run_ops ops (snd (execute_send peer request_id task_id command data s)) = Some s1 ->
  request_id
    ∈ dom (pending_api_requests
             (server (snd (execute_send peer request_id task_id command data s))))
  /\ request_id ∈ dom (pending_api_requests (server s1))
  /\ request_id
     ∈ dom (pending_api_requests
              (server (snd (execute_wait wait_for_complete timed_out request_id
                              command result s1)))).
Proof.
  intros Hcmd Hrun.
  pose proof (execute_send_inserts peer request_id task_id command data s Hcmd) as Hin.
  pose proof (run_ops_pending_dom ops _ _ Hrun) as Hdom.
  rewrite execute_wait_keeps_state.
  split; [exact Hin |].
  assert (Hs1 : request_id ∈ pending_dom s1) by (rewrite Hdom; exact Hin).
  split; exact Hs1.
Qed.

(** C7 on the sample round-trip: the entry ["r1"] is in the table after
    the answer arrived and [execute] left its wait. *)
Lemma pending_entry_never_removed_witness :
  "r1" ∈ dom (pending_api_requests (server dapi_answered)).
Proof.
  destruct (pending_entry_never_removed (H := sample_collaborators) quiet_peer
              "r1" "" "dapi" "request" false false (ResultStr "ok")
              [OpRequest "" "dapi_res" "r1 s1"] sample_state_with_string
              dapi_answered)
    as (_ & Hin & _).
  - left. reflexivity.
  - vm_compute. reflexivity.
  - exact Hin.
Defined.

(** C7, the claim as stated fails: [execute] returns the response, or
    raises the timeout error, and the entry under its request-id is still
    in the table. *)
Lemma pending_entry_left_after_round_trip :
  (execute_wait false false "r1" "dapi" (ResultStr "ok") dapi_answered
     = (Return (Some "response"), dapi_answered)
   /\ pending_api_requests (server dapi_answered) !! "r1"
      = Some (mkPendingRequest true "response"))
  /\ (execute_wait false true "r1" "dapi" (ResultStr "ok") dapi_sent
        = (Raise (WazuhClusterError 3021 ""), dapi_sent)
      /\ pending_api_requests (server dapi_sent) !! "r1"
         = Some (mkPendingRequest false "")).
Proof.
  repeat split; vm_compute; reflexivity.
Qed.

(** ** Health view *)

Section Health.
Context `{Collaborators}.

Lemma dom_filled (workers_info : gmap string NodeEntry) (k : string) :
  k ∈ dom (map_imap (fun k e => Some (fill_entry k e)) workers_info)
  <-> k ∈ dom workers_info.
Proof.
  rewrite !elem_of_dom, map_lookup_imap.
  destruct (workers_info !! k); simpl; split; intros [x Hx]; eauto; discriminate.
Qed.

Lemma dom_selected_workers (m : Master) (f : FilterNode) (k : string) :
  k ∈ dom (to_dict <$>
             filter (fun kv => Is_true (worker_selected f kv.1)) (clients m))
  <-> k ∈ dom (clients m) /\ worker_selected f k = true.
Proof.
  rewrite dom_fmap, !elem_of_dom. split.
  - intros [h Hh]. apply map_lookup_filter_Some in Hh as [Hh Hsel]. simpl in Hsel.
    split; [eexists; exact Hh | apply Is_true_true, Hsel].
  - intros [[h Hh] Hsel]. exists h. apply map_lookup_filter_Some.
    split; [exact Hh | apply Is_true_true, Hsel].
Qed.

(** X18. The names of the health document are the connected workers
    that the filter selects (all of them for a missing filter or an empty
    object, the named ones otherwise), and the master's name when the
    filter is missing or names the master. *)
Theorem get_health_nodes (m : Master) (f : FilterNode) (d : HealthDoc) :
  Master_get_health m f = Return d ->
  forall k,
    k ∈ dom (nodes d)
    <-> (k ∈ dom (clients m) /\ worker_selected f k = true)
        \/ (master_selected f (cfg_node_name (configuration m)) = true
            /\ k = cfg_node_name (configuration m)).
Proof.
  unfold Master_get_health. intros Hrun k.
  destruct (master_selected f (cfg_node_name (configuration m))) eqn:Hmaster.
  - destruct (Master_to_dict m) as [e | x]; [| discriminate].
    destruct (bool_decide _); [| discriminate].
    inversion Hrun; subst d; clear Hrun. simpl.
    rewrite dom_filled, dom_insert, elem_of_union, elem_of_singleton,
      dom_selected_workers.
    split; intros [Hl | Hr]; auto.
    + destruct Hr as [_ Hr]. auto.
  - destruct (bool_decide _); [| discriminate].
    inversion Hrun; subst d; clear Hrun. simpl.
    rewrite dom_filled, dom_selected_workers.
    split; [auto | intros [Hl | [Hr _]]; [exact Hl | discriminate]].
Qed.

End Health.

(** C9, evaluated at the failing input: one worker is connected and the
    filter is the empty object; the document lists the worker and not the
    master, whereas without a filter it lists both. *)
Theorem get_health_empty_filter_omits_master :
  (exists d : HealthDoc,
     Master_get_health (H := sample_collaborators) sample_master_one_worker
       (FilterDict []) = Return d
     /\ n_connected_nodes d = 1%nat
     /\ fst <$> map_to_list (nodes d) = ["worker1"]
     /\ nodes d !! "master-node" = None)
  /\ (exists d : HealthDoc,
        Master_get_health (H := sample_collaborators) sample_master_one_worker
          FilterNone = Return d
        /\ fst <$> map_to_list (nodes d) = ["worker1"; "master-node"]).
Proof.
  split.
  - eexists. split; [vm_compute; reflexivity |].
    repeat split; vm_compute; reflexivity.
  - eexists. split; [vm_compute; reflexivity |].
    vm_compute. reflexivity.
Qed.

(** ** Agent-info synchronisation *)

Section AgentInfo.
Context `{Collaborators}.

Lemma update_chunk_spec (response : Outcome (list string)) (result : SyncResult) :
  update_chunk response result
  = mkSyncResult
      (updated_chunks result + (if chunk_updated response then 1 else 0))
      (error_messages result ++ option_list (chunk_error response)).
Proof.
  destruct result as [n errs].
  destruct response as [[| first rest] | e]; unfold chunk_updated; simpl.
  - rewrite Z.add_0_r. reflexivity.
  - destruct (String.eqb first "ok"); simpl.
    + rewrite app_nil_r. reflexivity.
    + rewrite Z.add_0_r. reflexivity.
  - rewrite Z.add_0_r. reflexivity.
Qed.

(** The loop visits every chunk, in order, whatever the database
    answers. *)
Lemma update_chunks_run wdb cmd (cs : list string) :
  forall (i : nat) (result : SyncResult) (s : State),
    update_chunks wdb cmd i cs result s
    = (Return
         (mkSyncResult
            (updated_chunks result
             + Z.of_nat (length (List.filter chunk_updated
                                   (responses_from wdb cmd i cs))))
            (error_messages result ++ omap chunk_error (responses_from wdb cmd i cs))),
       mkState (self s) (server s) (disk s)
         (events s ++ (EvWdbSend <$> ((fun chunk => cmd ++ " " ++ chunk) <$> cs)))
         (ticks s)).
Proof.
  induction cs as [| chunk rest IH]; intros i result s.
  - simpl. rewrite Z.add_0_r, !app_nil_r. destruct result, s. reflexivity.
  - cbn [update_chunks]. unfold bind at 1. unfold emit, modify at 1.
    rewrite IH. rewrite update_chunk_spec. cbn [self server disk events ticks].
    f_equal.
    + cbn [responses_from updated_chunks error_messages].
      set (r := wdb i (cmd ++ " " ++ chunk)).
      set (rs := responses_from wdb cmd (S i) rest).
      change (List.filter chunk_updated (r :: rs))
        with (if chunk_updated r then r :: List.filter chunk_updated rs
              else List.filter chunk_updated rs).
      change (omap chunk_error (r :: rs))
        with (match chunk_error r with
              | Some y => y :: omap chunk_error rs
              | None => omap chunk_error rs
              end).
      assert (Hup : chunk_updated r
                    = match chunk_error r with None => true | Some _ => false end)
        by reflexivity.
      rewrite !Hup. clear Hup.
      destruct (chunk_error r) as [err |]; cbn [option_list length].
      * rewrite Z.add_0_r, <- app_assoc. reflexivity.
      * rewrite app_nil_r. do 2 f_equal. lia.
    + cbn [fmap list_fmap]. rewrite <- app_assoc. reflexivity.
Qed.

Lemma expected_result_total wdb cmd (cs : list string) :
  forall i,
    (length (List.filter chunk_updated (responses_from wdb cmd i cs))
     + length (omap chunk_error (responses_from wdb cmd i cs)))%nat
    = length cs.
Proof.
  induction cs as [| chunk rest IH]; intros i; [reflexivity |].
  cbn [responses_from].
  set (r := wdb i (cmd ++ " " ++ chunk)).
  specialize (IH (S i)). revert IH.
  set (rs := responses_from wdb cmd (S i) rest). intros IH.
  change (List.filter chunk_updated (r :: rs))
    with (if chunk_updated r then r :: List.filter chunk_updated rs
          else List.filter chunk_updated rs).
  change (omap chunk_error (r :: rs))
    with (match chunk_error r with
          | Some y => y :: omap chunk_error rs
          | None => omap chunk_error rs
          end).
  assert (Hup : chunk_updated r
                = match chunk_error r with None => true | Some _ => false end)
    by reflexivity.
  rewrite Hup. clear Hup.
  destruct (chunk_error r); cbn [length]; lia.
Qed.

End AgentInfo.

(** C6. On a payload that is in the string registry and parses,
    [sync_wazuh_db_info] sends every chunk to the agent database in
    order; a response whose first element is not ["ok"] and an exception
    of the send each add one entry to [error_messages] and the loop goes
    on; every other chunk adds one to [updated_chunks]; after the loop the
    result is sent to the worker as [syn_m_a_e] and the worker's answer is
    returned. For [chunks = []] the result is [updated_chunks = 0] with no
    error message, and it is sent all the same. *)
Theorem sync_wazuh_db_info_result `{Collaborators} (peer : string -> string -> Reply)
    (wdb : nat -> string -> Outcome (list string)) (task_id payload : string)
    (data : AgentInfoPayload) (s : State) :
  in_str (self s) !! task_id = Some payload ->
  json_loads_agent_info payload = Return data ->
  let result := expected_result wdb (set_data_command data) (chunks data) in
  let sent := json_dumps_result result in
  fst (sync_wazuh_db_info peer wdb task_id s) = Return (peer "syn_m_a_e" sent)
  /\ events (snd (sync_wazuh_db_info peer wdb task_id s))
     = (events s
        ++ (EvWdbSend <$>
              ((fun chunk => (set_data_command data ++ " " ++ chunk)%string)
                   <$> chunks data))
        ++ [EvSendRequest (name (self s)) "syn_m_a_e" sent])%list
  /\ updated_chunks result + Z.of_nat (length (error_messages result))
     = Z.of_nat (length (chunks data))
  /\ ai_n_synced_chunks
       (sync_agent_info_status (self (snd (sync_wazuh_db_info peer wdb task_id s))))
     = updated_chunks result
  /\ (chunks data = [] -> result = mkSyncResult 0 []).
Proof.
  intros Hstr Hjson result sent.
  assert (Hrun : sync_wazuh_db_info peer wdb task_id s
    = (Return (peer "syn_m_a_e" sent),
       mkState
         (set_sync_agent_info_status
            (mkAgentInfoStatus (DString (strftime (wall_clock (ticks s))))
               (DString (strftime (wall_clock (S (ticks s)))))
               (updated_chunks result)) (self s))
         (server s) (disk s)
         ((events s
           ++ (EvWdbSend <$>
                 ((fun chunk => (set_data_command data ++ " " ++ chunk)%string)
                   <$> chunks data)))
          ++ [EvSendRequest (name (self s)) "syn_m_a_e" sent])
         (S (S (ticks s))))).
  { unfold sync_wazuh_db_info. unfold bind at 1. unfold datetime_now at 1.
    unfold bind at 1. unfold get_state at 1. cbn [self].
    rewrite Hstr, Hjson. unfold bind at 1. unfold ret at 1.
    unfold bind at 1. rewrite update_chunks_run.
    cbn [updated_chunks error_messages app].
    change (0 + Z.of_nat
                  (length (List.filter chunk_updated
                             (responses_from wdb (set_data_command data) 0
                                (chunks data)))))
      with (updated_chunks result).
    reflexivity. }
  rewrite Hrun. cbn [fst snd events self sync_agent_info_status].
  split; [reflexivity |]. split; [rewrite app_assoc; reflexivity |].
  split; [| split; [reflexivity |]].
  - unfold result, expected_result. cbn [updated_chunks error_messages].
    rewrite <- Nat2Z.inj_add. f_equal. apply expected_result_total.
  - intros Hnil. unfold result, expected_result. rewrite Hnil. reflexivity.
Qed.

(** C6 on the fourth scenario: three chunks, the second refused; on the
    same chunks with a database whose second send raises a [KeyError],
    whose text is the quoted key; and on the payload without chunks. *)
Lemma sync_wazuh_db_info_result_witness :
  (expected_result (H := sample_collaborators) sample_wdb
     "agent 001 sync-agent-info set" ["good1"; "bad"; "good3"]
     = mkSyncResult 2 [ErrResponse ["err"; "reason"]]
   /\ fst (sync_wazuh_db_info (H := sample_collaborators) quiet_peer sample_wdb "t2"
             (sample_state_agent_info "chunks"))
      = Return (RBytes "ok"))
  /\ (expected_result (H := sample_collaborators) sample_wdb_raising
        "agent 001 sync-agent-info set" ["good1"; "bad"; "good3"]
      = mkSyncResult 2 [ErrText "'agent'"]
      /\ fst (sync_wazuh_db_info (H := sample_collaborators) quiet_peer
                sample_wdb_raising "t2" (sample_state_agent_info "chunks"))
         = Return (RBytes "ok"))
  /\ (expected_result (H := sample_collaborators) sample_wdb "set" []
      = mkSyncResult 0 []
      /\ fst (sync_wazuh_db_info (H := sample_collaborators) quiet_peer sample_wdb "t2"
                (sample_state_agent_info "[]"))
         = Return (RBytes "ok")).
Proof.
  split; [| split].
  - destruct (sync_wazuh_db_info_result (H := sample_collaborators) quiet_peer
                sample_wdb "t2" "chunks"
                (mkAgentInfoPayload "agent 001 sync-agent-info set"
                   ["good1"; "bad"; "good3"])
                (sample_state_agent_info "chunks"))
      as (Hret & _); [vm_compute; reflexivity | reflexivity |].
    split; [vm_compute; reflexivity | exact Hret].
  - destruct (sync_wazuh_db_info_result (H := sample_collaborators) quiet_peer
                sample_wdb_raising "t2" "chunks"
                (mkAgentInfoPayload "agent 001 sync-agent-info set"
                   ["good1"; "bad"; "good3"])
                (sample_state_agent_info "chunks"))
      as (Hret & _); [vm_compute; reflexivity | reflexivity |].
    split; [vm_compute; reflexivity | exact Hret].
  - destruct (sync_wazuh_db_info_result (H := sample_collaborators) quiet_peer
                sample_wdb "t2" "[]" (mkAgentInfoPayload "set" [])
                (sample_state_agent_info "[]"))
      as (Hret & _ & _ & _ & Hempty); [vm_compute; reflexivity | reflexivity |].
    split; [exact (Hempty eq_refl) | exact Hret].
Defined.

(** ** Integrity check without differences *)

(** C5. When the diff of the worker's metadata against the snapshot
    leaves the four buckets empty, [sync_integrity] sends [syn_m_c_ok] with
    an empty payload and returns the worker's answer; it stamps the
    integrity-check record with start and end, sets
    [extra_valid_requested] to false, and does nothing else to the outside
    than removing the staging directory: no archive is built, no file is
    sent. *)
Theorem sync_integrity_no_sync_required `{Collaborators}
    (peer : string -> string -> Reply) (send_file_result : Outcome unit)
    (task_id received_filename dir : string) (t : ReceiveTask)
    (files_metadata : list (string * FileMeta)) (ko : WorkerFilesKo)
    (counts : TotalFiles) (s : State) :
  sync_tasks (self s) !! task_id = Some t ->
  received_information t = true ->
  filename t = ArtifactName received_filename ->
  decompress_files received_filename = Return (files_metadata, dir) ->
  compare_files (integrity_control (server s)) files_metadata (name (self s))
    = (ko, counts) ->
  ko_missing ko = ∅ -> ko_shared ko = ∅ -> ko_extra ko = ∅ ->
  ko_extra_valid ko = ∅ ->
  let s' := snd (sync_integrity peer send_file_result task_id s) in
  fst (sync_integrity peer send_file_result task_id s)
    = Return (peer "syn_m_c_ok" "")
  /\ events s'
     = (events s ++ [EvRmtree dir; EvSendRequest (name (self s)) "syn_m_c_ok" ""])%list
  /\ ic_date_end_master (integrity_check_status (self s'))
     = DString (strftime (wall_clock (S (S (ticks s)))))
  /\ ic_date_start_master (integrity_check_status (self s'))
     = DString (strftime (wall_clock (ticks s)))
  /\ extra_valid_requested (self s') = false
  /\ integrity_sync_status (self s') = integrity_sync_status (self s)
  /\ sync_integrity_free (self s') = sync_integrity_free (self s).
Proof.
  intros Htask Hrecv Hname Hzip Hdiff Hmissing Hshared Hextra Hvalid s'.
  assert (Hrun : sync_integrity peer send_file_result task_id s
    = (Return (peer "syn_m_c_ok" ""),
       mkState
         (set_integrity_check_status
            (mkIntegrityCheckStatus (DString (strftime (wall_clock (ticks s))))
               (DString (strftime (wall_clock (S (S (ticks s)))))))
            (set_extra_valid_requested false (self s)))
         (server s) (disk s)
         ((events s ++ [EvRmtree dir])
          ++ [EvSendRequest (name (self s)) "syn_m_c_ok" ""])
         (S (S (S (ticks s)))))).
  { unfold sync_integrity, wait_received_file.
    unfold bind, datetime_now, get_state, lift, emit, modify, ret, raise.
    cbn [self server disk events ticks]. rewrite Htask, Hrecv, Hname, Hzip.
    cbn [self server disk events ticks]. rewrite Hdiff.
    cbn [self server disk events ticks with_self].
    rewrite Hmissing, Hshared, Hextra, Hvalid.
    rewrite bool_decide_true by reflexivity. rewrite !map_size_empty.
    cbn [Nat.add Nat.eqb negb]. unfold send_request.
    unfold bind, get_state, emit, modify, ret.
    cbn [self server disk events ticks name set_integrity_check_status
         set_extra_valid_requested].
    reflexivity. }
  subst s'. rewrite Hrun. cbn [fst snd].
  split; [reflexivity |]. split; [rewrite <- app_assoc; reflexivity |].
  repeat split.
Qed.

(** C5 on the sample session: metadata identical to the snapshot. *)
Lemma sync_integrity_no_sync_required_witness :
  fst (sync_integrity (H := sample_collaborators) quiet_peer (Return tt) "t1"
         identical_metadata_received)
    = Return (RBytes "ok")
  /\ extra_valid_requested
       (self (snd (sync_integrity (H := sample_collaborators) quiet_peer (Return tt)
                     "t1" identical_metadata_received)))
     = false.
Proof.
  destruct (sync_integrity_no_sync_required (H := sample_collaborators) quiet_peer
              (Return tt) "t1" "same" "/tmp/same"
              (mkReceiveTask ReceiveIntegrityTask coro_sync_integrity ""
                 (ArtifactName "same") true false false)
              []
              (fst (sample_compare_files ∅ [] "worker1"))
              (snd (sample_compare_files ∅ [] "worker1"))
              identical_metadata_received)
    as (Hret & _ & _ & _ & Hreq & _).
  - vm_compute. reflexivity.
  - reflexivity.
  - reflexivity.
  - reflexivity.
  - reflexivity.
  - vm_compute. reflexivity.
  - vm_compute. reflexivity.
  - vm_compute. reflexivity.
  - vm_compute. reflexivity.
  - split; [exact Hret | exact Hreq].
Defined.

(** ** Members of a merged file *)

(** C4 (as amended). For a member of a known agent whose time parses and
    whose destination exists, [update_file] skips the member, writing
    nothing and counting nothing, whenever the destination's mtime in
    whole seconds is strictly greater than the member's mtime; when it is
    less than or equal and the item has configured permissions, the member
    is written to the destination with its own content and time and
    [total_extra_valid] grows by one. *)
Theorem update_member_mtime_gate `{Collaborators} (agent_ids : Outcome (list string))
    (data : FileMeta) (m : MergedMember) (n : NErrors) (s : State) (mtime : Z)
    (f : DiskFile) :
  agent_known (basename (file_path m)) agent_ids = true ->
  parse_mtime (file_time m) = Some mtime ->
  disk s !! path_join wazuh_path (file_path m) = Some f ->
  (local_mtime_of f > mtime -> update_member agent_ids data m n s = (Return n, s))
  /\ (local_mtime_of f <= mtime ->
      file_permissions (cluster_item_key data) <> None ->
      fst (update_member agent_ids data m n s) = Return n
      /\ disk (snd (update_member agent_ids data m n s))
           !! path_join wazuh_path (file_path m)
         = Some (mkDiskFile (file_data m) (timegm_of mtime * 1000000))
      /\ is_total_extra_valid
           (integrity_sync_status (self (snd (update_member agent_ids data m n s))))
         = is_total_extra_valid (integrity_sync_status (self s)) + 1).
Proof.
  intros Hknown Hparse Hdisk. split.
  - intros Hnewer. unfold update_member, bind, get_state.
    rewrite Hknown, Hparse, Hdisk. cbn [negb].
    replace (local_mtime_of f >? mtime) with true
      by (symmetry; apply Z.gtb_lt; lia).
    reflexivity.
  - intros Hnot Hperm. unfold update_member, bind, get_state.
    rewrite Hknown, Hparse, Hdisk. cbn [negb].
    replace (local_mtime_of f >? mtime) with false
      by (symmetry; rewrite Z.gtb_ltb; apply Z.ltb_ge; lia).
    destruct (file_permissions (cluster_item_key data)) as [perm |];
      [| contradiction].
    unfold write_file, safe_move, bind, datetime_now, get_state, modify, emit, ret.
    cbn [self server disk events ticks with_disk].
    rewrite lookup_insert_eq.
    cbn [fst snd self server disk events ticks with_disk with_self content].
    split; [reflexivity |]. split; [apply lookup_insert_eq | reflexivity].
Qed.

(** C4 on the sample disk: a destination modified at second 200 makes the
    member of second 100 skipped; a destination of second 100 does
    not. *)
Lemma update_member_mtime_gate_witness :
  update_member (H := sample_collaborators) (Return ["001"]) sample_merged_meta
    sample_member (mkNErrors ∅ ∅) sample_state_newer_on_disk
  = (Return (mkNErrors ∅ ∅), sample_state_newer_on_disk)
  /\ disk (snd (update_member (H := sample_collaborators) (Return ["001"])
                  sample_merged_meta sample_member (mkNErrors ∅ ∅)
                  sample_state_group_on_disk))
       !! "/var/ossec/001"
     = Some (mkDiskFile "group-a" 100000000).
Proof.
  split.
  - destruct (update_member_mtime_gate (H := sample_collaborators) (Return ["001"])
                sample_merged_meta sample_member (mkNErrors ∅ ∅)
                sample_state_newer_on_disk 100000000 (mkDiskFile "new" 200000000))
      as [Hskip _]; [reflexivity | reflexivity | vm_compute; reflexivity |].
    apply Hskip. vm_compute. reflexivity.
  - destruct (update_member_mtime_gate (H := sample_collaborators) (Return ["001"])
                sample_merged_meta sample_member (mkNErrors ∅ ∅)
                sample_state_group_on_disk 100000000 (mkDiskFile "old" 100000000))
      as [_ Hwrite]; [reflexivity | reflexivity | vm_compute; reflexivity |].
    destruct Hwrite as (_ & Hdisk & _).
    + vm_compute. discriminate.
    + vm_compute. discriminate.
    + exact Hdisk.
Defined.

(** C4, the claim as stated fails: the destination's mtime equals the
    member's, and [update_file] writes the member and counts it. *)
Lemma equal_mtime_member_is_written :
  disk sample_state_group_on_disk !! "/var/ossec/001"
    = Some (mkDiskFile "old" 100000000)
  /\ local_mtime_of (mkDiskFile "old" 100000000) >= 100000000
  /\ parse_mtime (H := sample_collaborators) (file_time sample_member)
     = Some 100000000
  /\ disk (snd (update_file (H := sample_collaborators) (Return ["001"]) "/tmp/zipdir"
                  "c" sample_merged_meta (mkNErrors ∅ ∅) sample_state_group_on_disk))
       !! "/var/ossec/001"
     = Some (mkDiskFile "group-a" 100000000)
  /\ is_total_extra_valid
       (integrity_sync_status
          (self (snd (update_file (H := sample_collaborators) (Return ["001"])
                        "/tmp/zipdir" "c" sample_merged_meta (mkNErrors ∅ ∅)
                        sample_state_group_on_disk))))
     = 1.
Proof.
  split; [vm_compute; reflexivity |].
  split; [vm_compute; discriminate |].
  repeat split; vm_compute; reflexivity.
Qed.

(** ** Permission probes within a cycle *)

Lemma keeps_preserves {A T} (proj : State -> T) (Q : T -> Prop) (c : M A) :
  keeps proj c -> preserves (fun s => Q (proj s)) c.
Proof.
  intros Hk s HQ. cbv beta. rewrite (keeps_eq proj c s Hk). exact HQ.
Qed.

Section Probes.
Context `{Collaborators}.
Variable nm : string.









End Probes.

Section Emptied.
Context `{Collaborators}.









End Emptied.




(** * Further properties of the code *)

(** ** Dispatch *)

(** X1. A command outside the fourteen that [process_request] answers
    itself is handed, with its payload, to the dispatcher of the server
    base, and nothing else happens. *)
Theorem process_request_fallthrough `{Collaborators} (task_id command data : string) :
  handled_here command = false ->
  process_request task_id command data = super_process_request command data.
Proof.
  unfold handled_here, name_in. cbn [existsb]. intros Hnot.
  repeat (apply orb_false_iff in Hnot as [?Hne Hnot]).
  unfold process_request.
  repeat match goal with
         | Hne : String.eqb command _ = false |- _ => rewrite Hne; clear Hne
         end.
  reflexivity.
Qed.

Lemma process_request_fallthrough_witness :
  process_request (H := sample_collaborators) "" "echo" "hi" sample_state
  = (Return ("err", "unknown command"), sample_state).
Proof.
  rewrite (process_request_fallthrough (H := sample_collaborators) "" "echo" "hi");
    reflexivity.
Defined.

(** ** DAPI: failures *)

Lemma split1_no_sep (sep : ascii) (a : string) :
  has_char sep a = false -> split1 sep a = [a].
Proof.
  induction a as [| c a IH]; simpl; intros Hno; [reflexivity |].
  apply orb_false_iff in Hno as [Hc Ha]. rewrite Hc, (IH Ha). reflexivity.
Qed.

(** X2. [process_dapi_res] fails without touching the state when its
    input has no space (the unpacking raises [ValueError]) and when the
    request is pending but the string-id is not in the registry (the
    lookup raises [KeyError]): the pending entry keeps its empty response
    and its signal stays unset. *)
Theorem process_dapi_res_failures (s : State) :
  (forall data,
     has_char space data = false ->
     process_dapi_res data s
     = (Raise (ValueError "not enough values to unpack (expected 2, got 1)"), s))
  /\ (forall req_id string_id entry,
        has_char space req_id = false ->
        pending_api_requests (server s) !! req_id = Some entry ->
        in_str (self s) !! string_id = None ->
        process_dapi_res (req_id ++ " " ++ string_id) s
        = (Raise (KeyError string_id), s)).
Proof.
  split.
  - intros data Hno. unfold process_dapi_res, bind.
    rewrite (split1_no_sep space data Hno). reflexivity.
  - intros req_id string_id entry Hno Hentry Hnone.
    assert (Hsplit : split1 space (req_id ++ " " ++ string_id) = [req_id; string_id])
      by apply (split1_join space req_id string_id Hno).
    unfold process_dapi_res, bind. rewrite Hsplit. simpl.
    rewrite bool_decide_true by (apply elem_of_dom; eexists; exact Hentry).
    rewrite Hnone. reflexivity.
Qed.

Lemma process_dapi_res_failures_witness :
  fst (process_dapi_res "r1" sample_state_pending)
    = Raise (ValueError "not enough values to unpack (expected 2, got 1)")
  /\ process_dapi_res "r1 s9" sample_state_pending
     = (Raise (KeyError "s9"), sample_state_pending).
Proof.
  destruct (process_dapi_res_failures sample_state_pending) as [Hsplit Hmissing].
  split.
  - rewrite (Hsplit "r1" eq_refl). reflexivity.
  - apply (Hmissing "r1" "s9" (mkPendingRequest false "") eq_refl);
      vm_compute; reflexivity.
Defined.

(** X3. [execute] with [dapi_fwd] for a worker that is not connected
    raises error 3022 carrying the worker's name and sends nothing; the
    entry inserted under the request-id is left in the table. *)
Theorem execute_forward_to_unknown_worker `{Collaborators}
    (peer : string -> string -> Reply) (request_id task_id client request : string)
    (s : State) :
  has_char space client = false ->
  client ∉ dom (clients (server s)) ->
  execute_send peer request_id task_id "dapi_fwd" (client ++ " " ++ request) s
  = (Raise (WazuhClusterError 3022 client), with_pending_entry request_id s).
Proof.
  intros Hno Hout.
  assert (Hsplit : split1 space (client ++ " " ++ request) = [client; request])
    by apply (split1_join space client request Hno).
  unfold execute_send, bind. cbn [String.eqb Ascii.eqb Bool.eqb].
  rewrite Hsplit. simpl.
  rewrite bool_decide_false by exact Hout. reflexivity.
Qed.

Lemma execute_forward_to_unknown_worker_witness :
  execute_send (H := sample_collaborators) quiet_peer "r1" "" "dapi_fwd" "W9 req"
    sample_state
  = (Raise (WazuhClusterError 3022 "W9"), with_pending_entry "r1" sample_state).
Proof.
  apply (execute_forward_to_unknown_worker (H := sample_collaborators) quiet_peer
           "r1" "" "W9" "req" sample_state eq_refl).
  cbn. set_solver.
Defined.

(** X4. For a command other than [dapi] and [dapi_fwd], [execute] runs
    [process_request] on the spot, after inserting its entry, and does not
    wait: it returns the payload when the status is [ok] and raises error
    3022 with the payload otherwise. *)
Theorem execute_local_command `{Collaborators} (peer : string -> string -> Reply)
    (request_id task_id command data status payload : string)
    (wait_for_complete timed_out : bool) (s s1 : State) :
  String.eqb command "dapi" = false ->
  String.eqb command "dapi_fwd" = false ->
  process_request task_id command data (with_pending_entry request_id s)
    = (Return (status, payload), s1) ->
  execute_send peer request_id task_id command data s
    = (Return (ResultPair status payload), s1)
  /\ execute_wait wait_for_complete timed_out request_id command
       (ResultPair status payload) s1
     = (if String.eqb status "ok" then Return (Some payload)
        else Raise (WazuhClusterError 3022 payload), s1).
Proof.
  intros Hdapi Hfwd Hrun. split.
  - unfold execute_send, bind. rewrite Hfwd, Hdapi.
    change (modify _ s) with (Return tt, with_pending_entry request_id s).
    cbv beta iota. rewrite Hrun. reflexivity.
  - unfold execute_wait. rewrite Hdapi, Hfwd. simpl.
    destruct (String.eqb status "ok"); reflexivity.
Qed.

Lemma execute_local_command_witness :
  execute_wait false false "r1" "syn_a_w_m_p"
    (ResultPair "ok" "True") (with_pending_entry "r1" sample_state)
  = (Return (Some "True"), with_pending_entry "r1" sample_state).
Proof.
  destruct (execute_local_command (H := sample_collaborators) quiet_peer "r1" ""
              "syn_a_w_m_p" "" "ok" "True" false false sample_state
              (with_pending_entry "r1" sample_state) eq_refl eq_refl)
    as [_ Hwait]; [reflexivity |].
  exact Hwait.
Defined.

(** ** What the coroutines leave alone *)

Section Registry.
Context `{Collaborators}.

Lemma update_chunks_keeps_registry wdb cmd cs :
  forall i result, keeps registry (update_chunks wdb cmd i cs result).
Proof.
  induction cs as [| chunk rest IH]; intros i result v; simpl.
  - apply preserves_ret.
  - apply preserves_bind; [apply preserves_emit; same_proj | intros _; apply IH].
Qed.

Lemma sync_wazuh_db_info_keeps_registry peer wdb task_id :
  keeps registry (sync_wazuh_db_info peer wdb task_id).
Proof.
  unfold sync_wazuh_db_info, send_request. intros v.
  repeat first [ apply update_chunks_keeps_registry | frame_step same_proj ].
Qed.

Lemma sync_integrity_keeps_registry peer sf task_id :
  keeps registry (sync_integrity peer sf task_id).
Proof.
  unfold sync_integrity, wait_received_file, push_archive, report_push_error,
    stamp_integrity_sync_end, strftime_field, send_request.
  keeps_by_syntax.
Qed.

Lemma update_member_keeps_registry agent_ids data m n :
  keeps registry (update_member agent_ids data m n).
Proof. unfold update_member, write_file, safe_move. keeps_by_syntax. Qed.

Lemma update_members_keeps_registry agent_ids data ms :
  forall n, keeps registry (update_members agent_ids data ms n).
Proof.
  induction ms as [| m rest IH]; intros n v; simpl.
  - apply preserves_ret.
  - apply preserves_bind; [apply update_member_keeps_registry | intros n'; apply IH].
Qed.

Lemma process_files_from_worker_keeps_registry agents files dir :
  forall n, keeps registry (process_files_from_worker agents files dir n).
Proof.
  induction files as [| [filename_ data] rest IH]; intros n v; simpl.
  - apply preserves_ret.
  - apply preserves_bind; [| intros n'; apply IH].
    unfold update_file, safe_move.
    repeat first [ apply update_members_keeps_registry | frame_step same_proj ].
Qed.

Lemma sync_extra_valid_keeps_registry agents task_id :
  keeps registry (sync_extra_valid agents task_id).
Proof.
  unfold sync_extra_valid, sync_worker_files, wait_received_file,
    stamp_integrity_sync_end, strftime_field. intros v.
  repeat first [ apply process_files_from_worker_keeps_registry
               | frame_step same_proj ].
Qed.

Lemma run_coro_keeps_registry inputs c task_id :
  keeps registry (run_coro inputs c task_id).
Proof.
  intros v. destruct c; unfold run_coro.
  - apply preserves_bind; [apply sync_integrity_keeps_registry | intros; apply preserves_ret].
  - apply sync_extra_valid_keeps_registry.
  - apply preserves_bind;
      [apply sync_wazuh_db_info_keeps_registry | intros; apply preserves_ret].
Qed.

(** The middle of a round: the coroutine of a task just created runs and
    the task is then ready for its done-callback, with its class. *)
Lemma coroutine_then_callback (inputs : CoroInputs) (task_id : string)
    (t : ReceiveTask) (s1 s3 : State) :
  sync_tasks (self s1) !! task_id = Some t ->
  coro_finished t = false ->
  run_ops [OpCoroutine task_id inputs; OpDoneCallback task_id] s1 = Some s3 ->
  s3 = snd (done_callback (task_class t) task_id
              (with_self (mark_finished task_id)
                 (snd (run_coro inputs (task_coro t) task_id s1)))).
Proof.
  intros Htask Hfresh Hrun. simpl in Hrun. rewrite Htask, Hfresh in Hrun.
  pose proof (keeps_eq registry _ s1 (run_coro_keeps_registry inputs (task_coro t)
                                        task_id)) as Hreg.
  assert (Htasks : sync_tasks (self (snd (run_coro inputs (task_coro t) task_id s1)))
                   = sync_tasks (self s1))
    by exact (f_equal (fun x => snd (fst (fst x))) Hreg).
  cbn [self with_self mark_finished set_sync_tasks sync_tasks] in Hrun.
  rewrite Htasks, lookup_alter_eq, Htask in Hrun. simpl in Hrun.
  inversion Hrun. reflexivity.
Qed.

End Registry.

(** ** Whole rounds *)

Section Rounds.
Context `{Collaborators}.

Lemma done_callback_tasks cls task_id (s : State) :
  sync_tasks (self (snd (done_callback cls task_id s)))
  = delete task_id (sync_tasks (self s)).
Proof.
  destruct cls;
    unfold done_callback, ReceiveIntegrityTask_done_callback,
      ReceiveExtraValidTask_done_callback, ReceiveAgentInfoTask_done_callback,
      super_done_callback, bind, modify, get_state, ret;
    destruct s as [[nm a f e ics iss ais w tasks strs] m d ev k]; simpl.
  - destruct e; reflexivity.
  - reflexivity.
  - reflexivity.
Qed.

(** The state in which the coroutine of a round starts. *)
Lemma round_begins (command task_id data : string) (inputs : CoroInputs)
    (s s' : State) :
  begins_receive command = true ->
  run_ops (round command task_id data inputs) s = Some s' ->
  run_ops [OpCoroutine task_id inputs; OpDoneCallback task_id]
    (snd (process_request task_id command data s)) = Some s'.
Proof.
  intros Hbegin Hrun. unfold round in Hrun.
  change (run_ops (OpRequest task_id command data :: ?rest) s)
    with (match run_op (OpRequest task_id command data) s with
          | Some s1 => run_ops rest s1
          | None => None
          end) in Hrun.
  cbn [run_op] in Hrun. destruct (_ && _) in Hrun; [exact Hrun | discriminate].
Qed.

Lemma round_ends (cls : TaskClass) (task_id : string) (x : State) (f a e : bool) :
  slots (self x) = (f, a, e) ->
  slots (self (snd (done_callback cls task_id (with_self (mark_finished task_id) x))))
  = match cls with
    | ReceiveIntegrityTask => (if e then f else true, a, e)
    | ReceiveExtraValidTask => (true, a, false)
    | ReceiveAgentInfoTask => (f, true, e)
    end.
Proof.
  intros Hx. rewrite done_callback_slots.
  change (slots (self (with_self (mark_finished task_id) x))) with (slots (self x)).
  rewrite Hx. reflexivity.
Qed.

Lemma run_ops_app (xs ys : list Op) :
  forall s, run_ops (xs ++ ys) s
            = match run_ops xs s with
              | Some s1 => run_ops ys s1
              | None => None
              end.
Proof.
  induction xs as [| x xs IH]; intros s; [reflexivity |].
  cbn [app run_ops]. destruct (run_op x s) as [s1 |]; [apply IH | reflexivity].
Qed.

Lemma end_receiving_file_task data task_id (t : ReceiveTask) (s : State) :
  sync_tasks (self s) !! task_id = Some t ->
  exists t2, sync_tasks (self (snd (end_receiving_file data s))) !! task_id = Some t2
             /\ same_task t t2.
Proof.
  intros Htask. unfold end_receiving_file, bind, unpack2.
  destruct (split1 space data) as [| a [| b [| c l]]];
    try (exists t; split; [exact Htask | repeat split]).
  cbn [ret]. unfold get_state.
  destruct (sync_tasks (self s) !! a) as [ta |] eqn:Ha;
    [| exists t; split; [exact Htask | repeat split]].
  cbn. destruct (decide (a = task_id)) as [-> | Hne].
  - rewrite lookup_insert_eq. eexists. split; [reflexivity |].
    rewrite Htask in Ha. inversion Ha. repeat split.
  - rewrite lookup_insert_ne by exact Hne.
    exists t. split; [exact Htask | repeat split].
Qed.

Lemma error_receiving_file_task data task_id (t : ReceiveTask) (s : State) :
  sync_tasks (self s) !! task_id = Some t ->
  exists t2, sync_tasks (self (snd (error_receiving_file data s))) !! task_id = Some t2
             /\ same_task t t2.
Proof.
  intros Htask. unfold error_receiving_file, bind, unpack2.
  destruct (split1 space data) as [| a [| b [| c l]]];
    try (exists t; split; [exact Htask | repeat split]).
  cbn [ret]. unfold get_state.
  destruct (sync_tasks (self s) !! a) as [ta |] eqn:Ha;
    [| exists t; split; [exact Htask | repeat split]].
  cbn. destruct (decide (a = task_id)) as [-> | Hne].
  - rewrite lookup_insert_eq. eexists. split; [reflexivity |].
    rewrite Htask in Ha. inversion Ha. repeat split.
  - rewrite lookup_insert_ne by exact Hne.
    exists t. split; [exact Htask | repeat split].
Qed.

(** What arrives for the tasks leaves [sync_agent_info_free] and
    [extra_valid_requested] alone; a sync error frees the integrity
    slot. *)
Lemma arrivals_run (arrived : list Op) (task_id : string) :
  forall (s s2 : State) (t : ReceiveTask),
    arrivals arrived = true -> run_ops arrived s = Some s2 ->
    sync_tasks (self s) !! task_id = Some t ->
    (exists t2, sync_tasks (self s2) !! task_id = Some t2 /\ same_task t t2)
    /\ slots (self s2)
       = (if existsb is_sync_error arrived then true
          else sync_integrity_free (self s),
          sync_agent_info_free (self s), extra_valid_requested (self s)).
Proof.
  induction arrived as [| op rest IH]; intros s s2 t Harr Hrun Htask.
  - inversion Hrun; subst s2. split; [| reflexivity].
    exists t. split; [exact Htask | repeat split].
  - cbn [arrivals forallb] in Harr. apply andb_true_iff in Harr as [Hop Hrest].
    cbn [run_ops] in Hrun.
    destruct (run_op op s) as [s1 |] eqn:Hstep; [| discriminate].
    destruct op as [tid command data | | | | |]; try discriminate Hop.
    cbn [run_op] in Hstep.
    destruct (handled_here command) eqn:Hh; [| discriminate].
    destruct (_ || _) in Hstep; [| discriminate]. cbn [andb] in Hstep.
    inversion Hstep; subst s1; clear Hstep.
    pose proof (process_request_ident_slots tid command data s Hh) as Hslots.
    apply (f_equal snd) in Hslots.
    change (slots (self (snd (process_request tid command data s)))
            = slots_after_request command (slots (self s))) in Hslots.
    assert (Hkept : exists t1,
              sync_tasks (self (snd (process_request tid command data s))) !! task_id
              = Some t1 /\ same_task t t1).
    { cbn [is_file_end is_sync_error] in Hop.
      apply orb_true_iff in Hop as [Hend | Herr].
      - apply orb_true_iff in Hend as [Hend | Hend];
          apply String.eqb_eq in Hend; subst command;
          exact (end_receiving_file_task data task_id t s Htask).
      - apply String.eqb_eq in Herr; subst command.
        exact (error_receiving_file_task data task_id t
                 (with_self (set_sync_integrity_free true) s) Htask). }
    destruct Hkept as (t1 & Htask1 & Hsame1).
    destruct (IH _ s2 t1 Hrest Hrun Htask1) as [(t2 & Htask2 & Hsame2) Hslots2].
    split.
    + exists t2. split; [exact Htask2 |].
      destruct Hsame1 as (Hc1 & Hk1 & Hf1), Hsame2 as (Hc2 & Hk2 & Hf2).
      repeat split; congruence.
    + rewrite Hslots2. cbn [existsb is_sync_error].
      unfold slots_after_request in Hslots.
      cbn [is_file_end is_sync_error] in Hop.
      destruct (String.eqb command "syn_i_w_m_r") eqn:Herr.
      * apply String.eqb_eq in Herr. subst command.
        cbn [String.eqb Ascii.eqb Bool.eqb] in Hslots.
        unfold slots in Hslots at 2.
        apply slots_eq in Hslots as (Hf & Ha & He).
        cbn [orb]. rewrite Ha, He. destruct (existsb is_sync_error rest);
          [reflexivity | rewrite Hf; reflexivity].
      * rewrite orb_false_r in Hop.
        assert (Hsame : slots (self (snd (process_request tid command data s)))
                        = slots (self s)).
        { apply orb_true_iff in Hop as [Hend | Hend];
            apply String.eqb_eq in Hend; subst command;
            cbn [String.eqb Ascii.eqb Bool.eqb] in Hslots;
            rewrite Hslots; unfold slots; reflexivity. }
        unfold slots in Hsame.
        apply slots_eq in Hsame as (Hf & Ha & He).
        cbn [orb]. rewrite Hf, Ha, He. reflexivity.
Qed.

(** A round of a file task, from its begin to its done-callback. *)
Lemma file_round_run (command task_id data : string) (arrived : list Op)
    (inputs : CoroInputs) (cls : TaskClass) (s s' : State) :
  begins_receive command = true ->
  arrivals arrived = true ->
  sync_tasks (self (snd (process_request task_id command data s))) !! task_id
    = Some (mkReceiveTask cls (set_up_coro cls) data NoArtifact false false false) ->
  run_ops (file_round command task_id data arrived inputs) s = Some s' ->
  exists s2 : State,
    slots (self s2)
    = (if existsb is_sync_error arrived then true
       else sync_integrity_free (self (snd (process_request task_id command data s))),
       sync_agent_info_free (self (snd (process_request task_id command data s))),
       extra_valid_requested (self (snd (process_request task_id command data s))))
    /\ s' = snd (done_callback cls task_id
                   (with_self (mark_finished task_id)
                      (snd (run_coro inputs (set_up_coro cls) task_id s2)))).
Proof.
  intros Hbegin Harr Htask Hrun. unfold file_round in Hrun.
  change (run_ops (OpRequest task_id command data :: ?rest) s)
    with (match run_op (OpRequest task_id command data) s with
          | Some s1 => run_ops rest s1
          | None => None
          end) in Hrun.
  cbn [run_op] in Hrun. destruct (_ && _) in Hrun; [| discriminate].
  rewrite run_ops_app in Hrun.
  destruct (run_ops arrived (snd (process_request task_id command data s)))
    as [s2 |] eqn:Hmid; [| discriminate].
  destruct (arrivals_run arrived task_id _ s2 _ Harr Hmid Htask)
    as [(t2 & Htask2 & Hc & Hk & Hf) Hslots].
  exists s2. split; [exact Hslots |].
  cbn [task_class task_coro coro_finished] in Hc, Hk, Hf.
  rewrite <- Hk, <- Hc.
  exact (coroutine_then_callback inputs task_id t2 s2 s' Htask2 Hf Hrun).
Qed.

End Rounds.

(** X5. An integrity round: the command [syn_i_w_m], then whatever
    arrives for the session's tasks (ends of files, worker-reported sync
    errors, or nothing), then the run of [sync_integrity], which may fail
    at its wait, surface the worker's error, or go through the comparison
    and the push, then the done-callback. When no sync error arrived, the
    round leaves [sync_integrity_free] true exactly when
    [extra_valid_requested] is false at its end; when one arrived, it
    leaves [sync_integrity_free] true whatever [extra_valid_requested]
    holds. It never changes [sync_agent_info_free], and its task has left
    the task map. *)
Theorem integrity_round_slot `{Collaborators} (task_id data : string)
    (arrived : list Op) (inputs : CoroInputs) (s s' : State) :
  arrivals arrived = true ->
  run_ops (file_round "syn_i_w_m" task_id data arrived inputs) s = Some s' ->
  (existsb is_sync_error arrived = false ->
   sync_integrity_free (self s') = negb (extra_valid_requested (self s')))
  /\ (existsb is_sync_error arrived = true -> sync_integrity_free (self s') = true)
  /\ sync_agent_info_free (self s') = sync_agent_info_free (self s)
  /\ sync_tasks (self s') !! task_id = None.
Proof.
  intros Harr Hrun.
  destruct (file_round_run "syn_i_w_m" task_id data arrived inputs
              ReceiveIntegrityTask s s' eq_refl Harr) as (s2 & Hslots & Hend);
    [cbn; apply lookup_insert_eq | exact Hrun |].
  cbn [set_up_coro] in Hend.
  pose proof (f_equal snd (process_request_ident_slots task_id "syn_i_w_m" data s
                             eq_refl)) as Hb.
  change (slots (self (snd (process_request task_id "syn_i_w_m" data s)))
          = (false, sync_agent_info_free (self s), extra_valid_requested (self s)))
    in Hb.
  apply slots_eq in Hb as (Hbf & Hba & Hbe). rewrite Hbf, Hba, Hbe in Hslots.
  set (x := snd (run_coro inputs coro_sync_integrity task_id s2)) in *.
  assert (Hsame : core_but_extra_valid x = core_but_extra_valid s2).
  { pose proof (keeps_eq core_but_extra_valid _ s2
                  (sync_integrity_keeps (in_peer inputs) (in_send_file inputs) task_id))
      as Hk.
    unfold x, run_coro, bind.
    destruct (sync_integrity _ _ task_id s2) as [[r | e] s3]; exact Hk. }
  apply slots_eq in Hslots as (Hf2 & Ha2 & _).
  assert (Hx : slots (self x)
               = (sync_integrity_free (self s2), sync_agent_info_free (self s),
                  extra_valid_requested (self x))).
  { pose proof (f_equal (fun y => snd (fst (fst y))) Hsame) as Hxf.
    pose proof (f_equal (fun y => snd (fst y)) Hsame) as Hxa.
    cbn [core_but_extra_valid fst snd] in Hxf, Hxa.
    unfold slots. rewrite Hxf, Hxa, Ha2. reflexivity. }
  pose proof (round_ends ReceiveIntegrityTask task_id x _ _ _ Hx) as Hslots'.
  rewrite <- Hend in Hslots'. apply slots_eq in Hslots' as (Hf & Ha & He).
  split; [| split; [| split]].
  - intros Hnone. rewrite Hnone in Hf2. cbn in Hf2.
    rewrite Hf, He, Hf2. destruct (extra_valid_requested (self x)); reflexivity.
  - intros Hsome. rewrite Hsome in Hf2.
    rewrite Hf, Hf2. destruct (extra_valid_requested (self x)); reflexivity.
  - exact Ha.
  - rewrite Hend, done_callback_tasks. apply lookup_delete_eq.
Qed.

(** X6. An extra-valid round: the command [syn_e_w_m], then whatever
    arrives for the session's tasks (ends of files, worker-reported sync
    errors, or nothing), then the run of [sync_extra_valid], which may
    fail at its wait, surface the worker's error, or apply the files,
    then the done-callback. It always ends with [sync_integrity_free]
    true and [extra_valid_requested] false, and never changes
    [sync_agent_info_free]; its task has left the task map. *)
Theorem extra_valid_round_slot `{Collaborators} (task_id data : string)
    (arrived : list Op) (inputs : CoroInputs) (s s' : State) :
  arrivals arrived = true ->
  run_ops (file_round "syn_e_w_m" task_id data arrived inputs) s = Some s' ->
  sync_integrity_free (self s') = true
  /\ extra_valid_requested (self s') = false
  /\ sync_agent_info_free (self s') = sync_agent_info_free (self s)
  /\ sync_tasks (self s') !! task_id = None.
Proof.
  intros Harr Hrun.
  destruct (file_round_run "syn_e_w_m" task_id data arrived inputs
              ReceiveExtraValidTask s s' eq_refl Harr) as (s2 & Hslots & Hend);
    [cbn; apply lookup_insert_eq | exact Hrun |].
  cbn [set_up_coro] in Hend.
  pose proof (f_equal snd (process_request_ident_slots task_id "syn_e_w_m" data s
                             eq_refl)) as Hb.
  change (slots (self (snd (process_request task_id "syn_e_w_m" data s)))
          = slots_after_request "syn_e_w_m" (slots (self s))) in Hb.
  unfold slots_after_request, slots in Hb.
  cbn [String.eqb Ascii.eqb Bool.eqb] in Hb.
  apply slots_eq in Hb as (Hbf & Hba & Hbe). rewrite Hbf, Hba, Hbe in Hslots.
  set (x := snd (run_coro inputs coro_sync_extra_valid task_id s2)) in *.
  apply slots_eq in Hslots as (_ & Ha2 & _).
  assert (Hagent : sync_agent_info_free (self x) = sync_agent_info_free (self s)).
  { rewrite <- Ha2.
    destruct (sync_extra_valid_slots (in_agents inputs) task_id s2)
      as [Hsame | [Ha _]]; cbv zeta in *.
    - exact (f_equal (fun y => snd (fst y)) Hsame).
    - exact Ha. }
  destruct (slots (self x)) as [[f a] e] eqn:Hx.
  pose proof (round_ends ReceiveExtraValidTask task_id x _ _ _ Hx) as Hslots'.
  rewrite <- Hend in Hslots'. apply slots_eq in Hslots' as (Hf & Ha & He).
  apply slots_eq in Hx as (_ & Ha' & _).
  split; [exact Hf |]. split; [exact He |]. split.
  - rewrite Ha, <- Ha'. exact Hagent.
  - rewrite Hend, done_callback_tasks. apply lookup_delete_eq.
Qed.

(** X7. An agent-info round (the command [syn_a_w_m], the run of
    [sync_wazuh_db_info] however it ends, the done-callback) ends with
    [sync_agent_info_free] true and never changes [sync_integrity_free]
    or [extra_valid_requested]. *)
Theorem agent_info_round_slot `{Collaborators} (task_id data : string)
    (inputs : CoroInputs) (s s' : State) :
  run_ops (round "syn_a_w_m" task_id data inputs) s = Some s' ->
  sync_agent_info_free (self s') = true
  /\ sync_integrity_free (self s') = sync_integrity_free (self s)
  /\ extra_valid_requested (self s') = extra_valid_requested (self s)
  /\ sync_tasks (self s') !! task_id = None.
Proof.
  intros Hrun. apply round_begins in Hrun; [| reflexivity].
  set (t := mkReceiveTask ReceiveAgentInfoTask coro_sync_wazuh_db_info data NoArtifact
              false false false).
  apply (coroutine_then_callback inputs task_id t) in Hrun;
    [| cbn; apply lookup_insert_eq | reflexivity].
  cbn [task_class task_coro t] in Hrun.
  set (s1 := snd (process_request task_id "syn_a_w_m" data s)) in *.
  set (x := snd (run_coro inputs coro_sync_wazuh_db_info task_id s1)) in *.
  assert (Hslots : slots (self x)
                   = (sync_integrity_free (self s), false,
                      extra_valid_requested (self s))).
  { pose proof (keeps_eq core _ s1
                  (sync_wazuh_db_info_keeps_core (in_peer inputs) (in_wdb inputs)
                     task_id)) as Hk.
    assert (Hsame : core x = core s1).
    { unfold x, run_coro, bind.
      destruct (sync_wazuh_db_info _ _ task_id s1) as [[r | e] s2]; exact Hk. }
    exact (f_equal (fun y => snd (fst y)) Hsame). }
  pose proof (round_ends ReceiveAgentInfoTask task_id x _ _ _ Hslots) as Hend.
  rewrite <- Hrun in Hend. apply slots_eq in Hend as (Hf & Ha & He).
  split; [exact Ha |]. split; [exact Hf |]. split; [exact He |].
  rewrite Hrun, done_callback_tasks. apply lookup_delete_eq.
Qed.

Lemma integrity_round_slot_witness :
  fst (run_coro (H := sample_collaborators) sample_inputs coro_sync_integrity "t1"
         extra_valid_metadata_received)
  = Return tt
  /\ slots (self (state_after
                    (file_round "syn_i_w_m" "t1" ""
                       [OpRequest "" "syn_i_w_m_e" "t1 worker.zip"] sample_inputs)))
     = (false, true, true)
  /\ sync_integrity_free
       (self (state_after
                (file_round "syn_i_w_m" "t1" "" [OpRequest "" "syn_i_w_m_r" "t1 {}"]
                   sample_inputs)))
     = true.
Proof.
  split; [vm_compute; reflexivity |]. split.
  - destruct (integrity_round_slot (H := sample_collaborators) "t1" ""
                [OpRequest "" "syn_i_w_m_e" "t1 worker.zip"] sample_inputs
                sample_state
                (state_after
                   (file_round "syn_i_w_m" "t1" ""
                      [OpRequest "" "syn_i_w_m_e" "t1 worker.zip"] sample_inputs)))
      as (Hfree & _ & Hagent & _); [reflexivity | vm_compute; reflexivity |].
    unfold slots. rewrite (Hfree eq_refl), Hagent. vm_compute. reflexivity.
  - destruct (integrity_round_slot (H := sample_collaborators) "t1" ""
                [OpRequest "" "syn_i_w_m_r" "t1 {}"] sample_inputs
                sample_state
                (state_after
                   (file_round "syn_i_w_m" "t1" "" [OpRequest "" "syn_i_w_m_r" "t1 {}"]
                      sample_inputs)))
      as (_ & Hfree & _); [reflexivity | vm_compute; reflexivity |].
    exact (Hfree eq_refl).
Defined.

Lemma extra_valid_round_slot_witness :
  fst (run_coro (H := sample_collaborators) sample_inputs coro_sync_extra_valid "t1"
         extra_valid_archive_received)
  = Return tt
  /\ sync_integrity_free
       (self (state_after
                (file_round "syn_e_w_m" "t1" ""
                   [OpRequest "" "syn_e_w_m_e" "t1 worker.zip"] sample_inputs)))
     = true
  /\ extra_valid_requested
       (self (state_after
                (file_round "syn_e_w_m" "t1" ""
                   [OpRequest "" "syn_e_w_m_e" "t1 worker.zip"] sample_inputs)))
     = false.
Proof.
  split; [vm_compute; reflexivity |].
  destruct (extra_valid_round_slot (H := sample_collaborators) "t1" ""
              [OpRequest "" "syn_e_w_m_e" "t1 worker.zip"] sample_inputs
              sample_state
              (state_after
                 (file_round "syn_e_w_m" "t1" ""
                    [OpRequest "" "syn_e_w_m_e" "t1 worker.zip"] sample_inputs)))
    as (Hfree & Hreq & _); [reflexivity | vm_compute; reflexivity |].
  split; [exact Hfree | exact Hreq].
Defined.

Lemma agent_info_round_slot_witness :
  sync_agent_info_free (self (state_after (round "syn_a_w_m" "t1" "" sample_inputs)))
  = true.
Proof.
  destruct (agent_info_round_slot (H := sample_collaborators) "t1" "" sample_inputs
              sample_state (state_after (round "syn_a_w_m" "t1" "" sample_inputs)))
    as [Hfree _]; [vm_compute; reflexivity |].
  exact Hfree.
Defined.

(** ** The per-window list of probed sessions *)

Section Window.
Context `{Collaborators}.

Lemma keeps_core_listed_once {A} (c : M A) : keeps core c -> preserves listed_once c.
Proof.
  intros Hc.
  exact (keeps_preserves core
           (fun x => NoDup (integrity_already_executed (snd x))) c Hc).
Qed.

Ltac once_side :=
  first
    [ solve [ unfold blind; intros; assumption ]
    | solve [ intros ? Hkept; exact Hkept ] ].

Ltac kept_once :=
  repeat first
    [ apply (keeps_core_listed_once _ (end_receiving_file_keeps_core _))
    | apply (keeps_core_listed_once _ (error_receiving_file_keeps_core _))
    | apply (keeps_core_listed_once _ (setup_receive_file_keeps_core _ _ _))
    | apply (keeps_core_listed_once _ (sync_worker_files_keeps_core _ _))
    | apply (keeps_core_listed_once _ stamp_integrity_sync_end_keeps_core)
    | apply (keeps_core_listed_once _ (super_done_callback_keeps_core _))
    | apply (keeps_core_listed_once _ (sync_wazuh_db_info_keeps_core _ _ _))
    | apply get_health_preserves
    | apply get_nodes_preserves
    | frame_step once_side ].

(** The probe appends the name only when it is not in the list. *)
Lemma get_permission_listed_once sync_type :
  preserves listed_once (get_permission sync_type).
Proof.
  intros s Hs. unfold listed_once in *.
  unfold get_permission, bind, get_state.
  destruct (String.eqb sync_type "syn_i_w_m_p"
            && negb (name_in (name (self s)) (integrity_already_executed (server s))))
    eqn:Hguard.
  - apply andb_true_iff in Hguard as [_ Hnot].
    apply negb_true_iff, name_in_not_elem_of in Hnot.
    cbn. apply NoDup_app. split; [exact Hs |].
    split; [| apply NoDup_singleton].
    intros x Hx Hx'. apply list_elem_of_singleton in Hx'. subst x. contradiction.
  - destruct (String.eqb sync_type "syn_a_w_m_p"); exact Hs.
Qed.

Lemma process_request_listed_once task_id command data :
  handled_here command = true ->
  preserves listed_once (process_request task_id command data).
Proof.
  intros Hin. apply handled_here_cases in Hin. each_command Hin.
  all: dispatch; try apply get_permission_listed_once;
    unfold setup_sync_integrity, end_receiving_integrity_checksums,
      process_sync_error_from_worker, process_dapi_res;
    cbn [String.eqb Ascii.eqb Bool.eqb andb]; kept_once.
Qed.

Lemma run_coro_listed_once inputs c task_id :
  preserves listed_once (run_coro inputs c task_id).
Proof.
  destruct c; unfold run_coro, sync_extra_valid.
  - apply preserves_bind; [| intros; apply preserves_ret].
    exact (keeps_preserves core_but_extra_valid
             (fun x => NoDup (integrity_already_executed (snd x)))
             _ (sync_integrity_keeps _ _ _)).
  - kept_once.
  - kept_once.
Qed.

Lemma done_callback_listed_once cls task_id :
  preserves listed_once (done_callback cls task_id).
Proof.
  destruct cls;
    unfold done_callback, ReceiveIntegrityTask_done_callback,
      ReceiveExtraValidTask_done_callback, ReceiveAgentInfoTask_done_callback;
    kept_once.
Qed.

Lemma connection_lost_listed_once : preserves listed_once connection_lost.
Proof. unfold connection_lost, super_connection_lost. kept_once. Qed.

Lemma run_op_listed_once (op : Op) (s s1 : State) :
  run_op op s = Some s1 -> listed_once s -> listed_once s1.
Proof.
  intros Hstep Hp.
  destruct op as [tid command data | tid inputs | tid | tid | | snap];
    simpl in Hstep.
  - destruct (handled_here command) eqn:Hh; [| discriminate].
    destruct (_ || _) in Hstep; [| discriminate]. simpl in Hstep.
    inversion Hstep; subst s1.
    exact (process_request_listed_once tid command data Hh s Hp).
  - destruct (sync_tasks (self s) !! tid) as [t |]; [| discriminate].
    destruct (coro_finished t); [discriminate |].
    inversion Hstep; subst s1.
    exact (run_coro_listed_once inputs (task_coro t) tid s Hp).
  - destruct (sync_tasks (self s) !! tid) as [t |]; [| discriminate].
    destruct (_ && _) in Hstep; [| discriminate].
    inversion Hstep; subst s1. exact Hp.
  - destruct (sync_tasks (self s) !! tid) as [t |]; [| discriminate].
    destruct (coro_finished t); [| discriminate].
    inversion Hstep; subst s1.
    exact (done_callback_listed_once (task_class t) tid s Hp).
  - inversion Hstep; subst s1. exact (connection_lost_listed_once s Hp).
  - inversion Hstep; subst s1. unfold listed_once.
    destruct snap as [files | e]; [apply NoDup_nil_2 | exact Hp].
Qed.

End Window.

(** X8. The list of the sessions probed in the current window never holds
    a name twice: the integrity probe appends the session's name only
    when it is not in the list, a turn of the snapshot loop empties the
    list or leaves it alone, and nothing else that can happen to a
    session writes to it. *)
Theorem probe_list_has_no_duplicates `{Collaborators} (ops : list Op) :
  forall s s' : State,
    run_ops ops s = Some s' ->
    NoDup (integrity_already_executed (server s)) ->
    NoDup (integrity_already_executed (server s')).
Proof.
  induction ops as [| op rest IH]; intros s s' Hrun Hp; simpl in Hrun.
  - inversion Hrun; subst s'. exact Hp.
  - destruct (run_op op s) as [s1 |] eqn:Hstep; [| discriminate].
    apply (IH s1 s' Hrun). exact (run_op_listed_once op s s1 Hstep Hp).
Qed.

Lemma probe_list_has_no_duplicates_witness :
  NoDup (integrity_already_executed (server probed_across_windows)).
Proof.
  apply (probe_list_has_no_duplicates (H := sample_collaborators)
           probes_across_windows sample_state probed_across_windows).
  - vm_compute. reflexivity.
  - vm_compute. apply NoDup_nil_2.
Defined.

(** ** Agent-info synchronisation: the payload checks *)



(** ** Integrity synchronisation: the push *)

Section Push.
Context `{Collaborators}.

(** With a diff that is not empty, [sync_integrity] builds the archive
    and runs the push under its [finally]. *)
Lemma sync_integrity_sync_required (peer : string -> string -> Reply)
    (send_file_result : Outcome unit) (task_id received_filename dir : string)
    (t : ReceiveTask) (files_metadata : list (string * FileMeta))
    (ko : WorkerFilesKo) (counts : TotalFiles) (s : State) :
  sync_tasks (self s) !! task_id = Some t ->
  received_information t = true ->
  filename t = ArtifactName received_filename ->
  decompress_files received_filename = Return (files_metadata, dir) ->
  compare_files (integrity_control (server s)) files_metadata (name (self s))
    = (ko, counts) ->
  (size (ko_missing ko) + size (ko_shared ko) + size (ko_extra ko)
   + size (ko_extra_valid ko) =? 0)%nat = false ->
  let paths := dom (ko_shared ko) ∪ dom (ko_missing ko) in
  let archive := compress_files (name (self s)) paths ko in
  sync_integrity peer send_file_result task_id s
  = try_finally (push_archive peer send_file_result archive) (push_finally archive)
      (mkState (handler_before_push ko counts (ticks s) (self s)) (server s) (disk s)
         (events s ++ [EvRmtree dir; EvCompressFiles (name (self s)) paths archive])
         (S (S (S (S (ticks s)))))).
Proof.
  intros Htask Hrecv Hname Hzip Hdiff Hsize paths archive.
  unfold sync_integrity, wait_received_file.
  unfold bind at 1. unfold datetime_now at 1.
  unfold bind at 1. unfold bind at 1. unfold get_state at 1. cbn [self].
  rewrite Htask, Hrecv, Hname. unfold ret at 1.
  unfold bind at 1. rewrite Hzip. unfold lift, ret at 1.
  unfold bind at 1. unfold emit at 1, modify at 1.
  unfold bind at 1. unfold get_state at 1.
  cbn [self server disk events ticks]. rewrite Hdiff.
  unfold bind at 1. unfold datetime_now at 1. cbn [self server disk events ticks].
  unfold bind at 1. unfold modify at 1.
  unfold bind at 1. unfold datetime_now at 1. cbn [self server disk events ticks with_self].
  unfold bind at 1. unfold modify at 1. cbn [self server disk events ticks with_self].
  rewrite Hsize.
  unfold bind at 1. unfold datetime_now at 1. cbn [self server disk events ticks].
  unfold bind at 1. unfold modify at 1. cbn [self server disk events ticks with_self].
  unfold bind at 1. unfold emit at 1, modify at 1.
  cbn [self server disk events ticks].
  unfold push_finally, handler_before_push. f_equal.
  cbn [self server disk events ticks with_self].
  rewrite <- app_assoc. reflexivity.
Qed.

(** All that the push does is sending on the worker's link. It returns an
    answer of the worker unless what escapes its handlers is no
    [Exception]. *)
Lemma push_archive_run (peer : string -> string -> Reply)
    (send_file_result : Outcome unit) (archive : string) (s : State) :
  exists (mid : list Event) (o : Outcome Reply),
    push_archive peer send_file_result archive s
    = (o, mkState (self s) (server s) (disk s) (events s ++ mid) (ticks s))
    /\ forallb is_send_event mid = true
    /\ ((forall e, send_file_result = Raise e -> is_Exception e = true) ->
        (forall e, peer "syn_m_c" "" = RException e -> is_Exception e = true) ->
        exists r, o = Return r).
Proof.
  unfold push_archive, report_push_error, send_request, try_except, lift.
  unfold bind, get_state, emit, modify, ret, raise.
  cbn [self server disk events ticks].
  destruct (peer "syn_m_c" "") as [b | e] eqn:Hfirst.
  - destruct (startswith b "Error") eqn:Hstart.
    + cbn [is_WazuhException self server disk events ticks].
      rewrite <- ?app_assoc. eexists _, _. split; [reflexivity |].
      split; [reflexivity |]. intros _ _; eexists; reflexivity.
    + destruct send_file_result as [u | e] eqn:Hfile;
        cbn [self server disk events ticks].
      * destruct (peer "syn_m_c_e" _) as [rb | e]; cbn [self server disk events ticks].
        -- destruct (startswith rb "Error");
             cbn [is_Exception is_WazuhException self server disk events ticks];
             rewrite <- ?app_assoc; eexists _, _; (split; [reflexivity |]);
             (split; [reflexivity |]); intros _ _; eexists; reflexivity.
        -- destruct (is_Exception e) eqn:Hexc.
           ++ cbn [self server disk events ticks]. rewrite Hexc.
              destruct (is_WazuhException e);
                cbn [self server disk events ticks];
                rewrite <- ?app_assoc; eexists _, _; (split; [reflexivity |]);
                (split; [reflexivity |]); intros _ _; eexists; reflexivity.
           ++ unfold no_startswith.
              cbn [is_Exception is_WazuhException self server disk events ticks].
              rewrite <- ?app_assoc. eexists _, _. split; [reflexivity |].
              split; [reflexivity |]. intros _ _; eexists; reflexivity.
      * destruct (is_Exception e) eqn:Hexc.
        -- destruct (is_WazuhException e);
             cbn [self server disk events ticks];
             rewrite <- ?app_assoc; eexists _, _; (split; [reflexivity |]);
             (split; [reflexivity |]); intros _ _; eexists; reflexivity.
        -- rewrite <- ?app_assoc.
           eexists _, _. split; [reflexivity |]. split; [reflexivity |].
           intros Hall _. specialize (Hall e eq_refl). congruence.
  - destruct (is_Exception e) eqn:Hexc.
    + destruct (is_WazuhException e);
        cbn [self server disk events ticks];
        rewrite <- ?app_assoc; eexists _, _; (split; [reflexivity |]);
        (split; [reflexivity |]); intros _ _; eexists; reflexivity.
    + exists [EvSendRequest (name (self s)) "syn_m_c" ""]. eexists.
      split; [reflexivity |]. split; [reflexivity |].
      intros _ Hall. specialize (Hall e eq_refl). congruence.
Qed.

(** A transfer of the archive that ends with what is no [Exception]:
    neither [except] clause of the push catches it. *)
Lemma push_archive_cancelled (peer : string -> string -> Reply)
    (send_file_result : Outcome unit) (archive b : string) (e : Exc) (s : State) :
  peer "syn_m_c" "" = RBytes b -> startswith b "Error" = false ->
  send_file_result = Raise e -> is_Exception e = false ->
  push_archive peer send_file_result archive s
  = (Raise e,
     mkState (self s) (server s) (disk s)
       (events s ++ [EvSendRequest (name (self s)) "syn_m_c" "";
                     EvSendFile (name (self s)) archive])
       (ticks s)).
Proof.
  intros Hfirst Hstart Hfile Hexc.
  unfold push_archive, send_request, try_except, lift.
  unfold bind, get_state, emit, modify, ret, raise.
  cbn [self server disk events ticks]. rewrite Hfirst, Hstart, Hfile.
  cbn [self server disk events ticks]. rewrite Hexc.
  rewrite <- !app_assoc. reflexivity.
Qed.

(** Whatever the push did, the [finally] block removes the archive and
    closes the sync record. *)
Lemma sync_integrity_after_push (peer : string -> string -> Reply)
    (send_file_result : Outcome unit) (task_id received_filename dir : string)
    (t : ReceiveTask) (files_metadata : list (string * FileMeta))
    (ko : WorkerFilesKo) (counts : TotalFiles) (s : State)
    (mid : list Event) (o : Outcome Reply) :
  sync_tasks (self s) !! task_id = Some t ->
  received_information t = true ->
  filename t = ArtifactName received_filename ->
  decompress_files received_filename = Return (files_metadata, dir) ->
  compare_files (integrity_control (server s)) files_metadata (name (self s))
    = (ko, counts) ->
  (size (ko_missing ko) + size (ko_shared ko) + size (ko_extra ko)
   + size (ko_extra_valid ko) =? 0)%nat = false ->
  let paths := dom (ko_shared ko) ∪ dom (ko_missing ko) in
  let archive := compress_files (name (self s)) paths ko in
  let s0 :=
    mkState (handler_before_push ko counts (ticks s) (self s)) (server s) (disk s)
      (events s ++ [EvRmtree dir; EvCompressFiles (name (self s)) paths archive])
      (S (S (S (S (ticks s))))) in
  push_archive peer send_file_result archive s0
  = (o, mkState (self s0) (server s0) (disk s0) (events s0 ++ mid) (ticks s0)) ->
  exists k : nat,
    sync_integrity peer send_file_result task_id s
    = (o,
       mkState (handler_after_push ko counts (ticks s) (self s)) (server s) (disk s)
         (events s
          ++ [EvRmtree dir; EvCompressFiles (name (self s)) paths archive]
          ++ mid ++ [EvUnlink archive])
         k).
Proof.
  intros Htask Hrecv Hname Hzip Hdiff Hsize paths archive s0 Hpush.
  rewrite (sync_integrity_sync_required peer send_file_result task_id
             received_filename dir t files_metadata ko counts s
             Htask Hrecv Hname Hzip Hdiff Hsize).
  fold paths. fold archive. fold s0. unfold try_finally. rewrite Hpush.
  subst s0. cbn [self server disk events ticks].
  unfold push_finally, bind, emit, modify, get_state.
  cbn [self server disk events ticks]. unfold handler_after_push.
  destruct (extra_valid_requested (handler_before_push ko counts (ticks s) (self s)))
    eqn:Hreq.
  - eexists. unfold ret. rewrite <- !app_assoc. reflexivity.
  - eexists.
    unfold stamp_integrity_sync_end, bind, datetime_now, get_state, modify.
    cbn. rewrite <- !app_assoc. reflexivity.
Qed.

End Push.

Lemma sync_integrity_push_run `{Collaborators} (peer : string -> string -> Reply)
    (send_file_result : Outcome unit) (task_id received_filename dir : string)
    (t : ReceiveTask) (files_metadata : list (string * FileMeta))
    (ko : WorkerFilesKo) (counts : TotalFiles) (s : State) :
  sync_tasks (self s) !! task_id = Some t ->
  received_information t = true ->
  filename t = ArtifactName received_filename ->
  decompress_files received_filename = Return (files_metadata, dir) ->
  compare_files (integrity_control (server s)) files_metadata (name (self s))
    = (ko, counts) ->
  (size (ko_missing ko) + size (ko_shared ko) + size (ko_extra ko)
   + size (ko_extra_valid ko) =? 0)%nat = false ->
  let paths := dom (ko_shared ko) ∪ dom (ko_missing ko) in
  let archive := compress_files (name (self s)) paths ko in
  exists (mid : list Event) (o : Outcome Reply) (k : nat),
    sync_integrity peer send_file_result task_id s
    = (o,
       mkState (handler_after_push ko counts (ticks s) (self s)) (server s) (disk s)
         (events s
          ++ [EvRmtree dir; EvCompressFiles (name (self s)) paths archive]
          ++ mid ++ [EvUnlink archive])
         k)
    /\ forallb is_send_event mid = true
    /\ ((forall e, send_file_result = Raise e -> is_Exception e = true) ->
        (forall e, peer "syn_m_c" "" = RException e -> is_Exception e = true) ->
        exists r, o = Return r).
Proof.
  intros Htask Hrecv Hname Hzip Hdiff Hsize paths archive.
  destruct (push_archive_run peer send_file_result archive
              (mkState (handler_before_push ko counts (ticks s) (self s)) (server s)
                 (disk s)
                 (events s ++ [EvRmtree dir; EvCompressFiles (name (self s)) paths archive])
                 (S (S (S (S (ticks s)))))))
    as (mid & o & Hpush & Hmid & Hreturns).
  destruct (sync_integrity_after_push peer send_file_result task_id received_filename
              dir t files_metadata ko counts s mid o
              Htask Hrecv Hname Hzip Hdiff Hsize Hpush) as [k Hrun].
  exists mid, o, k. split; [exact Hrun |]. split; assumption.
Qed.

(** X10. When the diff is not empty, what [sync_integrity] does to the
    outside is, in this order: remove the staging directory, build one
    archive, send on the worker's link, remove the archive; the archive is
    removed however the push ends. The call returns an answer of the
    worker when no failure of the push is outside [Exception]. A
    cancellation of the file transfer is caught by neither [except]
    clause: no [syn_m_c_r] is sent for it, and it leaves the call once
    the archive is removed. *)
Theorem sync_integrity_removes_archive `{Collaborators}
    (peer : string -> string -> Reply) (send_file_result : Outcome unit)
    (task_id received_filename dir : string) (t : ReceiveTask)
    (files_metadata : list (string * FileMeta)) (ko : WorkerFilesKo)
    (counts : TotalFiles) (s : State) :
  sync_tasks (self s) !! task_id = Some t ->
  received_information t = true ->
  filename t = ArtifactName received_filename ->
  decompress_files received_filename = Return (files_metadata, dir) ->
  compare_files (integrity_control (server s)) files_metadata (name (self s))
    = (ko, counts) ->
  (size (ko_missing ko) + size (ko_shared ko) + size (ko_extra ko)
   + size (ko_extra_valid ko) =? 0)%nat = false ->
  let paths := dom (ko_shared ko) ∪ dom (ko_missing ko) in
  let archive := compress_files (name (self s)) paths ko in
  let link := name (self s) in
  (exists mid : list Event,
     events (snd (sync_integrity peer send_file_result task_id s))
     = (events s
        ++ [EvRmtree dir; EvCompressFiles link paths archive]
        ++ mid ++ [EvUnlink archive])%list
     /\ forallb is_send_event mid = true)
  /\ ((forall e, send_file_result = Raise e -> is_Exception e = true) ->
      (forall e, peer "syn_m_c" "" = RException e -> is_Exception e = true) ->
      exists r, fst (sync_integrity peer send_file_result task_id s) = Return r)
  /\ (forall b e,
        peer "syn_m_c" "" = RBytes b -> startswith b "Error" = false ->
        send_file_result = Raise e -> is_Exception e = false ->
        fst (sync_integrity peer send_file_result task_id s) = Raise e
        /\ events (snd (sync_integrity peer send_file_result task_id s))
           = (events s
              ++ [EvRmtree dir; EvCompressFiles link paths archive;
                  EvSendRequest link "syn_m_c" ""; EvSendFile link archive;
                  EvUnlink archive])%list).
Proof.
  intros Htask Hrecv Hname Hzip Hdiff Hsize paths archive link.
  destruct (sync_integrity_push_run peer send_file_result task_id received_filename
              dir t files_metadata ko counts s Htask Hrecv Hname Hzip Hdiff Hsize)
    as (mid & o & k & Hrun & Hmid & Hreturns).
  split; [| split].
  - exists mid. rewrite Hrun. split; [reflexivity | exact Hmid].
  - intros Hfile Hfirst. rewrite Hrun. exact (Hreturns Hfile Hfirst).
  - intros b e Hfirst Hstart Hfile Hexc.
    destruct (sync_integrity_after_push peer send_file_result task_id
                received_filename dir t files_metadata ko counts s
                [EvSendRequest link "syn_m_c" ""; EvSendFile link archive] (Raise e)
                Htask Hrecv Hname Hzip Hdiff Hsize) as [k' Hcancelled].
    { cbv zeta.
      rewrite (push_archive_cancelled peer send_file_result _ b e _
                 Hfirst Hstart Hfile Hexc).
      reflexivity. }
    rewrite Hcancelled. split; reflexivity.
Qed.

(** X11. When the diff is not empty, [sync_integrity] sets
    [extra_valid_requested] to whether the extra-valid bucket has files,
    records the counts and resets [total_extra_valid]; with extra-valid
    files requested it leaves the start and end of the sync record as
    they were, for the extra-valid round to stamp, and otherwise it stamps
    both. It touches neither [sync_integrity_free] nor
    [sync_agent_info_free]. *)
Theorem sync_integrity_sync_record `{Collaborators}
    (peer : string -> string -> Reply) (send_file_result : Outcome unit)
    (task_id received_filename dir : string) (t : ReceiveTask)
    (files_metadata : list (string * FileMeta)) (ko : WorkerFilesKo)
    (counts : TotalFiles) (s : State) :
  sync_tasks (self s) !! task_id = Some t ->
  received_information t = true ->
  filename t = ArtifactName received_filename ->
  decompress_files received_filename = Return (files_metadata, dir) ->
  compare_files (integrity_control (server s)) files_metadata (name (self s))
    = (ko, counts) ->
  (size (ko_missing ko) + size (ko_shared ko) + size (ko_extra ko)
   + size (ko_extra_valid ko) =? 0)%nat = false ->
  let h' := self (snd (sync_integrity peer send_file_result task_id s)) in
  extra_valid_requested h' = negb (bool_decide (ko_extra_valid ko = ∅))
  /\ is_total_files (integrity_sync_status h') = counts
  /\ is_total_extra_valid (integrity_sync_status h') = 0
  /\ (ko_extra_valid ko <> ∅ ->
      is_date_start_master (integrity_sync_status h')
        = is_date_start_master (integrity_sync_status (self s))
      /\ is_date_end_master (integrity_sync_status h')
         = is_date_end_master (integrity_sync_status (self s)))
  /\ (ko_extra_valid ko = ∅ ->
      is_date_start_master (integrity_sync_status h')
        = DString (strftime (wall_clock (S (S (S (ticks s))))))
      /\ is_date_end_master (integrity_sync_status h')
         = DString (strftime (wall_clock (S (S (S (S (ticks s))))))))
  /\ sync_integrity_free h' = sync_integrity_free (self s)
  /\ sync_agent_info_free h' = sync_agent_info_free (self s).
Proof.
  intros Htask Hrecv Hname Hzip Hdiff Hsize h'.
  destruct (sync_integrity_push_run peer send_file_result task_id received_filename
              dir t files_metadata ko counts s Htask Hrecv Hname Hzip Hdiff Hsize)
    as (mid & o & k & Hrun & Hmid & _).
  subst h'. rewrite Hrun. cbn [snd self].
  unfold handler_after_push, handler_before_push.
  cbn [extra_valid_requested set_integrity_sync_status set_integrity_check_status
       set_extra_valid_requested].
  destruct (bool_decide (ko_extra_valid ko = ∅)) eqn:Hempty; cbn [negb].
  - apply bool_decide_eq_true_1 in Hempty.
    do 3 (split; [reflexivity |]).
    split; [intros Hne; contradiction |].
    split; [intros _; split; reflexivity |].
    split; reflexivity.
  - apply bool_decide_eq_false_1 in Hempty.
    do 3 (split; [reflexivity |]).
    split; [intros _; split; reflexivity |].
    split; [intros He; contradiction |].
    split; reflexivity.
Qed.

Lemma sync_integrity_removes_archive_witness :
  (exists r : Reply,
     fst (sync_integrity (H := sample_collaborators) quiet_peer (Return tt) "t1"
            extra_valid_metadata_received)
     = Return r)
  /\ fst (sync_integrity (H := sample_collaborators) quiet_peer (Raise CancelledError)
            "t1" extra_valid_metadata_received)
     = Raise CancelledError
  /\ List.last
       (events (snd (sync_integrity (H := sample_collaborators) quiet_peer
                       (Raise CancelledError) "t1" extra_valid_metadata_received)))
       EvSleep0
     = EvUnlink "archive.zip".
Proof.
  split.
  - destruct (sync_integrity_removes_archive (H := sample_collaborators) quiet_peer
                (Return tt) "t1" "worker.zip" "/tmp/zipdir"
                (sample_received_task "worker.zip")
                [("c", sample_merged_meta)]
                (fst (sample_compare_files ∅ [("c", sample_merged_meta)] "worker1"))
                (snd (sample_compare_files ∅ [("c", sample_merged_meta)] "worker1"))
                extra_valid_metadata_received)
      as (_ & Hreturns & _).
    + vm_compute. reflexivity.
    + reflexivity.
    + reflexivity.
    + reflexivity.
    + reflexivity.
    + vm_compute. reflexivity.
    + apply Hreturns; intros e He; discriminate He.
  - destruct (sync_integrity_removes_archive (H := sample_collaborators) quiet_peer
                (Raise CancelledError) "t1" "worker.zip" "/tmp/zipdir"
                (sample_received_task "worker.zip")
                [("c", sample_merged_meta)]
                (fst (sample_compare_files ∅ [("c", sample_merged_meta)] "worker1"))
                (snd (sample_compare_files ∅ [("c", sample_merged_meta)] "worker1"))
                extra_valid_metadata_received)
      as (_ & _ & Hcancelled).
    + vm_compute. reflexivity.
    + reflexivity.
    + reflexivity.
    + reflexivity.
    + reflexivity.
    + vm_compute. reflexivity.
    + destruct (Hcancelled "ok" CancelledError eq_refl eq_refl eq_refl eq_refl)
        as [Hraise Hevents].
      split; [exact Hraise |]. rewrite Hevents. vm_compute. reflexivity.
Defined.

Lemma sync_integrity_sync_record_witness :
  extra_valid_requested
    (self (snd (sync_integrity (H := sample_collaborators) quiet_peer (Return tt) "t1"
                  extra_valid_metadata_received)))
  = true
  /\ is_date_end_master
       (integrity_sync_status
          (self (snd (sync_integrity (H := sample_collaborators) quiet_peer (Return tt)
                        "t1" extra_valid_metadata_received))))
     = default_date
  /\ is_date_end_master
       (integrity_sync_status
          (self (snd (sync_integrity (H := sample_collaborators) quiet_peer (Return tt)
                        "t1" sample_state_missing_b))))
     = DString "t".
Proof.
  destruct (sync_integrity_sync_record (H := sample_collaborators) quiet_peer
              (Return tt) "t1" "worker.zip" "/tmp/zipdir"
              (sample_received_task "worker.zip")
              [("c", sample_merged_meta)]
              (fst (sample_compare_files ∅ [("c", sample_merged_meta)] "worker1"))
              (snd (sample_compare_files ∅ [("c", sample_merged_meta)] "worker1"))
              extra_valid_metadata_received)
    as (Hreq & _ & _ & Hopen & _).
  - vm_compute. reflexivity.
  - reflexivity.
  - reflexivity.
  - reflexivity.
  - reflexivity.
  - vm_compute. reflexivity.
  - destruct (sync_integrity_sync_record (H := sample_collaborators) quiet_peer
                (Return tt) "t1" "same" "/tmp/same" (sample_received_task "same") []
                (fst (sample_compare_files (integrity_control
                                              (server sample_state_missing_b)) []
                        "worker1"))
                (snd (sample_compare_files (integrity_control
                                              (server sample_state_missing_b)) []
                        "worker1"))
                sample_state_missing_b)
      as (_ & _ & _ & _ & Hclosed & _).
    + vm_compute. reflexivity.
    + reflexivity.
    + reflexivity.
    + reflexivity.
    + reflexivity.
    + vm_compute. reflexivity.
    + split; [rewrite Hreq; vm_compute; reflexivity |].
      split.
      * destruct Hopen as [_ Hend]; [vm_compute; discriminate |].
        rewrite Hend. vm_compute. reflexivity.
      * destruct Hclosed as [_ Hend]; [vm_compute; reflexivity |].
        rewrite Hend. reflexivity.
Defined.



(** ** Integrity synchronisation: the wait *)

(** X13. [sync_integrity] and [sync_extra_valid] end before doing
    anything when the wait for the worker's file fails: with the signal of
    the task not set they raise the timeout error, and with an error in
    the place of the file name they raise that error. The session, the
    server, the disk and the log are left as they were; in particular
    [extra_valid_requested] keeps its value and no staging directory is
    touched. *)
Theorem sync_waits_for_file `{Collaborators} (peer : string -> string -> Reply)
    (send_file_result : Outcome unit) (agents : Outcome (list string))
    (task_id : string) (t : ReceiveTask) (s : State) :
  sync_tasks (self s) !! task_id = Some t ->
  (received_information t = false ->
   sync_integrity peer send_file_result task_id s
     = (Raise TimeoutError,
        mkState (self s) (server s) (disk s) (events s) (S (ticks s)))
   /\ sync_extra_valid agents task_id s = (Raise TimeoutError, s))
  /\ (forall e,
        received_information t = true ->
        filename t = ArtifactError e ->
        sync_integrity peer send_file_result task_id s
          = (Raise e, mkState (self s) (server s) (disk s) (events s) (S (ticks s)))
        /\ sync_extra_valid agents task_id s = (Raise e, s)).
Proof.
  intros Htask. split.
  - intros Hwait. split.
    + unfold sync_integrity, wait_received_file.
      unfold bind at 1. unfold datetime_now at 1.
      unfold bind at 1. unfold bind at 1. unfold get_state at 1. cbn [self].
      rewrite Htask, Hwait. reflexivity.
    + unfold sync_extra_valid, sync_worker_files, wait_received_file.
      unfold bind at 1. unfold bind at 1. unfold bind at 1. unfold get_state at 1.
      rewrite Htask, Hwait. destruct s; reflexivity.
  - intros e Hset Herr. split.
    + unfold sync_integrity, wait_received_file.
      unfold bind at 1. unfold datetime_now at 1.
      unfold bind at 1. unfold bind at 1. unfold get_state at 1. cbn [self].
      rewrite Htask, Hset, Herr. reflexivity.
    + unfold sync_extra_valid, sync_worker_files, wait_received_file.
      unfold bind at 1. unfold bind at 1. unfold bind at 1. unfold get_state at 1.
      rewrite Htask, Hset, Herr. destruct s; reflexivity.
Qed.

Lemma sync_waits_for_file_witness :
  fst (sync_integrity (H := sample_collaborators) quiet_peer (Return tt) "t1"
         (state_after [OpRequest "t1" "syn_i_w_m" ""]))
    = Raise TimeoutError
  /\ fst (sync_integrity (H := sample_collaborators) quiet_peer (Return tt) "t1"
            (state_after sync_error_after_round))
     = Raise (OtherException "{}").
Proof.
  split.
  - destruct (sync_waits_for_file (H := sample_collaborators) quiet_peer (Return tt)
                (Return []) "t1"
                (mkReceiveTask ReceiveIntegrityTask coro_sync_integrity "" NoArtifact
                   false false false)
                (state_after [OpRequest "t1" "syn_i_w_m" ""]))
      as [Htimeout _]; [vm_compute; reflexivity |].
    destruct (Htimeout eq_refl) as [Hrun _]. rewrite Hrun. reflexivity.
  - destruct (sync_waits_for_file (H := sample_collaborators) quiet_peer (Return tt)
                (Return []) "t1"
                (mkReceiveTask ReceiveIntegrityTask coro_sync_integrity ""
                   (ArtifactError (OtherException "{}")) true false true)
                (state_after sync_error_after_round))
      as [_ Herror]; [vm_compute; reflexivity |].
    destruct (Herror (OtherException "{}") eq_refl eq_refl) as [Hrun _].
    rewrite Hrun. reflexivity.
Defined.

(** ** Applying the files of a worker: what is skipped and what is counted *)

(** X14. A file whose base name is [client.keys] is refused: nothing is
    moved or written, whether the entry is merged or not, and one warning
    is counted under its cluster item. *)
Theorem update_file_refuses_client_keys `{Collaborators}
    (agent_ids : Outcome (list string)) (dir name_ : string) (data : FileMeta)
    (n : NErrors) (s : State) :
  basename name_ = "client.keys" ->
  update_file agent_ids dir name_ data n s
  = (Return (mkNErrors (n_errors_errors n)
               (bump_if_not (cluster_item_key data) (n_errors_warnings n))), s).
Proof.
  intros Hbase. unfold update_file. rewrite Hbase. reflexivity.
Qed.

Lemma update_file_refuses_client_keys_witness :
  update_file (H := sample_collaborators) (Return ["001"]) "/tmp/zipdir"
    "etc/client.keys" sample_merged_meta (mkNErrors ∅ ∅) sample_state_group_on_disk
  = (Return (mkNErrors ∅ {["queue/agent-groups/" := 1]}), sample_state_group_on_disk).
Proof.
  rewrite (update_file_refuses_client_keys (H := sample_collaborators));
    [vm_compute; reflexivity | reflexivity].
Defined.

(** X15. A member of an agent that the master does not know is skipped
    with one warning and without a cooperative yield; a member of a known
    agent whose time parses in neither format is skipped with one error,
    after which the loop yields. In both cases nothing is written and
    [total_extra_valid] is not changed. *)
Theorem update_member_skips `{Collaborators} (agent_ids : Outcome (list string))
    (data : FileMeta) (m : MergedMember) (n : NErrors) (s : State) :
  (agent_known (basename (file_path m)) agent_ids = false ->
   update_member agent_ids data m n s
   = (Return (add_warning (cluster_item_key data) n), s))
  /\ (agent_known (basename (file_path m)) agent_ids = true ->
      strptime (file_time m) "%Y-%m-%d %H:%M:%S.%f" = None ->
      strptime (file_time m) "%Y-%m-%d %H:%M:%S" = None ->
      update_member agent_ids data m n s
      = (Return (add_error (cluster_item_key data) n),
         mkState (self s) (server s) (disk s) (events s ++ [EvSleep0]) (ticks s))).
Proof.
  split.
  - intros Hunknown. unfold update_member, bind, get_state. rewrite Hunknown.
    reflexivity.
  - intros Hknown Hfrac Hplain. unfold update_member, bind, get_state, parse_mtime.
    rewrite Hknown, Hfrac, Hplain. reflexivity.
Qed.

Lemma update_member_skips_witness :
  update_member (H := sample_collaborators) (Return []) sample_merged_meta
    sample_member (mkNErrors ∅ ∅) sample_state
  = (Return (mkNErrors ∅ {["queue/agent-groups/" := 1]}), sample_state)
  /\ fst (update_member (H := sample_collaborators) (Return ["001"])
            sample_merged_meta (mkMergedMember "001" "group-a" "yesterday")
            (mkNErrors ∅ ∅) sample_state)
     = Return (mkNErrors {["queue/agent-groups/" := 1]} ∅).
Proof.
  split.
  - destruct (update_member_skips (H := sample_collaborators) (Return [])
                sample_merged_meta sample_member (mkNErrors ∅ ∅) sample_state)
      as [Hunknown _].
    rewrite (Hunknown eq_refl). vm_compute. reflexivity.
  - destruct (update_member_skips (H := sample_collaborators) (Return ["001"])
                sample_merged_meta (mkMergedMember "001" "group-a" "yesterday")
                (mkNErrors ∅ ∅) sample_state)
      as [_ Hbad].
    rewrite (Hbad eq_refl eq_refl eq_refl). vm_compute. reflexivity.
Defined.

(** A member that passes the checks is staged, moved and counted. *)
Lemma update_member_writes `{Collaborators} (agent_ids : Outcome (list string))
    (data : FileMeta) (m : MergedMember) (n : NErrors) (s : State) (mtime : Z) :
  agent_known (basename (file_path m)) agent_ids = true ->
  parse_mtime (file_time m) = Some mtime ->
  file_permissions (cluster_item_key data) <> None ->
  (forall f, disk s !! full_unmerged_name m = Some f -> local_mtime_of f <= mtime) ->
  update_member agent_ids data m n s = (Return n, member_written m mtime s).
Proof.
  intros Hknown Hparse Hperm Hold. unfold update_member, bind, get_state.
  rewrite Hknown, Hparse. cbn [negb].
  fold (full_unmerged_name m). fold (tmp_unmerged_path (self s) m).
  assert (Hgate : match disk s !! full_unmerged_name m with
                  | Some f => local_mtime_of f >? mtime
                  | None => false
                  end = false).
  { destruct (disk s !! full_unmerged_name m) as [f |] eqn:Hf; [| reflexivity].
    rewrite Z.gtb_ltb. apply Z.ltb_ge. apply Hold. reflexivity. }
  rewrite Hgate.
  destruct (file_permissions (cluster_item_key data)) as [perm |]; [| contradiction].
  unfold write_file, safe_move, bind, datetime_now, get_state, modify, emit, ret.
  cbn [self server disk events ticks with_disk].
  rewrite lookup_insert_eq. reflexivity.
Qed.

(** X16. Applying the same member a second time is not skipped: the
    destination then carries the member's time in whole seconds, which is
    not newer than the member; the member is written again, the
    destination ends with the same content and time as after the first
    application, and [total_extra_valid] has grown by two. *)
Theorem update_member_reapplied `{Collaborators} (agent_ids : Outcome (list string))
    (data : FileMeta) (m : MergedMember) (n : NErrors) (s : State) (mtime : Z) :
  agent_known (basename (file_path m)) agent_ids = true ->
  parse_mtime (file_time m) = Some mtime ->
  file_permissions (cluster_item_key data) <> None ->
  (forall f, disk s !! full_unmerged_name m = Some f -> local_mtime_of f <= mtime) ->
  let s1 := snd (update_member agent_ids data m n s) in
  let s2 := snd (update_member agent_ids data m n s1) in
  fst (update_member agent_ids data m n s1) = Return n
  /\ disk s1 !! full_unmerged_name m
     = Some (mkDiskFile (file_data m) (timegm_of mtime * 1000000))
  /\ disk s2 !! full_unmerged_name m = disk s1 !! full_unmerged_name m
  /\ is_total_extra_valid (integrity_sync_status (self s2))
     = is_total_extra_valid (integrity_sync_status (self s)) + 2.
Proof.
  intros Hknown Hparse Hperm Hold s1 s2.
  assert (H1 : update_member agent_ids data m n s = (Return n, member_written m mtime s))
    by (apply update_member_writes; assumption).
  assert (Hs1 : s1 = member_written m mtime s) by (unfold s1; rewrite H1; reflexivity).
  assert (Hdisk1 : disk s1 !! full_unmerged_name m
                   = Some (mkDiskFile (file_data m) (timegm_of mtime * 1000000))).
  { rewrite Hs1. unfold member_written. cbn [disk]. apply lookup_insert_eq. }
  assert (H2 : update_member agent_ids data m n s1 = (Return n, member_written m mtime s1)).
  { apply update_member_writes; try assumption.
    intros f Hf. rewrite Hdisk1 in Hf. inversion Hf; subst f. clear Hf.
    unfold local_mtime_of, timegm_of. cbn [st_mtime_us].
    rewrite Z.quot_mul by lia.
    pose proof (Z.mul_div_le mtime 1000000 ltac:(lia)). lia. }
  assert (Hs2 : s2 = member_written m mtime s1) by (unfold s2; rewrite H2; reflexivity).
  split; [rewrite H2; reflexivity |]. split; [exact Hdisk1 |]. split.
  - rewrite Hdisk1, Hs2. unfold member_written. cbn [disk]. apply lookup_insert_eq.
  - rewrite Hs2, Hs1. unfold member_written, bump_total_extra_valid.
    cbn. lia.
Qed.

Lemma update_member_reapplied_witness :
  disk (snd (update_member (H := sample_collaborators) (Return ["001"])
               sample_merged_meta sample_member (mkNErrors ∅ ∅)
               (snd (update_member (H := sample_collaborators) (Return ["001"])
                       sample_merged_meta sample_member (mkNErrors ∅ ∅)
                       sample_state))))
    !! "/var/ossec/001"
  = Some (mkDiskFile "group-a" 100000000).
Proof.
  destruct (update_member_reapplied (H := sample_collaborators) (Return ["001"])
              sample_merged_meta sample_member (mkNErrors ∅ ∅) sample_state 100000000)
    as (_ & Hfirst & Hsecond & _).
  - reflexivity.
  - reflexivity.
  - vm_compute. discriminate.
  - intros f Hf. vm_compute in Hf. discriminate.
  - exact (eq_trans Hsecond Hfirst).
Defined.

(** ** Applying the files of a worker: the pass never aborts *)

Section Pass.
Context `{Collaborators}.
Variable v : list Event.









End Pass.



(** ** Health view: counts, entries, failures *)

Lemma get_health_nodes_witness :
  exists d : HealthDoc,
    Master_get_health (H := sample_collaborators) sample_master_one_worker
      (FilterList ["master-node"]) = Return d
    /\ "master-node" ∈ dom (nodes d)
    /\ "worker1" ∉ dom (nodes d).
Proof.
  eexists. split; [vm_compute; reflexivity |].
  split.
  - apply (get_health_nodes (H := sample_collaborators) sample_master_one_worker
             (FilterList ["master-node"]) _ eq_refl "master-node").
    right. split; reflexivity.
  - intros Hin.
    apply (get_health_nodes (H := sample_collaborators) sample_master_one_worker
             (FilterList ["master-node"]) _ eq_refl "worker1") in Hin.
    destruct Hin as [[_ Hsel] | [_ Heq]]; discriminate.
Defined.

Section HealthEntries.
Context `{Collaborators}.

Lemma get_health_run (m : Master) (f : FilterNode) (d : HealthDoc) :
  Master_get_health m f = Return d ->
  exists workers_info : gmap string NodeEntry,
    n_connected_nodes d
      = size (filter (fun kv => Is_true (worker_selected f kv.1)) (clients m))
    /\ nodes d = map_imap (fun k e => Some (fill_entry k e)) workers_info
    /\ map_Forall (fun _ e => entry_raises e = false) workers_info.
Proof.
  unfold Master_get_health. intros Hrun.
  destruct (master_selected f (cfg_node_name (configuration m))).
  - destruct (Master_to_dict m) as [e | x]; [| discriminate].
    destruct (bool_decide _) eqn:Hall; [| discriminate].
    apply bool_decide_eq_true_1 in Hall.
    inversion Hrun; subst d; clear Hrun. eexists. cbn [n_connected_nodes nodes].
    split; [apply map_size_fmap |]. split; [reflexivity | exact Hall].
  - destruct (bool_decide _) eqn:Hall; [| discriminate].
    apply bool_decide_eq_true_1 in Hall.
    inversion Hrun; subst d; clear Hrun. eexists. cbn [n_connected_nodes nodes].
    split; [apply map_size_fmap |]. split; [reflexivity | exact Hall].
Qed.

Lemma size_filled (workers_info : gmap string NodeEntry) :
  size (map_imap (fun k e => Some (fill_entry k e)) workers_info) = size workers_info.
Proof.
  rewrite <- !(size_dom (D := gset string)). f_equal.
  apply set_eq. intros k. apply dom_filled.
Qed.

(** An entry of the document that is not of type ['master'] is the filled
    projection of a connected worker. *)
Lemma get_health_worker_entry (m : Master) (f : FilterNode) (d : HealthDoc)
    (k : string) (e : NodeEntry) :
  Master_get_health m f = Return d ->
  nodes d !! k = Some e ->
  info_type (node_info e) <> "master" ->
  exists h : MasterHandler, clients m !! k = Some h /\ e = fill_entry k (to_dict h).
Proof.
  unfold Master_get_health. intros Hrun Hentry Htype.
  assert (Hworker : forall e0,
            (to_dict <$> filter (fun kv : string * MasterHandler =>
                                   Is_true (worker_selected f kv.1)) (clients m)) !! k
            = Some e0 ->
            exists h, clients m !! k = Some h /\ e0 = to_dict h).
  { intros e0 He0. rewrite lookup_fmap in He0.
    destruct (filter _ (clients m) !! k) as [h |] eqn:Hh; [| discriminate].
    apply map_lookup_filter_Some in Hh as [Hh _].
    exists h. split; [exact Hh |]. inversion He0. reflexivity. }
  destruct (master_selected f (cfg_node_name (configuration m))).
  - destruct (Master_to_dict m) as [em | x] eqn:Hm; [| discriminate].
    destruct (bool_decide _) eqn:Hall; [| discriminate].
    apply bool_decide_eq_true_1 in Hall.
    inversion Hrun; subst d; clear Hrun. cbn [nodes] in Hentry.
    rewrite map_lookup_imap in Hentry.
    destruct (decide (k = cfg_node_name (configuration m))) as [-> | Hne].
    + rewrite lookup_insert_eq in Hentry. cbn in Hentry.
      inversion Hentry; subst e; clear Hentry.
      specialize (Hall _ _ (lookup_insert_eq _ _ _)).
      unfold Master_to_dict in Hm.
      destruct (cfg_nodes (configuration m)); [discriminate |].
      inversion Hm; subst em; clear Hm.
      unfold entry_raises in Hall. cbn [node_info node_status info_type] in Hall.
      rewrite andb_true_r in Hall. apply negb_false_iff, String.eqb_eq in Hall.
      contradiction Htype. unfold fill_entry.
      cbn [node_info info_type]. rewrite Hall. reflexivity.
    + rewrite lookup_insert_ne in Hentry by (intros Heq; apply Hne; symmetry; exact Heq).
      destruct ((to_dict <$> filter _ (clients m)) !! k) as [e0 |] eqn:He0;
        [| discriminate].
      cbn in Hentry. inversion Hentry; subst e; clear Hentry.
      destruct (Hworker e0 eq_refl) as (h & Hh & ->).
      exists h. split; [exact Hh | reflexivity].
  - destruct (bool_decide _) eqn:Hall; [| discriminate].
    inversion Hrun; subst d; clear Hrun. cbn [nodes] in Hentry.
    rewrite map_lookup_imap in Hentry.
    destruct ((to_dict <$> filter _ (clients m)) !! k) as [e0 |] eqn:He0;
      [| discriminate].
    cbn in Hentry. inversion Hentry; subst e; clear Hentry.
    destruct (Hworker e0 eq_refl) as (h & Hh & ->).
    exists h. split; [exact Hh | reflexivity].
Qed.

End HealthEntries.

(** X19. [n_connected_nodes] counts the workers that the filter selects
    and never the master: without a filter it is the number of connected
    workers, although the document then has the master's entry too. *)
Theorem get_health_counts_workers `{Collaborators} (m : Master) (f : FilterNode)
    (d : HealthDoc) :
  Master_get_health m f = Return d ->
  n_connected_nodes d
    = size (filter (fun kv => Is_true (worker_selected f kv.1)) (clients m))
  /\ (f = FilterNone ->
      n_connected_nodes d = size (clients m)
      /\ cfg_node_name (configuration m) ∈ dom (nodes d)
      /\ (cfg_node_name (configuration m) ∉ dom (clients m) ->
          size (nodes d) = S (n_connected_nodes d))).
Proof.
  intros Hrun.
  destruct (get_health_run m f d Hrun) as (workers_info & Hn & _ & _).
  split; [exact Hn |]. intros ->.
  assert (Hall : filter (fun kv : string * MasterHandler =>
                           Is_true (worker_selected FilterNone kv.1)) (clients m)
                 = clients m).
  { apply map_filter_id. intros k h _. exact I. }
  rewrite Hall in Hn. split; [exact Hn |].
  revert Hrun Hn. unfold Master_get_health. cbn [master_selected filter_is_None orb].
  destruct (Master_to_dict m) as [e | x]; [| discriminate].
  destruct (bool_decide _); [| discriminate].
  intros Hrun Hn. inversion Hrun; subst d; clear Hrun. cbn [nodes n_connected_nodes] in *.
  split.
  - apply dom_filled. rewrite dom_insert. set_solver.
  - intros Hfresh. rewrite size_filled.
    rewrite map_size_insert_None; [reflexivity |].
    rewrite lookup_fmap, map_filter_id by (intros; exact I).
    apply not_elem_of_dom in Hfresh. rewrite Hfresh. reflexivity.
Qed.

Lemma get_health_counts_workers_witness :
  n_connected_nodes (health_of sample_master_one_worker FilterNone) = 1%nat
  /\ size (nodes (health_of sample_master_one_worker FilterNone)) = 2%nat.
Proof.
  assert (Hrun : Master_get_health (H := sample_collaborators)
                   sample_master_one_worker FilterNone
                 = Return (health_of sample_master_one_worker FilterNone))
    by (vm_compute; reflexivity).
  destruct (get_health_counts_workers (H := sample_collaborators)
              sample_master_one_worker FilterNone
              (health_of sample_master_one_worker FilterNone) Hrun) as [_ Hnone].
  destruct (Hnone eq_refl) as (Hall & _ & Hsize).
  split.
  - rewrite Hall. vm_compute. reflexivity.
  - rewrite Hsize; [rewrite Hall; vm_compute; reflexivity |].
    apply not_elem_of_dom. vm_compute. reflexivity.
Defined.

(** X20. Every entry of the health document carries the number of
    active agents that the agent database reports for its node. Every
    entry of a type other than ['master'] is the projection of the
    connected worker of that name: its status carries the worker's
    [sync_integrity_free] and sync records, and its [last_keep_alive] is
    the formatted text of that worker's keep-alive time. *)
Theorem get_health_entries_filled `{Collaborators} (m : Master) (f : FilterNode)
    (d : HealthDoc) (k : string) (e : NodeEntry) :
  Master_get_health m f = Return d ->
  nodes d !! k = Some e ->
  info_n_active_agents (node_info e) = Some (n_active_agents k)
  /\ (info_type (node_info e) <> "master" ->
      exists (h : MasterHandler) (st : NodeStatus),
        clients m !! k = Some h
        /\ info_name (node_info e) = name h
        /\ node_status e = Some st
        /\ st_last_keep_alive st
           = KeepAliveStr (strftime (last_keepalive (hello_info h)))
        /\ st_sync_integrity_free st = sync_integrity_free h
        /\ st_last_check_integrity st = integrity_check_status h
        /\ st_last_sync_agentinfo st = sync_agent_info_status h).
Proof.
  intros Hrun Hentry. split.
  - destruct (get_health_run m f d Hrun) as (workers_info & _ & Hnodes & _).
    rewrite Hnodes, map_lookup_imap in Hentry.
    destruct (workers_info !! k) as [e0 |]; [| discriminate].
    simpl in Hentry. inversion Hentry; subst e; clear Hentry.
    unfold fill_entry. destruct (String.eqb (info_type (node_info e0)) "master");
      reflexivity.
  - intros Htype.
    destruct (get_health_worker_entry m f d k e Hrun Hentry Htype) as (h & Hh & ->).
    exists h. unfold fill_entry in *.
    destruct (String.eqb (info_type (node_info (to_dict h))) "master") eqn:Hm.
    + apply String.eqb_eq in Hm. exfalso. apply Htype. exact Hm.
    + eexists. split; [exact Hh |]. split; [reflexivity |].
      split; [reflexivity |]. cbn. repeat split.
Qed.

Lemma get_health_entries_filled_witness :
  option_map (fun e => info_n_active_agents (node_info e))
    (nodes (health_of sample_master_one_worker FilterNone) !! "worker1")
  = Some (Some 0)
  /\ option_map st_last_keep_alive
       (nodes (health_of sample_master_one_worker FilterNone) !! "worker1"
          ≫= node_status)
     = Some (KeepAliveStr "t").
Proof.
  assert (Hrun : Master_get_health (H := sample_collaborators)
                   sample_master_one_worker FilterNone
                 = Return (health_of sample_master_one_worker FilterNone))
    by (vm_compute; reflexivity).
  destruct (nodes (health_of sample_master_one_worker FilterNone) !! "worker1")
    as [e |] eqn:He; [| vm_compute in He; discriminate].
  destruct (get_health_entries_filled (H := sample_collaborators)
              sample_master_one_worker FilterNone
              (health_of sample_master_one_worker FilterNone) "worker1" e
              Hrun He) as [Hagents Hstatus].
  split.
  - cbn [option_map]. f_equal. exact Hagents.
  - destruct Hstatus as (h & st & Hh & _ & Hst & Hkeep & _).
    { vm_compute in He. inversion He. vm_compute. discriminate. }
    cbn [mbind option_bind]. rewrite Hst. cbn [option_map]. rewrite Hkeep.
    vm_compute in Hh. inversion Hh. reflexivity.
Defined.

(** X21. [get_health] fails when the master has to add its own entry
    (the filter is missing or names the master) and cannot: with an empty
    list of node addresses in the configuration the lookup of the first
    address raises [IndexError], and with a configured node type other
    than ['master'] the loop looks for the ['status'] that the master's
    entry does not have and raises [KeyError]. *)
Theorem get_health_master_entry_failures `{Collaborators} (m : Master)
    (f : FilterNode) :
  master_selected f (cfg_node_name (configuration m)) = true ->
  (cfg_nodes (configuration m) = [] ->
   Master_get_health m f = Raise (IndexError "list index out of range"))
  /\ (cfg_nodes (configuration m) <> [] ->
      cfg_node_type (configuration m) <> "master" ->
      Master_get_health m f = Raise (KeyError "status")).
Proof.
  intros Hsel. unfold Master_get_health, Master_to_dict. rewrite Hsel. split.
  - intros Hnil. rewrite Hnil. reflexivity.
  - intros Hnodes Htype.
    destruct (cfg_nodes (configuration m)) as [| ip0 rest]; [contradiction |].
    rewrite bool_decide_false; [reflexivity |].
    intros Hall.
    specialize (Hall (cfg_node_name (configuration m)) _ (lookup_insert_eq _ _ _)).
    unfold entry_raises in Hall. cbn [node_info info_type node_status] in Hall.
    apply String.eqb_neq in Htype. rewrite Htype in Hall. discriminate.
Qed.

Lemma get_health_master_entry_failures_witness :
  Master_get_health (H := sample_collaborators) sample_master_no_nodes FilterNone
    = Raise (IndexError "list index out of range")
  /\ Master_get_health (H := sample_collaborators) sample_master_odd_type FilterNone
     = Raise (KeyError "status").
Proof.
  split.
  - apply (get_health_master_entry_failures (H := sample_collaborators)
             sample_master_no_nodes FilterNone eq_refl). reflexivity.
  - apply (get_health_master_entry_failures (H := sample_collaborators)
             sample_master_odd_type FilterNone eq_refl); vm_compute; discriminate.
Defined.

(** ** The hello of a worker *)

Lemma split_all_length (sep : ascii) (s : string) :
  length (split_all sep s) = S (count_char sep s).
Proof.
  induction s as [| c rest IH]; [reflexivity |].
  cbn [split_all count_char]. destruct (Ascii.eqb c sep).
  - cbn [length]. rewrite IH. reflexivity.
  - destruct (split_all sep rest) as [| h t]; [discriminate IH |].
    cbn [length] in *. rewrite IH. reflexivity.
Qed.

Lemma unpack4_short (xs : list string) (s : State) :
  length xs <> 4%nat -> exists msg, unpack4 xs s = (Raise (ValueError msg), s).
Proof.
  intros Hlen.
  destruct xs as [| a [| b [| c [| d [| e rest]]]]];
    try (eexists; reflexivity).
  contradiction Hlen. reflexivity.
Qed.

(** X22. A hello whose data has four fields, once the base hello has
    named and registered the session, always records the announced
    version, cluster name and node type, also when it then rejects the
    worker, and it leaves what the base hello did in place. It raises
    error 3030 when the cluster name differs from the configured one,
    whatever the version; error 3031 when only the version differs; and
    otherwise it returns the answer of the base hello, creating the
    worker's directory exactly when that answer is ['ok'] and the
    directory does not exist. *)
Theorem hello_checks `{Collaborators}
    (super_hello : string -> M (string * string)) (path_exists : string -> bool)
    (data nm cl ty ver cmd payload : string) (s s1 : State) :
  split_all space data = [nm; cl; ty; ver] ->
  super_hello nm s = (Return (cmd, payload), s1) ->
  let worker_dir :=
    path_join (path_join (path_join wazuh_path "queue") "cluster")
      (name (self s1)) in
  let '(out, s2) := hello super_hello path_exists data s in
  s2 = with_self (set_hello_info
         (mkWorkerInfo ver cl ty (ip (hello_info (self s1)))
            (last_keepalive (hello_info (self s1))))) s1
  /\ (cl <> cfg_name (configuration (server s1)) ->
      out = Raise (WazuhClusterError 3030 ""))
  /\ (cl = cfg_name (configuration (server s1)) -> ver <> metadata_version ->
      out = Raise (WazuhClusterError 3031 ""))
  /\ (cl = cfg_name (configuration (server s1)) -> ver = metadata_version ->
      out = Return (cmd, payload,
                    if String.eqb cmd "ok" && negb (path_exists worker_dir)
                    then [Mkdir worker_dir] else [])).
Proof.
  intros Hsplit Hsuper worker_dir. subst worker_dir.
  unfold hello, bind at 1. rewrite Hsplit. cbn [unpack4 ret].
  unfold bind at 1. rewrite Hsuper.
  unfold bind, modify, get_state.
  cbn [self server disk events ticks with_self set_hello_info hello_info
       cluster_name version name].
  destruct (String.eqb cl (cfg_name (configuration (server s1)))) eqn:Hcl;
    cbn [negb].
  - apply String.eqb_eq in Hcl.
    destruct (String.eqb ver metadata_version) eqn:Hver; cbn [negb].
    + apply String.eqb_eq in Hver.
      destruct (String.eqb cmd "ok" && negb (path_exists _)) eqn:Hmk;
        (split; [reflexivity |]); (split; [intros Hne; contradiction |]);
        (split; [intros _ Hne; contradiction |]); intros _ _;
        unfold ret; reflexivity.
    + apply String.eqb_neq in Hver.
      split; [reflexivity |]. split; [intros Hne; contradiction |].
      split; [reflexivity |]. intros _ Heq; contradiction.
  - apply String.eqb_neq in Hcl.
    split; [reflexivity |]. split; [reflexivity |].
    split; intros Heq; contradiction.
Qed.

Lemma hello_checks_witness :
  (fst (hello (H := sample_collaborators) sample_super_hello (fun _ => false)
          "worker1 wazuh worker 4.2.0" sample_state)
   = Return ("ok", "Client worker1 added", [Mkdir "/var/ossec/queue/cluster/worker1"]))
  /\ fst (hello (H := sample_collaborators) sample_super_hello (fun _ => false)
            "worker1 other worker 4.1.0" sample_state)
     = Raise (WazuhClusterError 3030 "").
Proof.
  split.
  - pose proof (hello_checks (H := sample_collaborators) sample_super_hello
                  (fun _ => false) "worker1 wazuh worker 4.2.0"
                  "worker1" "wazuh" "worker" "4.2.0" "ok" "Client worker1 added"
                  sample_state _ eq_refl eq_refl) as Hk.
    cbv zeta in Hk.
    destruct (hello (H := sample_collaborators) sample_super_hello (fun _ => false)
                "worker1 wazuh worker 4.2.0" sample_state) as [out s2].
    destruct Hk as (_ & _ & _ & Hok). cbn [fst].
    rewrite (Hok eq_refl eq_refl). vm_compute. reflexivity.
  - pose proof (hello_checks (H := sample_collaborators) sample_super_hello
                  (fun _ => false) "worker1 other worker 4.1.0"
                  "worker1" "other" "worker" "4.1.0" "ok" "Client worker1 added"
                  sample_state _ eq_refl eq_refl) as Hk.
    cbv zeta in Hk.
    destruct (hello (H := sample_collaborators) sample_super_hello (fun _ => false)
                "worker1 other worker 4.1.0" sample_state) as [out s2].
    destruct Hk as (_ & Hbad & _). cbn [fst].
    apply Hbad. vm_compute. discriminate.
Defined.

(** X23. A hello whose data does not hold exactly three spaces fails with
    [ValueError] at the unpacking of its fields: the base hello is not
    run, so the session is neither named nor registered, and the state is
    as before. *)
Theorem hello_malformed `{Collaborators}
    (super_hello : string -> M (string * string)) (path_exists : string -> bool)
    (data : string) (s : State) :
  count_char space data <> 3%nat ->
  exists msg,
    hello super_hello path_exists data s = (Raise (ValueError msg), s).
Proof.
  intros Hcount.
  destruct (unpack4_short (split_all space data) s) as [msg Hmsg].
  { rewrite split_all_length. lia. }
  exists msg. unfold hello, bind at 1. rewrite Hmsg. reflexivity.
Qed.

Lemma hello_malformed_witness :
  exists msg,
    hello (H := sample_collaborators) sample_super_hello (fun _ => false)
      "worker1 wazuh worker" sample_state
    = (Raise (ValueError msg), sample_state).
Proof.
  apply (hello_malformed (H := sample_collaborators)).
  vm_compute. discriminate.
Defined.
